(** * Spectrum calculation module: a shallow embedding and its properties

    The development follows [src/SpectrumCalculationModule.ts] and
    [src/types.ts].

    Numbers.  A JavaScript [number] is modelled as an exact rational
    ([Q]); comparisons are the boolean tests of the source, [Math.floor]
    and [Math.ceil] are [Qfloor] and [Qceiling], and [Math.PI] is the
    rational value of the IEEE double the engine uses.  What lies
    outside this model: the rounding error of double arithmetic, NaN and
    the infinities.  A division by zero, which JavaScript answers with
    NaN or an infinity, yields 0 here; the engine divides by zero only
    on a waveform of fewer than two samples (the window divides by
    [n - 1], the resolution by the padded length).

    Doubles.  Where the rounding of a sum, a product or a quotient
    decides which branch the engine takes (the running sum of the band
    loop, the product in the sample-rate gate, the quotients that give
    bin indices, the halved sum that gives a center frequency, the mean
    of the peaks), a statement over the rationals carries hypotheses
    under which double arithmetic takes the same branch: whole
    frequencies, a resolution that is a whole sample rate over a power
    of two, a center frequency not below the smallest normal double.
    [Binary64] embeds these places a second time, over IEEE doubles
    (the kernel's primitive floats), and its properties show what the
    engine does outside the hypotheses; the setters, whose guards NaN
    passes, are studied there.

    External primitives.  [Math.cos], [Math.sqrt] and the constructor
    and real transform of the [fft.js] package are not code of the
    repository; the engine is parameterised by them.  The two readings
    of [Date.now] are arguments of [calculateSpectrum].

    Objects.  The band mapping is a JavaScript [Map] keyed by freshly
    built two-element arrays; such keys are compared by identity, so the
    mapping never merges two bands and is an insertion-ordered
    association list.  The pure model keeps that list.  A second model
    of [integrateSpectrum], over an explicit object store, accounts for
    allocation, aliasing and mutation, and is shown to compute what the
    pure model computes.

    Layout.  Definitions come first: numbers, types, the engine state
    and its setters, the engine, reference instances of the external
    primitives, descriptions of the band grid and of integration that do
    not mention the loops, concrete inputs, the store model, and the
    embedding over doubles.  The properties follow. *)

From Stdlib Require Import Floats.
(* A decimal literal of a double denotes the nearest double, as in
   JavaScript. *)
Set Warnings "-inexact-float".
From Stdlib Require Import ZArith QArith Qround Qminmax Qabs Lqa Lia.
From Stdlib Require Import List String Bool.
From stdpp Require Import base option gmap.
Import ListNotations.

Local Open Scope Q_scope.

(** ** JavaScript numbers *)

Definition number : Type := Q.

(** [x < y] on numbers, as a test. *)
Definition Qltb (x y : number) : bool := negb (Qle_bool y x).

Definition Math_floor (x : number) : Z := Qfloor x.
Definition Math_ceil (x : number) : Z := Qceiling x.
Definition Math_min (x y : number) : number := Qmin x y.

(** [Math.PI]: the double 0x400921FB54442D18, an exact rational. *)
Definition Math_PI : number := 884279719003555 # 281474976710656.

(** [value.toFixed(10)] read back by [parseFloat].  [toFixed] works on the
    absolute value: at or above 10^21 it prints the number itself,
    below it takes the integer n with n/10^10 closest to the value, the
    larger n on a tie. *)
Definition ten10 : number := inject_Z (10 ^ 10).
Definition ten21 : number := inject_Z (10 ^ 21).

Definition roundFixed10 (x : number) : number :=
  inject_Z (Qfloor (x * ten10 + (1 # 2))) / ten10.

Definition limitPrecision (value : number) : number :=
  if Qle_bool ten21 (Qabs value) then value
  else if Qltb value 0 then - roundFixed10 (- value)
  else roundFixed10 value.

(** ** Types ([src/types.ts]) *)

Inductive WindowType := Hanning | Rectangular.

Inductive Quantity := Acceleration | Velocity | Displacement.

Definition Quantity_eqb (a b : Quantity) : bool :=
  match a, b with
  | Acceleration, Acceleration | Velocity, Velocity
  | Displacement, Displacement => true
  | _, _ => false
  end.

Module TimeWaveform.
Record t := {
  data : list number;
  sampleRate : number;
  quantity : Quantity
}.
End TimeWaveform.

(** A band key is the array [[startFreq, endFreq]]. *)
Definition band : Type := (number * number)%type.

(** [rawSpectrum] is the field the engine attaches to a valid result for
    visualisation; it is absent from results built on a failure path. *)
Record SpectrumResult := {
  maxFrequency : number;
  resolution : number;
  quantity : Quantity;
  bandPeaks : list (band * number);
  isValid : bool;
  errorMessage : option string;
  rawSpectrum : option (list number)
}.

Module CONSTANTS.
Definition MAX_LINES : number := 102400.
Definition MIN_LINES : number := 100.
Definition MAX_SAMPLE_RATE : number := 131072.
Definition MAX_WAVEFORM_LENGTH : number := 5 * 60.
Definition MAX_SPECTRUM_CALC_TIME : Z := 100.
End CONSTANTS.

(** ** Engine state and its setters *)

Module Config.
Record t := {
  numberOfLines : number;
  windowType : WindowType;
  minFrequency : number;
  maxFrequency : number;
  highPassFrequency : number;
  lowPassFrequency : number;
  bandRange : number
}.

(** The field initialisers of the class. *)
Definition initial : t := {|
  numberOfLines := 1024;
  windowType := Hanning;
  minFrequency := 0;
  maxFrequency := 1000;
  highPassFrequency := 0;
  lowPassFrequency := 0;
  bandRange := 25
|}.
End Config.

Definition areParametersValid (this : Config.t) : bool :=
  Qle_bool CONSTANTS.MIN_LINES (Config.numberOfLines this) &&
  Qle_bool (Config.numberOfLines this) CONSTANTS.MAX_LINES &&
  Qle_bool 0 (Config.minFrequency this) &&
  Qltb (Config.minFrequency this) (Config.maxFrequency this) &&
  Qltb 0 (Config.bandRange this) &&
  Qle_bool (Config.bandRange this) (Config.maxFrequency this).

Definition isFilterValid (this : Config.t) : bool :=
  if Qeq_bool (Config.highPassFrequency this) 0 then true
  else if Qeq_bool (Config.lowPassFrequency this) 0 then true
  else Qltb (Config.highPassFrequency this) (Config.lowPassFrequency this).

Definition isIntegrationAllowed (this : Config.t) : bool :=
  Qltb 0 (Config.highPassFrequency this).

(** A setter either throws ([inl] with the message of the [Error]) or
    returns the updated state. *)
Definition setter_result : Type := (string + Config.t)%type.

(** [this.numberOfLines = lines] *)
Definition withNumberOfLines (this : Config.t) (lines : number) : Config.t := {|
  Config.numberOfLines := lines;
  Config.windowType := Config.windowType this;
  Config.minFrequency := Config.minFrequency this;
  Config.maxFrequency := Config.maxFrequency this;
  Config.highPassFrequency := Config.highPassFrequency this;
  Config.lowPassFrequency := Config.lowPassFrequency this;
  Config.bandRange := Config.bandRange this |}.

Definition setNumberOfLines (this : Config.t) (lines : number) : setter_result :=
  if Qltb lines CONSTANTS.MIN_LINES then
    inl "Number of lines cannot be less than 100"%string
  else if Qltb CONSTANTS.MAX_LINES lines then
    inl "Number of lines cannot exceed 102400"%string
  else inr (withNumberOfLines this lines).

Definition setWindowType (this : Config.t) (type : WindowType) : setter_result :=
  inr {|
    Config.numberOfLines := Config.numberOfLines this;
    Config.windowType := type;
    Config.minFrequency := Config.minFrequency this;
    Config.maxFrequency := Config.maxFrequency this;
    Config.highPassFrequency := Config.highPassFrequency this;
    Config.lowPassFrequency := Config.lowPassFrequency this;
    Config.bandRange := Config.bandRange this |}.

Definition setMinFrequency (this : Config.t) (frequency : number) : setter_result :=
  if Qltb frequency 0 then inl "Frequency cannot be negative"%string
  else inr {|
    Config.numberOfLines := Config.numberOfLines this;
    Config.windowType := Config.windowType this;
    Config.minFrequency := frequency;
    Config.maxFrequency := Config.maxFrequency this;
    Config.highPassFrequency := Config.highPassFrequency this;
    Config.lowPassFrequency := Config.lowPassFrequency this;
    Config.bandRange := Config.bandRange this |}.

Definition setMaxFrequency (this : Config.t) (frequency : number) : setter_result :=
  if Qltb frequency 0 then inl "Frequency cannot be negative"%string
  else inr {|
    Config.numberOfLines := Config.numberOfLines this;
    Config.windowType := Config.windowType this;
    Config.minFrequency := Config.minFrequency this;
    Config.maxFrequency := frequency;
    Config.highPassFrequency := Config.highPassFrequency this;
    Config.lowPassFrequency := Config.lowPassFrequency this;
    Config.bandRange := Config.bandRange this |}.

Definition setHighPassFrequency (this : Config.t) (frequency : number) : setter_result :=
  if Qltb frequency 0 then inl "Frequency cannot be negative"%string
  else inr {|
    Config.numberOfLines := Config.numberOfLines this;
    Config.windowType := Config.windowType this;
    Config.minFrequency := Config.minFrequency this;
    Config.maxFrequency := Config.maxFrequency this;
    Config.highPassFrequency := frequency;
    Config.lowPassFrequency := Config.lowPassFrequency this;
    Config.bandRange := Config.bandRange this |}.

Definition setLowPassFrequency (this : Config.t) (frequency : number) : setter_result :=
  if Qltb frequency 0 then inl "Frequency cannot be negative"%string
  else inr {|
    Config.numberOfLines := Config.numberOfLines this;
    Config.windowType := Config.windowType this;
    Config.minFrequency := Config.minFrequency this;
    Config.maxFrequency := Config.maxFrequency this;
    Config.highPassFrequency := Config.highPassFrequency this;
    Config.lowPassFrequency := frequency;
    Config.bandRange := Config.bandRange this |}.

Definition setBandRange (this : Config.t) (range : number) : setter_result :=
  if Qle_bool range 0 then inl "Band range must be positive"%string
  else if Qltb (Config.maxFrequency this) range then
    inl "Band range cannot be larger than max frequency"%string
  else inr {|
    Config.numberOfLines := Config.numberOfLines this;
    Config.windowType := Config.windowType this;
    Config.minFrequency := Config.minFrequency this;
    Config.maxFrequency := Config.maxFrequency this;
    Config.highPassFrequency := Config.highPassFrequency this;
    Config.lowPassFrequency := Config.lowPassFrequency this;
    Config.bandRange := range |}.

(** Running a sequence of setter calls: the first throw aborts it. *)
Definition andThen (r : setter_result) (f : Config.t -> setter_result) : setter_result :=
  match r with
  | inl e => inl e
  | inr this => f this
  end.

(** ** Outcomes of a call *)

(** A call returns, or throws (the constructor of the transform rejects
    the size, or [new Array] gets a length that is not an integer), or,
    in the model only, exhausts the bound given to one of its loops.
    [calculateSpectrum_fuel_suffices] below shows that the last case
    does not arise on a grid of whole frequencies. *)
Inductive outcome (A : Type) : Type :=
| Returns (a : A)
| Throws
| OutOfFuel.
Arguments Returns {A} a.
Arguments Throws {A}.
Arguments OutOfFuel {A}.

(** ** Array helpers *)

(** [arr[i]] for an integer index: [undefined] outside the array. *)
Definition arrayGet (arr : list number) (i : Z) : option number :=
  if (i <? 0)%Z then None else arr !! Z.to_nat i.

(** [for (i = 0; i < k && i < arr.length; i++) arr[i] = 0] *)
Definition zeroBelow (k : Z) (arr : list number) : list number :=
  imap (fun i x => if (Z.of_nat i <? k)%Z then 0 else x) arr.

(** [for (i = k; i < arr.length; i++) arr[i] = 0] *)
Definition zeroFrom (k : Z) (arr : list number) : list number :=
  imap (fun i x => if (k <=? Z.of_nat i)%Z then 0 else x) arr.

(** [arr.slice(0, k)] for [k >= 0]; the count is truncated to an integer. *)
Definition slice0 (arr : list number) (k : number) : list number :=
  firstn (Z.to_nat (Qfloor k)) arr.

Definition lengthQ (arr : list number) : number :=
  inject_Z (Z.of_nat (length arr)).

(** ** The engine *)

Section Engine.

(** [Math.cos] and [Math.sqrt]. *)
Variable Math_cos : number -> number.
Variable Math_sqrt : number -> number.

(** [new FFT(size)]: whether the constructor accepts the size (it
    throws otherwise). *)
Variable FFT_accepts : Z -> bool.

(** [fft.realTransform(out, input)]: the interleaved complex array
    [out], of twice the input's length, after the call. *)
Variable FFT_realTransform : list number -> list number.

(** *** Window *)

Definition hanningFactor (i n : nat) : number :=
  (1 # 2) * (1 - Math_cos (2 * Math_PI * inject_Z (Z.of_nat i)
                           / (inject_Z (Z.of_nat n) - 1))).

Definition applyWindow (this : Config.t) (data : list number) : list number :=
  let n := length data in
  match Config.windowType this with
  | Hanning => imap (fun i x => x * hanningFactor i n) data
  | Rectangular => data
  end.

(** *** Zero padding *)

(** [while (power < n) power *= 2], bounded by [fuel] iterations. *)
Fixpoint doublePower (fuel : nat) (power n : Z) : option Z :=
  if (power <? n)%Z then
    match fuel with
    | O => None
    | S fuel' => doublePower fuel' (power * 2)%Z n
    end
  else Some power.

Definition getNextPowerOfTwo (n : Z) : option Z :=
  if (Z.land n (n - 1) =? 0)%Z then Some n
  else doublePower (Z.to_nat n) 1%Z n.

Definition zeroPad (windowedData : list number) (nextPowerOfTwo : Z) : list number :=
  if (Z.of_nat (length windowedData) <? nextPowerOfTwo)%Z then
    windowedData
      ++ repeat 0 (Z.to_nat nextPowerOfTwo - length windowedData)%nat
  else windowedData.

(** *** Magnitude spectrum *)

Definition magnitudeAt (out : list number) (paddedLength : Z) (i : nat) : number :=
  let real := nth (2 * i) out 0 in
  let imag := nth (2 * i + 1) out 0 in
  limitPrecision (Math_sqrt (real * real + imag * imag) / inject_Z paddedLength).

Definition magnitudeSpectrum (out : list number) (paddedLength : Z) : list number :=
  map (magnitudeAt out paddedLength) (seq 0 (Z.to_nat (paddedLength / 2))).

(** *** Frequency-domain filter *)

Definition applyFrequencyDomainFiltering
    (this : Config.t) (spectrum : list number) (resolution : number) : list number :=
  let filtered := spectrum in
  let minFreqIndex := Math_floor (Config.minFrequency this / resolution) in
  let filtered := zeroBelow minFreqIndex filtered in
  let filtered :=
    if Qltb 0 (Config.highPassFrequency this) then
      let highPassIndex := Math_floor (Config.highPassFrequency this / resolution) in
      zeroBelow highPassIndex filtered
    else filtered in
  let cutoffFreq :=
    if Qltb 0 (Config.lowPassFrequency this) then
      Math_min (Config.maxFrequency this) (Config.lowPassFrequency this)
    else Config.maxFrequency this in
  let cutoffIndex := Math_ceil (cutoffFreq / resolution) in
  zeroFrom cutoffIndex filtered.

(** *** Band aggregation *)

(** The body of the peak loop, run [count] times from index [i]. *)
Fixpoint peakLoop (spectrum : list number) (count : nat) (i : Z)
    (maxValue : number) : number :=
  match count with
  | O => maxValue
  | S count' =>
      let maxValue' :=
        match arrayGet spectrum i with
        | Some x => if Qltb maxValue x then x else maxValue
        | None => maxValue
        end in
      peakLoop spectrum count' (i + 1)%Z maxValue'
  end.

(** [for (i = startIndex; i < endIndex && i < spectrum.length; i++)]
    runs [min(endIndex, length) - startIndex] times. *)
Definition calculateRealPeakInBand
    (spectrum : list number) (startFreq endFreq resolution : number) : number :=
  let startIndex := Math_floor (startFreq / resolution) in
  let endIndex := Math_ceil (endFreq / resolution) in
  let stop := Z.min endIndex (Z.of_nat (length spectrum)) in
  limitPrecision (peakLoop spectrum (Z.to_nat (stop - startIndex)) startIndex 0).

(** [for (startFreq = min; startFreq < max; startFreq += bandRange)],
    bounded by [fuel] iterations; the entries are the successive
    [bandPeaks.set] calls, each on a new key array. *)
Fixpoint bandLoop (this : Config.t) (spectrum : list number) (resolution : number)
    (fuel : nat) (startFreq : number) : option (list (band * number)) :=
  if Qltb startFreq (Config.maxFrequency this) then
    match fuel with
    | O => None
    | S fuel' =>
        let endFreq :=
          Math_min (startFreq + Config.bandRange this) (Config.maxFrequency this) in
        let peakValue := calculateRealPeakInBand spectrum startFreq endFreq resolution in
        match bandLoop this spectrum resolution fuel'
                (startFreq + Config.bandRange this) with
        | Some rest => Some (((startFreq, endFreq), peakValue) :: rest)
        | None => None
        end
    end
  else Some [].

(** The number of iterations granted to the band loop. *)
Definition bandFuel (this : Config.t) : nat :=
  Z.to_nat (Qceiling ((Config.maxFrequency this - Config.minFrequency this)
                      / Config.bandRange this)).

(** *** calculateSpectrum *)

Definition invalidResult (this : Config.t) (waveform : TimeWaveform.t)
    (resolution : number) (message : string) : SpectrumResult := {|
  maxFrequency := Config.maxFrequency this;
  resolution := resolution;
  quantity := TimeWaveform.quantity waveform;
  bandPeaks := [];
  isValid := false;
  errorMessage := Some message;
  rawSpectrum := None |}.

(** [startTime] and [now] are the two readings of [Date.now]. *)
Definition calculateSpectrum (this : Config.t) (waveform : TimeWaveform.t)
    (startTime now : Z) : outcome SpectrumResult :=
  if negb (areParametersValid this) then
    Returns (invalidResult this waveform 0 "Invalid spectrum parameters")
  else if negb (isFilterValid this) then
    Returns (invalidResult this waveform 0
      "High pass frequency must be smaller than low pass frequency")
  else if Qltb (TimeWaveform.sampleRate waveform) (Config.maxFrequency this * (256 # 100)) then
    Returns (invalidResult this waveform 0
      "Sample rate must be at least 2.56 times higher than maximum frequency")
  else if Qltb CONSTANTS.MAX_SAMPLE_RATE (TimeWaveform.sampleRate waveform) then
    Returns (invalidResult this waveform 0 "Sample rate cannot exceed 131072 Hz")
  else
    let maxSamples := CONSTANTS.MAX_SAMPLE_RATE * CONSTANTS.MAX_WAVEFORM_LENGTH in
    if Qltb maxSamples (lengthQ (TimeWaveform.data waveform)) then
      Returns (invalidResult this waveform 0
        "Time waveform length exceeds maximum allowed (5 minutes at 131072 Hz)")
    else
      let windowedData := applyWindow this (TimeWaveform.data waveform) in
      match getNextPowerOfTwo (Z.of_nat (length windowedData)) with
      | None => OutOfFuel
      | Some nextPowerOfTwo =>
          let paddedData := zeroPad windowedData nextPowerOfTwo in
          let paddedLength := Z.of_nat (length paddedData) in
          if negb (FFT_accepts paddedLength) then Throws
          else
            let out := FFT_realTransform paddedData in
            (* [new Array(paddedLength / 2)] needs an integer length *)
            if Z.odd paddedLength then Throws
            else
              let spectrum := magnitudeSpectrum out paddedLength in
              let resolution := TimeWaveform.sampleRate waveform / inject_Z paddedLength in
              let filteredSpectrum :=
                applyFrequencyDomainFiltering this spectrum resolution in
              let limitedSpectrum :=
                slice0 filteredSpectrum
                  (Math_min (lengthQ filteredSpectrum) (Config.numberOfLines this)) in
              match bandLoop this spectrum resolution (bandFuel this)
                      (Config.minFrequency this) with
              | None => OutOfFuel
              | Some bands =>
                  if (CONSTANTS.MAX_SPECTRUM_CALC_TIME <? now - startTime)%Z then
                    Returns (invalidResult this waveform resolution
                      "Spectrum calculation time exceeded maximum allowed (100 ms)")
                  else
                    Returns {|
                      maxFrequency := Config.maxFrequency this;
                      resolution := resolution;
                      quantity := TimeWaveform.quantity waveform;
                      bandPeaks := bands;
                      isValid := true;
                      errorMessage := None;
                      rawSpectrum := Some spectrum |}
              end
      end.

(** The padded input, the transform's magnitudes and the bin width of
    a computation that got past the gates. *)
Definition paddedInput (this : Config.t) (waveform : TimeWaveform.t) : list number :=
  let windowedData := applyWindow this (TimeWaveform.data waveform) in
  match getNextPowerOfTwo (Z.of_nat (length windowedData)) with
  | Some nextPowerOfTwo => zeroPad windowedData nextPowerOfTwo
  | None => windowedData
  end.

Definition spectrumOf (this : Config.t) (waveform : TimeWaveform.t) : list number :=
  let paddedData := paddedInput this waveform in
  magnitudeSpectrum (FFT_realTransform paddedData)
    (Z.of_nat (length paddedData)).

Definition resolutionOf (this : Config.t) (waveform : TimeWaveform.t) : number :=
  TimeWaveform.sampleRate waveform / inject_Z (Z.of_nat (length (paddedInput this waveform))).

(** *** integrateSpectrum *)

Definition centerFreq (b : band) : number := (fst b + snd b) / 2.

Definition integratedValue (b : band) (value : number) : number :=
  limitPrecision (value / (2 * Math_PI * centerFreq b)).

(** One iteration of the loop over [spectrum.bandPeaks.entries()]:
    [continue] when the center frequency is not positive, otherwise
    [set] the key (the same array) in the new map. *)
Definition integrateEntry (entry : band * number) : option (band * number) :=
  let (b, value) := entry in
  if Qle_bool (centerFreq b) 0 then None
  else Some (b, integratedValue b value).

Definition integrateSpectrum (this : Config.t) (spectrum : SpectrumResult)
    : SpectrumResult :=
  if negb (isIntegrationAllowed this) then
    {| maxFrequency := maxFrequency spectrum;
       resolution := resolution spectrum;
       quantity := quantity spectrum;
       bandPeaks := bandPeaks spectrum;
       isValid := false;
       errorMessage :=
         Some "Integration is not allowed when high pass filter is not used"%string;
       rawSpectrum := rawSpectrum spectrum |}
  else if Quantity_eqb (quantity spectrum) Displacement then
    {| maxFrequency := maxFrequency spectrum;
       resolution := resolution spectrum;
       quantity := quantity spectrum;
       bandPeaks := bandPeaks spectrum;
       isValid := false;
       errorMessage :=
         Some "Cannot integrate displacement to prevent double integration"%string;
       rawSpectrum := rawSpectrum spectrum |}
  else
    let newQuantity :=
      match quantity spectrum with
      | Acceleration => Velocity
      | Velocity => Displacement
      | Displacement => quantity spectrum
      end in
    {| maxFrequency := maxFrequency spectrum;
       resolution := resolution spectrum;
       quantity := newQuantity;
       bandPeaks := omap integrateEntry (bandPeaks spectrum);
       isValid := true;
       errorMessage := errorMessage spectrum;
       rawSpectrum := rawSpectrum spectrum |}.

(** *** calculatePeakInBand *)

Fixpoint findBand (entries : list (band * number)) (startFreq endFreq : number)
    : option number :=
  match entries with
  | [] => None
  | (b, value) :: rest =>
      if Qeq_bool (fst b) startFreq && Qeq_bool (snd b) endFreq then Some value
      else findBand rest startFreq endFreq
  end.

Definition calculatePeakInBand (spectrum : SpectrumResult)
    (startFreq endFreq : number) : number :=
  if negb (isValid spectrum) then -1
  else
    match findBand (bandPeaks spectrum) startFreq endFreq with
    | Some value => value
    | None => -1
    end.

End Engine.

(** ** Reference instances of the external primitives

    They serve to run the engine on small inputs.  [Reference.sqrt] is
    exact on squares of rationals; [Reference.FFT_accepts] is the test of
    the [fft.js] constructor (a power of two larger than 1);
    [Reference.FFT_realTransform] is the exact discrete Fourier transform
    for inputs of length 2 and 4, whose twiddle factors are 1, -1, i and
    -i, and yields an all-zero array for other lengths;
    [Reference.cos] is the second-order approximation of the cosine,
    exact at 0. *)
Module Reference.

Definition cos (x : number) : number := 1 - x * x / 2.

Definition sqrt (x : number) : number :=
  let r := Qred x in
  Qmake (Z.sqrt (Qnum r)) (Pos.sqrt (Qden r)).

Definition FFT_accepts (size : Z) : bool :=
  (1 <? size)%Z && (Z.land size (size - 1) =? 0)%Z.

Definition FFT_realTransform (input : list number) : list number :=
  match input with
  | [x0; x1] => [x0 + x1; 0; x0 - x1; 0]
  | [x0; x1; x2; x3] =>
      [x0 + x1 + x2 + x3; 0;
       x0 - x2; x3 - x1;
       x0 - x1 + x2 - x3; 0;
       0; 0]
  | _ => repeat 0 (2 * length input)
  end.

Definition calculateSpectrum :=
  calculateSpectrum cos sqrt FFT_accepts FFT_realTransform.

End Reference.

(** ** The band grid, described without the loop *)

(** The keys the band loop emits from [startFreq] on, described without
    the loop. *)
Inductive bandChain (this : Config.t) : number -> list band -> Prop :=
| bandChain_end (startFreq : number) :
    Config.maxFrequency this <= startFreq ->
    bandChain this startFreq []
| bandChain_step (startFreq : number) (rest : list band) :
    startFreq < Config.maxFrequency this ->
    bandChain this (startFreq + Config.bandRange this) rest ->
    bandChain this startFreq
      ((startFreq,
        Math_min (startFreq + Config.bandRange this) (Config.maxFrequency this))
       :: rest).


(** ** Integration, described without the loop *)


(** ** Strings *)

(** [s.includes(sub)], the test behind Jest's [toContain] on strings. *)
Definition includes (s sub : string) : bool :=
  match String.index 0 sub s with
  | Some _ => true
  | None => false
  end.

(** A band key that is not the pair asked for. *)
Definition otherBand (startFreq endFreq : number) (e : band * number) : Prop :=
  ~ (fst (fst e) == startFreq /\ snd (fst e) == endFreq).

(** ** Concrete engine states and inputs *)

Module Examples.

(** After [setWindowType(Rectangular)] and [setHighPassFrequency(1000)]. *)
Definition highPassConfig : Config.t := {|
  Config.numberOfLines := 1024;
  Config.windowType := Rectangular;
  Config.minFrequency := 0;
  Config.maxFrequency := 1000;
  Config.highPassFrequency := 1000;
  Config.lowPassFrequency := 0;
  Config.bandRange := 25 |}.

(** Four samples of a constant signal at 4000 Hz: one bin of magnitude 1
    at 0 Hz, bins 1000 Hz apart. *)
Definition constantWaveform : TimeWaveform.t := {|
  TimeWaveform.data := [1; 1; 1; 1];
  TimeWaveform.sampleRate := 4000;
  TimeWaveform.quantity := Acceleration |}.

(** After [setMinFrequency(2000)]: the minimum is above the maximum. *)
Definition swappedRangeConfig : Config.t := {|
  Config.numberOfLines := 1024;
  Config.windowType := Hanning;
  Config.minFrequency := 2000;
  Config.maxFrequency := 1000;
  Config.highPassFrequency := 0;
  Config.lowPassFrequency := 0;
  Config.bandRange := 25 |}.

(** Sampled at 150000 Hz, above the maximum rate. *)
Definition fastWaveform : TimeWaveform.t := {|
  TimeWaveform.data := [0; 0; 0; 0];
  TimeWaveform.sampleRate := 150000;
  TimeWaveform.quantity := Acceleration |}.

(** All-zero samples at 1000 Hz, below 2.56 times the default maximum
    frequency. *)
Definition slowZeroWaveform : TimeWaveform.t := {|
  TimeWaveform.data := [0; 0; 0; 0];
  TimeWaveform.sampleRate := 1000;
  TimeWaveform.quantity := Acceleration |}.

(** All-zero samples at 4000 Hz. *)
Definition zeroWaveform : TimeWaveform.t := {|
  TimeWaveform.data := [0; 0; 0; 0];
  TimeWaveform.sampleRate := 4000;
  TimeWaveform.quantity := Acceleration |}.

(** A valid acceleration result with two stored bands, one of them
    centered at 0 Hz. *)
Definition storedResult : SpectrumResult := {|
  maxFrequency := 1000;
  resolution := 1;
  quantity := Acceleration;
  bandPeaks := [((0, 0), 3); ((0, 25), 1)];
  isValid := true;
  errorMessage := None;
  rawSpectrum := Some [1; 0] |}.

(** The same result as an integration without high-pass filter returns
    it: marked invalid, bands kept. *)
Definition rejectedResult : SpectrumResult :=
  integrateSpectrum Config.initial storedResult.

End Examples.

(** ** integrateSpectrum over an object store

    The same method with its objects made explicit: result objects, [Map]
    objects and arrays live in a store and are named by references; a
    [Map] is keyed by the references of its band arrays.  The method
    reads the input objects, allocates a new [Map] and a new result
    object, and calls [set] on the new [Map] only. *)
Module Store.

Definition ref : Type := positive.

(** The fields of a result object. *)
Record ResultFields := {
  maxFrequency : number;
  resolution : number;
  quantity : Quantity;
  bandPeaks : ref;
  isValid : bool;
  errorMessage : option string;
  rawSpectrum : option ref
}.

Inductive object :=
| ResultObject (fields : ResultFields)
| MapObject (entries : list (ref * number))
| ArrayObject (elements : list number).

Definition allocate (h : gmap ref object) (o : object) : ref * gmap ref object :=
  let r := fresh (dom h) in (r, <[r := o]> h).

(** [entries] after [set(key, value)]: the value of a key already
    present is replaced in place, a new key goes last. *)
Fixpoint mapSet (entries : list (ref * number)) (key : ref) (value : number)
    : list (ref * number) :=
  match entries with
  | [] => [(key, value)]
  | (k, v) :: rest =>
      if decide (k = key) then (k, value) :: rest
      else (k, v) :: mapSet rest key value
  end.

(** [m.set(key, value)] on the [Map] object at [m]. *)
Definition storeMapSet (h : gmap ref object) (m key : ref) (value : number)
    : option (gmap ref object) :=
  match h !! m with
  | Some (MapObject entries) => Some (<[m := MapObject (mapSet entries key value)]> h)
  | _ => None
  end.

(** The pair [[band[0], band[1]]] of the array at [key]. *)
Definition readBand (h : gmap ref object) (key : ref) : option band :=
  match h !! key with
  | Some (ArrayObject [startFreq; endFreq]) => Some (startFreq, endFreq)
  | _ => None
  end.

(** The loop over the entries of the input [Map], writing to the [Map]
    at [target]. *)
Fixpoint integrateLoop (h : gmap ref object) (target : ref)
    (entries : list (ref * number)) : option (gmap ref object) :=
  match entries with
  | [] => Some h
  | (key, value) :: rest =>
      match readBand h key with
      | None => None
      | Some b =>
          if Qle_bool (centerFreq b) 0 then integrateLoop h target rest
          else
            match storeMapSet h target key (integratedValue b value) with
            | None => None
            | Some h' => integrateLoop h' target rest
            end
      end
  end.

(** [None] stands for a store in which [spectrum] is not a result object
    with a [Map] of band arrays. *)
Definition integrateSpectrum (this : Config.t) (h : gmap ref object)
    (spectrum : ref) : option (ref * gmap ref object) :=
  match h !! spectrum with
  | Some (ResultObject fields) =>
      if negb (isIntegrationAllowed this) then
        Some (allocate h (ResultObject {|
          maxFrequency := maxFrequency fields;
          resolution := resolution fields;
          quantity := quantity fields;
          bandPeaks := bandPeaks fields;
          isValid := false;
          errorMessage :=
            Some "Integration is not allowed when high pass filter is not used"%string;
          rawSpectrum := rawSpectrum fields |}))
      else if Quantity_eqb (quantity fields) Displacement then
        Some (allocate h (ResultObject {|
          maxFrequency := maxFrequency fields;
          resolution := resolution fields;
          quantity := quantity fields;
          bandPeaks := bandPeaks fields;
          isValid := false;
          errorMessage :=
            Some "Cannot integrate displacement to prevent double integration"%string;
          rawSpectrum := rawSpectrum fields |}))
      else
        let newQuantity :=
          match quantity fields with
          | Acceleration => Velocity
          | Velocity => Displacement
          | Displacement => quantity fields
          end in
        let (newMap, h1) := allocate h (MapObject []) in
        let (result, h2) := allocate h1 (ResultObject {|
          maxFrequency := maxFrequency fields;
          resolution := resolution fields;
          quantity := newQuantity;
          bandPeaks := newMap;
          isValid := true;
          errorMessage := errorMessage fields;
          rawSpectrum := rawSpectrum fields |}) in
        match h !! bandPeaks fields with
        | Some (MapObject entries) =>
            match integrateLoop h2 newMap entries with
            | Some h3 => Some (result, h3)
            | None => None
            end
        | _ => None
        end
  | _ => None
  end.

(** The entries of a [Map] with their keys read out of the store. *)
Fixpoint viewEntries (h : gmap ref object) (entries : list (ref * number))
    : option (list (band * number)) :=
  match entries with
  | [] => Some []
  | (key, value) :: rest =>
      match readBand h key, viewEntries h rest with
      | Some b, Some bands => Some ((b, value) :: bands)
      | _, _ => None
      end
  end.

Definition viewRaw (h : gmap ref object) (raw : option ref)
    : option (option (list number)) :=
  match raw with
  | None => Some None
  | Some a =>
      match h !! a with
      | Some (ArrayObject elements) => Some (Some elements)
      | _ => None
      end
  end.

(** The result object at [r] as a value of the pure model. *)
Definition view (h : gmap ref object) (r : ref) : option SpectrumResult :=
  match h !! r with
  | Some (ResultObject fields) =>
      match h !! bandPeaks fields with
      | Some (MapObject entries) =>
          match viewEntries h entries, viewRaw h (rawSpectrum fields) with
          | Some bands, Some raw =>
              Some (Build_SpectrumResult
                      (maxFrequency fields) (resolution fields) (quantity fields)
                      bands (isValid fields) (errorMessage fields) raw)
          | _, _ => None
          end
      | _ => None
      end
  | _ => None
  end.

(** What the loop appends to its target, entry by entry. *)
Fixpoint integratedEntries (h : gmap ref object) (entries : list (ref * number))
    : list (ref * number) :=
  match entries with
  | [] => []
  | (key, value) :: rest =>
      match readBand h key with
      | Some b =>
          if Qle_bool (centerFreq b) 0 then integratedEntries h rest
          else (key, integratedValue b value) :: integratedEntries h rest
      | None => integratedEntries h rest
      end
  end.

(** The [Map] of the result at [r] holds each key once. *)
Definition keysDistinct (h : gmap ref object) (r : ref) : Prop :=
  forall fields entries,
    h !! r = Some (ResultObject fields) ->
    h !! bandPeaks fields = Some (MapObject entries) ->
    NoDup (map fst entries).

(** A store with one band array, one [Map] and one valid acceleration
    result. *)
Definition exampleStore : gmap ref object :=
  <[3%positive := ResultObject {|
      maxFrequency := 1000;
      resolution := 1;
      quantity := Acceleration;
      bandPeaks := 2%positive;
      isValid := true;
      errorMessage := None;
      rawSpectrum := None |}]>
  (<[2%positive := MapObject [(1%positive, 1)]]>
  (<[1%positive := ArrayObject [0; 25]]> empty)).

End Store.

(** ** History store, trend and speed estimate *)

(** [spectrumDatabase] and the trend are [Map]s with string keys, kept in
    insertion order.  [set] replaces the value of a key that is present,
    in place, and appends a key that is not. *)
Fixpoint stringMapSet {V : Type} (entries : list (string * V)) (key : string)
    (value : V) : list (string * V) :=
  match entries with
  | [] => [(key, value)]
  | (k, v) :: rest =>
      if String.eqb k key then (k, value) :: rest
      else (k, v) :: stringMapSet rest key value
  end.

Fixpoint stringMapGet {V : Type} (entries : list (string * V)) (key : string)
    : option V :=
  match entries with
  | [] => None
  | (k, v) :: rest =>
      if String.eqb k key then Some v else stringMapGet rest key
  end.

Definition storeSpectrumResult (spectrumDatabase : list (string * SpectrumResult))
    (timestamp : string) (result : SpectrumResult)
    : list (string * SpectrumResult) :=
  stringMapSet spectrumDatabase timestamp result.

(** [None] is [undefined]. *)
Definition retrieveSpectrumResult (spectrumDatabase : list (string * SpectrumResult))
    (timestamp : string) : option SpectrumResult :=
  stringMapGet spectrumDatabase timestamp.

(** The database after a series of [storeSpectrumResult] calls on a new
    engine. *)
Definition storedBy (calls : list (string * SpectrumResult))
    : list (string * SpectrumResult) :=
  fold_left (fun db call => storeSpectrumResult db (fst call) (snd call)) calls [].

(** The highest value among [values], starting from 0. *)
Definition highestPeak (values : list number) : number :=
  fold_left (fun maxPeak value => if Qltb maxPeak value then value else maxPeak)
    values 0.

(** Strings are compared as JavaScript compares them, code unit by code
    unit; the model's strings are byte strings, which is the same on
    ASCII timestamps. *)
Definition getPeakInBandTrend (spectrumDatabase : list (string * SpectrumResult))
    (startDate endDate : string) : list (string * number) :=
  fold_left
    (fun trend entry =>
       let (timestamp, result) := entry : string * SpectrumResult in
       if isValid result && String.leb startDate timestamp
          && String.leb timestamp endDate
       then stringMapSet trend timestamp
              (highestPeak (map snd (bandPeaks result)))
       else trend)
    spectrumDatabase [].

(** [sum] and [count] after the loop over the peak values. *)
Fixpoint sumAndCount (peakValues : list number) (sum : number) (count : Z)
    : number * Z :=
  match peakValues with
  | [] => (sum, count)
  | peak :: rest => sumAndCount rest (sum + peak) (count + 1)%Z
  end.

(** The loop that looks for the first band at or above the target and
    [break]s; [-1] when there is none. *)
Fixpoint findPeakFrequency (entries : list (band * number)) (targetValue : number)
    : number :=
  match entries with
  | [] => -1
  | (b, value) :: rest =>
      if Qle_bool targetValue value then (fst b + snd b) / 2
      else findPeakFrequency rest targetValue
  end.

Definition calculateMachineSpeed (date : string) (spectralData : SpectrumResult)
    : number :=
  if negb (isValid spectralData) then -1
  else
    let peakValues := map snd (bandPeaks spectralData) in
    let (sum, count) := sumAndCount peakValues 0 0%Z in
    if (count =? 0)%Z then -1
    else
      let avgPeak := sum / inject_Z count in
      let targetValue := avgPeak * 2 in
      let peakFrequency := findPeakFrequency (bandPeaks spectralData) targetValue in
      if Qeq_bool peakFrequency (-1) then -1
      else peakFrequency * 60.

(** ** The pass band of the filter, bin by bin *)

(** Whether bin [i] lies in the pass band: at or above
    [floor(minFrequency / resolution)], at or above
    [floor(highPass / resolution)] when the high-pass is set, and below
    [ceil(cutoff / resolution)], the cutoff being the maximum frequency
    or, when the low-pass is set, the smaller of the two. *)
Definition inPassBand (this : Config.t) (resolution : number) (i : nat) : bool :=
  let minFreqIndex := Math_floor (Config.minFrequency this / resolution) in
  let highPassIndex := Math_floor (Config.highPassFrequency this / resolution) in
  let cutoffFreq :=
    if Qltb 0 (Config.lowPassFrequency this)
    then Math_min (Config.maxFrequency this) (Config.lowPassFrequency this)
    else Config.maxFrequency this in
  let cutoffIndex := Math_ceil (cutoffFreq / resolution) in
  (minFreqIndex <=? Z.of_nat i)%Z
  && (if Qltb 0 (Config.highPassFrequency this)
      then (highPassIndex <=? Z.of_nat i)%Z else true)
  && (Z.of_nat i <? cutoffIndex)%Z.

(** ** Descriptions used by the properties of the store and the speed estimate *)

(** The result of the last call, in a series of store calls, that used
    [timestamp]. *)
Fixpoint lastStored (calls : list (string * SpectrumResult)) (timestamp : string)
    : option SpectrumResult :=
  match calls with
  | [] => None
  | (t, r) :: rest =>
      match lastStored rest timestamp with
      | Some r' => Some r'
      | None => if String.eqb t timestamp then Some r else None
      end
  end.

(** Whether a stored entry enters the trend between two dates. *)
Definition inTrend (startDate endDate : string) (entry : string * SpectrumResult)
    : bool :=
  isValid (snd entry) && String.leb startDate (fst entry)
  && String.leb (fst entry) endDate.

Definition sumOf (values : list number) : number := fold_right Qplus 0 values.

(** Twice the arithmetic mean of the band peaks. *)
Definition twiceMeanPeak (spectralData : SpectrumResult) : number :=
  sumOf (map snd (bandPeaks spectralData))
  / inject_Z (Z.of_nat (length (bandPeaks spectralData))) * 2.

(** ** Further concrete inputs *)

Module MoreExamples.

(** One sample at 4000 Hz. *)
Definition oneSampleWaveform : TimeWaveform.t := {|
  TimeWaveform.data := [1];
  TimeWaveform.sampleRate := 4000;
  TimeWaveform.quantity := Acceleration |}.

(** Four bands, the third one well above the others. *)
Definition peakedResult : SpectrumResult := {|
  maxFrequency := 100;
  resolution := 1;
  quantity := Acceleration;
  bandPeaks := [((0, 25), 0); ((25, 50), 0); ((50, 75), 6); ((75, 100), 0)];
  isValid := true;
  errorMessage := None;
  rawSpectrum := None |}.

(** Two bands with the same peak. *)
Definition flatResult : SpectrumResult := {|
  maxFrequency := 50;
  resolution := 1;
  quantity := Acceleration;
  bandPeaks := [((0, 25), 1); ((25, 50), 1)];
  isValid := true;
  errorMessage := None;
  rawSpectrum := None |}.

(** Two bands with peak 0. *)
Definition silentResult : SpectrumResult := {|
  maxFrequency := 50;
  resolution := 1;
  quantity := Acceleration;
  bandPeaks := [((0, 25), 0); ((25, 50), 0)];
  isValid := true;
  errorMessage := None;
  rawSpectrum := None |}.

(** A store filled by three calls, the third one under the first
    timestamp again. *)
Definition history : list (string * SpectrumResult) :=
  storedBy [("2023-01-01T00:00:00Z"%string, flatResult);
            ("2023-01-01T01:00:00Z"%string, peakedResult);
            ("2023-01-01T00:00:00Z"%string, silentResult)].

End MoreExamples.
(** ** Where exact arithmetic and double arithmetic take the same branch *)

(** A whole number from 0 to 2^26 (2^26 is the longest padded length:
    the next power of two of 131072 x 300 samples).  A double holds it
    exactly; sums of such numbers are exact in double arithmetic, and
    their product with 2.56 and their quotient by a resolution of the
    kind below round without crossing a whole number, so a comparison,
    a [Math.floor] or a [Math.ceil] taken on the rounded value is the
    one taken on the exact value. *)
Definition wholeNumber (x : number) : bool :=
  Qeq_bool x (inject_Z (Qfloor x)) &&
  Qle_bool 0 x && Qle_bool x (inject_Z (2 ^ 26)).

(** A resolution as [calculateSpectrum] computes it from a whole sample
    rate within the ceiling: the rate over a power of two up to 2^26.
    Dividing by a power of two is exact in double arithmetic. *)
Definition gridResolution (resolution : number) : bool :=
  existsb (fun k : nat =>
             let sampleRate := resolution * inject_Z (2 ^ Z.of_nat k) in
             Qeq_bool sampleRate (inject_Z (Qfloor sampleRate)) &&
             Qle_bool 1 sampleRate &&
             Qle_bool sampleRate CONSTANTS.MAX_SAMPLE_RATE)
          (seq 0 27).

(** [Number.MIN_VALUE], the smallest positive double, 2^-1074.  Half of
    it rounds to 0 in double arithmetic. *)
Definition Number_MIN_VALUE : number := 1 / inject_Z (2 ^ 1074).

(** The smallest positive normal double, 2^-1022.  From it on, a sum, a
    half, a product or a quotient of doubles is rounded by at most one
    part in 2^53; below it the doubles are 2^-1074 apart and a result
    can lose every digit. *)
Definition Number_MIN_NORMAL : number := 1 / inject_Z (2 ^ 1022).

(** * The engine's comparisons and sums in IEEE doubles

    The parts of the engine that decide a branch by comparing numbers
    or by adding them up, embedded a second time over binary64, the
    arithmetic JavaScript computes with: the engine state with its
    setters and checks, the gates of [calculateSpectrum], the keys of
    its band loop, the center frequency [integrateSpectrum] tests, and
    the target of [calculateMachineSpeed].  NaN, the infinities, the
    signed zeros and every rounding are those of the source. *)

Module Binary64.

Local Open Scope float_scope.

(** The exact value of a finite double. *)
Definition toQ (x : float) : option Q :=
  match Prim2SF x with
  | S754_zero _ => Some 0%Q
  | S754_finite negative m e =>
      let magnitude := (inject_Z (Z.pos m) * 2 ^ e)%Q in
      Some (if negative then (- magnitude)%Q else magnitude)
  | S754_infinity _ | S754_nan => None
  end.

(** [Math.min] of two numbers: NaN when either is NaN, and -0 below +0. *)
Definition Math_min (a b : float) : float :=
  if PrimFloat.is_nan a || PrimFloat.is_nan b then PrimFloat.nan
  else if a <? b then a
  else if b <? a then b
  else if PrimFloat.get_sign a then a else b.

Module CONSTANTS.
Definition MAX_LINES : float := 102400.
Definition MIN_LINES : float := 100.
Definition MAX_SAMPLE_RATE : float := 131072.
Definition MAX_WAVEFORM_LENGTH : float := 5 * 60.
End CONSTANTS.

(** ** Engine state, checks and setters *)

Module Config.
Record t := {
  numberOfLines : float;
  windowType : WindowType;
  minFrequency : float;
  maxFrequency : float;
  highPassFrequency : float;
  lowPassFrequency : float;
  bandRange : float
}.

Definition initial : t := {|
  numberOfLines := 1024;
  windowType := Hanning;
  minFrequency := 0;
  maxFrequency := 1000;
  highPassFrequency := 0;
  lowPassFrequency := 0;
  bandRange := 25
|}.
End Config.

(** [a >= b] is [b <=? a] and [a > b] is [b <? a]; every comparison with
    NaN is false. *)
Definition areParametersValid (this : Config.t) : bool :=
  (CONSTANTS.MIN_LINES <=? Config.numberOfLines this) &&
  (Config.numberOfLines this <=? CONSTANTS.MAX_LINES) &&
  (0 <=? Config.minFrequency this) &&
  (Config.minFrequency this <? Config.maxFrequency this) &&
  (0 <? Config.bandRange this) &&
  (Config.bandRange this <=? Config.maxFrequency this).

Definition isFilterValid (this : Config.t) : bool :=
  if Config.highPassFrequency this =? 0 then true
  else if Config.lowPassFrequency this =? 0 then true
  else Config.highPassFrequency this <? Config.lowPassFrequency this.

Definition isIntegrationAllowed (this : Config.t) : bool :=
  0 <? Config.highPassFrequency this.

Definition setter_result : Type := (string + Config.t)%type.

Definition setNumberOfLines (this : Config.t) (lines : float) : setter_result :=
  if lines <? CONSTANTS.MIN_LINES then
    inl "Number of lines cannot be less than 100"%string
  else if CONSTANTS.MAX_LINES <? lines then
    inl "Number of lines cannot exceed 102400"%string
  else inr {|
    Config.numberOfLines := lines;
    Config.windowType := Config.windowType this;
    Config.minFrequency := Config.minFrequency this;
    Config.maxFrequency := Config.maxFrequency this;
    Config.highPassFrequency := Config.highPassFrequency this;
    Config.lowPassFrequency := Config.lowPassFrequency this;
    Config.bandRange := Config.bandRange this |}.

Definition setWindowType (this : Config.t) (type : WindowType) : setter_result :=
  inr {|
    Config.numberOfLines := Config.numberOfLines this;
    Config.windowType := type;
    Config.minFrequency := Config.minFrequency this;
    Config.maxFrequency := Config.maxFrequency this;
    Config.highPassFrequency := Config.highPassFrequency this;
    Config.lowPassFrequency := Config.lowPassFrequency this;
    Config.bandRange := Config.bandRange this |}.

Definition setMinFrequency (this : Config.t) (frequency : float) : setter_result :=
  if frequency <? 0 then inl "Frequency cannot be negative"%string
  else inr {|
    Config.numberOfLines := Config.numberOfLines this;
    Config.windowType := Config.windowType this;
    Config.minFrequency := frequency;
    Config.maxFrequency := Config.maxFrequency this;
    Config.highPassFrequency := Config.highPassFrequency this;
    Config.lowPassFrequency := Config.lowPassFrequency this;
    Config.bandRange := Config.bandRange this |}.

Definition setMaxFrequency (this : Config.t) (frequency : float) : setter_result :=
  if frequency <? 0 then inl "Frequency cannot be negative"%string
  else inr {|
    Config.numberOfLines := Config.numberOfLines this;
    Config.windowType := Config.windowType this;
    Config.minFrequency := Config.minFrequency this;
    Config.maxFrequency := frequency;
    Config.highPassFrequency := Config.highPassFrequency this;
    Config.lowPassFrequency := Config.lowPassFrequency this;
    Config.bandRange := Config.bandRange this |}.

Definition setHighPassFrequency (this : Config.t) (frequency : float) : setter_result :=
  if frequency <? 0 then inl "Frequency cannot be negative"%string
  else inr {|
    Config.numberOfLines := Config.numberOfLines this;
    Config.windowType := Config.windowType this;
    Config.minFrequency := Config.minFrequency this;
    Config.maxFrequency := Config.maxFrequency this;
    Config.highPassFrequency := frequency;
    Config.lowPassFrequency := Config.lowPassFrequency this;
    Config.bandRange := Config.bandRange this |}.

Definition setLowPassFrequency (this : Config.t) (frequency : float) : setter_result :=
  if frequency <? 0 then inl "Frequency cannot be negative"%string
  else inr {|
    Config.numberOfLines := Config.numberOfLines this;
    Config.windowType := Config.windowType this;
    Config.minFrequency := Config.minFrequency this;
    Config.maxFrequency := Config.maxFrequency this;
    Config.highPassFrequency := Config.highPassFrequency this;
    Config.lowPassFrequency := frequency;
    Config.bandRange := Config.bandRange this |}.

Definition setBandRange (this : Config.t) (range : float) : setter_result :=
  if range <=? 0 then inl "Band range must be positive"%string
  else if Config.maxFrequency this <? range then
    inl "Band range cannot be larger than max frequency"%string
  else inr {|
    Config.numberOfLines := Config.numberOfLines this;
    Config.windowType := Config.windowType this;
    Config.minFrequency := Config.minFrequency this;
    Config.maxFrequency := Config.maxFrequency this;
    Config.highPassFrequency := Config.highPassFrequency this;
    Config.lowPassFrequency := Config.lowPassFrequency this;
    Config.bandRange := range |}.

(** ** Sequences of setter calls *)

Inductive setterCall :=
| CallSetNumberOfLines (lines : float)
| CallSetWindowType (type : WindowType)
| CallSetMinFrequency (frequency : float)
| CallSetMaxFrequency (frequency : float)
| CallSetHighPassFrequency (frequency : float)
| CallSetLowPassFrequency (frequency : float)
| CallSetBandRange (range : float).

Definition applySetter (this : Config.t) (call : setterCall) : setter_result :=
  match call with
  | CallSetNumberOfLines lines => setNumberOfLines this lines
  | CallSetWindowType type => setWindowType this type
  | CallSetMinFrequency frequency => setMinFrequency this frequency
  | CallSetMaxFrequency frequency => setMaxFrequency this frequency
  | CallSetHighPassFrequency frequency => setHighPassFrequency this frequency
  | CallSetLowPassFrequency frequency => setLowPassFrequency this frequency
  | CallSetBandRange range => setBandRange this range
  end.

(** The state after a call whose exception, if any, the caller catches:
    a setter throws before it assigns, so a throw leaves every field as
    it was. *)
Definition afterCall (this : Config.t) (call : setterCall) : Config.t :=
  match applySetter this call with
  | inr this' => this'
  | inl _ => this
  end.

Definition afterCalls (this : Config.t) (calls : list setterCall) : Config.t :=
  fold_left afterCall calls this.

(** Whether the numeric argument of a call is NaN. *)
Definition argumentIsNaN (call : setterCall) : bool :=
  match call with
  | CallSetWindowType _ => false
  | CallSetNumberOfLines x | CallSetMinFrequency x | CallSetMaxFrequency x
  | CallSetHighPassFrequency x | CallSetLowPassFrequency x
  | CallSetBandRange x => PrimFloat.is_nan x
  end.

(** The ranges each setter enforces on its own field. *)
Definition fieldRangesHold (this : Config.t) : Prop :=
  (CONSTANTS.MIN_LINES <=? Config.numberOfLines this) = true /\
  (Config.numberOfLines this <=? CONSTANTS.MAX_LINES) = true /\
  (0 <=? Config.minFrequency this) = true /\
  (0 <=? Config.maxFrequency this) = true /\
  (0 <=? Config.highPassFrequency this) = true /\
  (0 <=? Config.lowPassFrequency this) = true /\
  (0 <? Config.bandRange this) = true.

(** ** calculateSpectrum: the gates and the band keys *)

(** The reason of the first gate that rejects the call, [None] when the
    call goes on to the window and the transform.  [dataLength] is
    [waveform.data.length]. *)
Definition gateFailure (this : Config.t) (sampleRate dataLength : float)
    : option string :=
  let maxSamples := CONSTANTS.MAX_SAMPLE_RATE * CONSTANTS.MAX_WAVEFORM_LENGTH in
  if negb (areParametersValid this) then
    Some "Invalid spectrum parameters"%string
  else if negb (isFilterValid this) then
    Some "High pass frequency must be smaller than low pass frequency"%string
  else if sampleRate <? Config.maxFrequency this * 2.56 then
    Some "Sample rate must be at least 2.56 times higher than maximum frequency"%string
  else if CONSTANTS.MAX_SAMPLE_RATE <? sampleRate then
    Some "Sample rate cannot exceed 131072 Hz"%string
  else if maxSamples <? dataLength then
    Some "Time waveform length exceeds maximum allowed (5 minutes at 131072 Hz)"%string
  else None.

(** The keys of
    [for (startFreq = min; startFreq < max; startFreq += bandRange)],
    bounded by [fuel] iterations: the loop variable and [endFreq] do not
    depend on the peaks. *)
Fixpoint bandKeys (this : Config.t) (fuel : nat) (startFreq : float)
    : option (list (float * float)) :=
  if startFreq <? Config.maxFrequency this then
    match fuel with
    | O => None
    | S fuel' =>
        let endFreq :=
          Math_min (startFreq + Config.bandRange this) (Config.maxFrequency this) in
        match bandKeys this fuel' (startFreq + Config.bandRange this) with
        | Some rest => Some ((startFreq, endFreq) :: rest)
        | None => None
        end
    end
  else Some [].

(** [end - start] of a band key, as an exact number, compared with the
    exact value of [bandRange]. *)
Definition exactWidth (b : float * float) : option Q :=
  match toQ (fst b), toQ (snd b) with
  | Some startFreq, Some endFreq => Some (endFreq - startFreq)%Q
  | _, _ => None
  end.

(** [startIndex] and [endIndex] of [calculateRealPeakInBand] before
    [Math.floor] and [Math.ceil] are taken. *)
Definition bandQuotients (startFreq endFreq resolution : float) : float * float :=
  (startFreq / resolution, endFreq / resolution).

(** ** integrateSpectrum: the center frequency and its test *)

Definition centerFreq (b : float * float) : float := (fst b + snd b) / 2.

(** [if (centerFreq <= 0) continue;] *)
Definition bandIsSkipped (b : float * float) : bool := centerFreq b <=? 0.

(** [Math.PI] *)
Definition Math_PI : float := 3.141592653589793.

(** [value / (2 * Math.PI * centerFreq)], before [limitPrecision]. *)
Definition integrationQuotient (b : float * float) (value : float) : float :=
  value / (2 * Math_PI * centerFreq b).

(** ** calculateMachineSpeed: the target *)

(** [sum] and [count] after the loop over the peak values. *)
Fixpoint sumAndCount (peakValues : list float) (sum count : float) : float * float :=
  match peakValues with
  | [] => (sum, count)
  | peak :: rest => sumAndCount rest (sum + peak) (count + 1)
  end.

(** [targetValue], for at least one peak. *)
Definition targetValue (peakValues : list float) : float :=
  let (sum, count) := sumAndCount peakValues 0 0 in
  let avgPeak := sum / count in
  avgPeak * 2.

(** ** Concrete inputs *)

(** [setMaxFrequency(1); setBandRange(0.1)] on a new engine. *)
Definition tenthsConfig : Config.t :=
  afterCalls Config.initial [CallSetMaxFrequency 1; CallSetBandRange 0.1].

(** [setMaxFrequency(2000); setMinFrequency(1000); setBandRange(1e-20)]
    on a new engine. *)
Definition tinyRangeConfig : Config.t :=
  afterCalls Config.initial
    [CallSetMaxFrequency 2000; CallSetMinFrequency 1000; CallSetBandRange 1e-20].

(** [setMaxFrequency(51201)] on a new engine. *)
Definition nearCeilingConfig : Config.t :=
  afterCalls Config.initial [CallSetMaxFrequency 51201].

End Binary64.
(** * Properties *)

(** ** Comparisons *)

Lemma Qltb_lt (x y : number) : Qltb x y = true <-> x < y.
Proof.
  unfold Qltb. rewrite negb_true_iff.
  split; intros H.
  - apply Qnot_le_lt. intros Hle. apply Qle_bool_iff in Hle. congruence.
  - destruct (Qle_bool y x) eqn:E; [|reflexivity].
    apply Qle_bool_iff in E. lra.
Qed.

Lemma Qltb_ge (x y : number) : Qltb x y = false <-> y <= x.
Proof.
  unfold Qltb. rewrite negb_false_iff. apply Qle_bool_iff.
Qed.


(** ** Rounding to ten decimals *)

Lemma ten10_pos : 0 < ten10.
Proof. reflexivity. Qed.

Lemma roundFixed10_close (x : number) :
  Qabs (roundFixed10 x - x) <= 1 # 20000000000.
Proof.
  unfold roundFixed10.
  pose proof (Qfloor_le (x * ten10 + (1 # 2))) as Hlo.
  pose proof (Qlt_floor (x * ten10 + (1 # 2))) as Hhi.
  set (n := Qfloor (x * ten10 + (1 # 2))) in *.
  rewrite inject_Z_plus in Hhi.
  assert (Hn : inject_Z n / ten10 - x == (inject_Z n - x * ten10) / ten10).
  { unfold ten10. field. discriminate. }
  assert (E : ten10 == 10000000000) by reflexivity.
  assert (E1 : inject_Z 1 == 1) by reflexivity.
  rewrite Hn. apply Qabs_Qle_condition. split.
  - apply Qle_shift_div_l; [apply ten10_pos|].
    rewrite E in Hlo, Hhi |- *. rewrite E1 in Hhi. lra.
  - apply Qle_shift_div_r; [apply ten10_pos|].
    rewrite E in Hlo, Hhi |- *. rewrite E1 in Hhi. lra.
Qed.

(** X1.  Below 10^21 the result is a multiple of 10^-10 within half a unit
    of the argument. *)
Lemma limitPrecision_rounds (x : number) :
  Qabs x < ten21 ->
  (exists n : Z, limitPrecision x == inject_Z n / ten10) /\
  Qabs (limitPrecision x - x) <= 1 # 20000000000.
Proof.
  intros Hx. unfold limitPrecision.
  destruct (Qle_bool ten21 (Qabs x)) eqn:E.
  { apply Qle_bool_iff in E. lra. }
  destruct (Qltb x 0) eqn:Eneg.
  - split.
    + exists (- Qfloor (- x * ten10 + (1 # 2)))%Z.
      unfold roundFixed10. rewrite inject_Z_opp.
      unfold ten10. field. discriminate.
    + pose proof (roundFixed10_close (- x)) as H.
      assert (Heq : - roundFixed10 (- x) - x == - (roundFixed10 (- x) - - x)) by ring.
      rewrite Heq, Qabs_opp. exact H.
  - split.
    + eexists. reflexivity.
    + apply roundFixed10_close.
Qed.

Lemma limitPrecision_zero (x : number) : x == 0 -> limitPrecision x == 0.
Proof.
  intros Hx. unfold limitPrecision.
  destruct (Qle_bool ten21 (Qabs x)) eqn:E; [exact Hx|].
  assert (Hr : forall y, y == 0 -> roundFixed10 y == 0).
  { intros y Hy. unfold roundFixed10.
    assert (Hf : Qfloor (y * ten10 + (1 # 2)) = 0%Z).
    { rewrite (Qfloor_comp _ (1 # 2)); [reflexivity|]. rewrite Hy. ring. }
    rewrite Hf. reflexivity. }
  destruct (Qltb x 0).
  - rewrite Hr; [reflexivity|]. rewrite Hx. reflexivity.
  - apply Hr, Hx.
Qed.


(** ** Termination of the loops *)

Lemma doublePower_enough (fuel : nat) (power n : Z) :
  (1 <= power)%Z -> (n <= power * 2 ^ Z.of_nat fuel)%Z ->
  exists k, (0 <= k)%Z /\ doublePower fuel power n = Some (power * 2 ^ k)%Z /\
            (n <= power * 2 ^ k)%Z.
Proof.
  revert power. induction fuel as [|fuel IH]; intros power Hp Hn.
  - exists 0%Z. simpl in *. rewrite Z.mul_1_r in *.
    destruct (Z.ltb_spec power n); [lia|]. auto with zarith.
  - cbn [doublePower]. destruct (Z.ltb_spec power n) as [Hlt|Hge].
    + destruct (IH (power * 2)%Z) as (k & Hk & Heq & Hle); [lia| |].
      { rewrite Nat2Z.inj_succ, Z.pow_succ_r in Hn by lia. lia. }
      exists (k + 1)%Z. rewrite Z.pow_add_r, Z.pow_1_r by lia.
      replace (power * (2 ^ k * 2))%Z with (power * 2 * 2 ^ k)%Z by lia.
      split; [lia|]. split; [exact Heq|lia].
    + exists 0%Z. rewrite Z.mul_1_r. auto with zarith.
Qed.

Lemma land_pow2_pred (k : Z) : (0 <= k)%Z -> Z.land (2 ^ k) (2 ^ k - 1) = 0%Z.
Proof.
  intros Hk. replace (2 ^ k - 1)%Z with (Z.pred (2 ^ k)) by lia.
  rewrite <- Z.ones_equiv.
  rewrite Z.land_ones by exact Hk. apply Z.mod_same.
  apply Z.pow_nonzero; lia.
Qed.

(** An odd number above 1 fails the power-of-two test. *)
Lemma land_pred_odd (n : Z) :
  (1 < n)%Z -> Z.odd n = true -> Z.land n (n - 1) <> 0%Z.
Proof.
  intros Hn Hodd Hland.
  destruct (Zodd_ex n) as [m Hm]; [apply Zodd_bool_iff; exact Hodd|].
  assert (Hm0 : m <> 0%Z) by lia.
  assert (Hbit : exists i, (0 <= i)%Z /\ Z.testbit m i = true).
  { destruct (Z.eq_dec m 0%Z) as [|_]; [lia|].
    exists (Z.log2 m). split; [apply Z.log2_nonneg|].
    apply Z.bit_log2. lia. }
  destruct Hbit as (i & Hi & Hbit).
  apply (f_equal (fun z => Z.testbit z (Z.succ i))) in Hland.
  rewrite Z.land_spec, Z.bits_0 in Hland.
  replace (n - 1)%Z with (2 * m)%Z in Hland by lia.
  rewrite Hm in Hland.
  rewrite Z.testbit_odd_succ, Z.testbit_even_succ in Hland by exact Hi.
  rewrite Hbit in Hland. discriminate.
Qed.

(** Past a waveform of one sample, the padded length is found, is at
    least the waveform's length, passes the power-of-two test and is
    even. *)
Lemma getNextPowerOfTwo_spec (n : Z) :
  (2 <= n)%Z ->
  exists p, getNextPowerOfTwo n = Some p /\ (n <= p)%Z /\
            Z.land p (p - 1) = 0%Z /\ Z.odd p = false.
Proof.
  intros Hn. unfold getNextPowerOfTwo.
  destruct (Z.eqb_spec (Z.land n (n - 1)) 0) as [Hland|Hland].
  - exists n. repeat split; [lia|exact Hland|].
    destruct (Z.odd n) eqn:Hodd; [|reflexivity].
    exfalso. apply (land_pred_odd n); [lia|exact Hodd|exact Hland].
  - destruct (doublePower_enough (Z.to_nat n) 1 n) as (k & Hk & Heq & Hle).
    { lia. }
    { rewrite Z2Nat.id by lia. rewrite Z.mul_1_l.
      apply Z.lt_le_incl, Z.pow_gt_lin_r; lia. }
    rewrite Z.mul_1_l in *. exists (2 ^ k)%Z.
    repeat split; [exact Heq|exact Hle|apply land_pow2_pred, Hk|].
    assert (Hk1 : (1 <= k)%Z).
    { destruct (Z.eq_dec k 0%Z) as [->|]; [simpl in Hle; lia|lia]. }
    replace k with (Z.succ (k - 1)) by lia.
    rewrite Z.pow_succ_r by lia. apply Z.odd_even.
Qed.

Lemma bandLoop_enough (this : Config.t) (spectrum : list number)
    (resolution : number) (fuel : nat) (startFreq : number) :
  0 < Config.bandRange this ->
  Config.maxFrequency this - startFreq
    <= inject_Z (Z.of_nat fuel) * Config.bandRange this ->
  exists bands, bandLoop this spectrum resolution fuel startFreq = Some bands.
Proof.
  intros Hband. revert startFreq.
  induction fuel as [|fuel IH]; intros startFreq Hfuel; cbn [bandLoop].
  - destruct (Qltb startFreq (Config.maxFrequency this)) eqn:E; [|eauto].
    apply Qltb_lt in E. change (inject_Z (Z.of_nat 0)) with 0 in Hfuel. lra.
  - destruct (Qltb startFreq (Config.maxFrequency this)) eqn:E; [|eauto].
    destruct (IH (startFreq + Config.bandRange this)) as [rest Hrest].
    { rewrite Nat2Z.inj_succ, <- Z.add_1_r, inject_Z_plus in Hfuel.
      assert (E1 : inject_Z 1 == 1) by reflexivity.
      rewrite E1 in Hfuel. lra. }
    rewrite Hrest. eauto.
Qed.

Lemma bandFuel_enough (this : Config.t) :
  0 < Config.bandRange this ->
  Config.maxFrequency this - Config.minFrequency this
    <= inject_Z (Z.of_nat (bandFuel this)) * Config.bandRange this.
Proof.
  intros Hband. unfold bandFuel.
  set (d := Config.maxFrequency this - Config.minFrequency this).
  pose proof (Qle_ceiling (d / Config.bandRange this)) as Hc.
  set (c := Qceiling (d / Config.bandRange this)) in *.
  assert (Hz : inject_Z c <= inject_Z (Z.of_nat (Z.to_nat c))).
  { rewrite <- Zle_Qle. lia. }
  assert (Hd : d == d / Config.bandRange this * Config.bandRange this).
  { field. lra. }
  rewrite Hd. apply Qmult_le_compat_r; lra.
Qed.

(** ** The band grid *)

Lemma bandLoop_chain (this : Config.t) (spectrum : list number)
    (resolution : number) (fuel : nat) (startFreq : number)
    (bands : list (band * number)) :
  bandLoop this spectrum resolution fuel startFreq = Some bands ->
  bandChain this startFreq (map fst bands).
Proof.
  revert startFreq bands.
  induction fuel as [|fuel IH]; intros startFreq bands; cbn [bandLoop];
    destruct (Qltb startFreq (Config.maxFrequency this)) eqn:E;
    intros H; try discriminate.
  - injection H as <-. constructor. apply Qltb_ge, E.
  - destruct (bandLoop this spectrum resolution fuel
                (startFreq + Config.bandRange this)) as [rest|] eqn:Hrest;
      [|discriminate].
    injection H as <-. cbn [map fst].
    constructor; [apply Qltb_lt, E|]. apply IH, Hrest.
  - injection H as <-. constructor. apply Qltb_ge, E.
Qed.

(** Each peak is read off the spectrum handed to the loop. *)
Lemma bandLoop_peaks (this : Config.t) (spectrum : list number)
    (resolution : number) (fuel : nat) (startFreq : number)
    (bands : list (band * number)) :
  bandLoop this spectrum resolution fuel startFreq = Some bands ->
  Forall (fun e => snd e =
            calculateRealPeakInBand spectrum (fst (fst e)) (snd (fst e)) resolution)
         bands.
Proof.
  revert startFreq bands.
  induction fuel as [|fuel IH]; intros startFreq bands; cbn [bandLoop];
    destruct (Qltb startFreq (Config.maxFrequency this)) eqn:E;
    intros H; try discriminate.
  - injection H as <-. constructor.
  - destruct (bandLoop this spectrum resolution fuel
                (startFreq + Config.bandRange this)) as [rest|] eqn:Hrest;
      [|discriminate].
    injection H as <-. constructor; [reflexivity|]. eapply IH, Hrest.
  - injection H as <-. constructor.
Qed.

Lemma bandChain_head (this : Config.t) (startFreq : number) (k : band)
    (rest : list band) :
  bandChain this startFreq (k :: rest) ->
  fst k = startFreq /\ startFreq < Config.maxFrequency this /\
  snd k = Math_min (startFreq + Config.bandRange this) (Config.maxFrequency this) /\
  bandChain this (startFreq + Config.bandRange this) rest.
Proof.
  intros H. inversion H; subst. cbn. auto.
Qed.

Lemma bandChain_each (this : Config.t) (startFreq : number) (keys : list band) :
  0 < Config.bandRange this ->
  bandChain this startFreq keys ->
  forall k, In k keys ->
    startFreq <= fst k /\ fst k < Config.maxFrequency this /\
    fst k < snd k /\ snd k <= Config.maxFrequency this /\
    snd k - fst k <= Config.bandRange this.
Proof.
  intros Hband Hchain. induction Hchain as [|s rest Hlt Hrest IH]; intros k Hin.
  - destruct Hin.
  - destruct Hin as [<-|Hin].
    + cbn [fst snd]. unfold Math_min.
      destruct (Q.min_spec (s + Config.bandRange this) (Config.maxFrequency this))
        as [[Hcmp Hmin]|[Hcmp Hmin]]; rewrite Hmin; repeat split; lra.
    + specialize (IH k Hin). repeat split; try apply IH. lra.
Qed.

Lemma bandChain_adjacent (this : Config.t) (startFreq : number) (keys : list band) :
  0 < Config.bandRange this ->
  bandChain this startFreq keys ->
  forall (i : nat) (k k' : band),
    keys !! i = Some k -> keys !! S i = Some k' ->
    snd k == fst k' /\ fst k < fst k' /\
    snd k - fst k == Config.bandRange this.
Proof.
  intros Hband Hchain. induction Hchain as [|s rest Hlt Hrest IH]; intros i k k' Hk Hk'.
  - discriminate.
  - destruct i as [|i].
    + cbn in Hk, Hk'. injection Hk as <-. destruct rest as [|k1 rest']; [discriminate|].
      cbn in Hk'. injection Hk' as ->.
      apply bandChain_head in Hrest as (Hfst & Hlt' & _ & _).
      cbn [fst snd]. rewrite Hfst. unfold Math_min.
      rewrite Q.min_l by lra. repeat split; lra.
    + cbn in Hk, Hk'. exact (IH i k k' Hk Hk').
Qed.

(** The last band ends at the maximum frequency. *)
Lemma bandChain_last (this : Config.t) (startFreq : number) (keys : list band)
    (k : band) :
  0 < Config.bandRange this ->
  bandChain this startFreq keys ->
  last keys = Some k -> snd k == Config.maxFrequency this.
Proof.
  intros Hband Hchain. induction Hchain as [|s rest Hlt Hrest IH]; intros Hlast.
  - discriminate.
  - destruct rest as [|k1 rest'].
    + cbn in Hlast. injection Hlast as <-. cbn [snd].
      inversion Hrest; subst. unfold Math_min. apply Q.min_r. assumption.
    + apply IH. exact Hlast.
Qed.

Lemma getNextPowerOfTwo_total (n : Z) :
  (0 <= n)%Z -> exists p, getNextPowerOfTwo n = Some p.
Proof.
  intros Hn. unfold getNextPowerOfTwo.
  destruct (Z.land n (n - 1) =? 0)%Z; [eauto|].
  destruct (doublePower_enough (Z.to_nat n) 1 n) as (k & _ & Heq & _).
  { lia. }
  { rewrite Z2Nat.id by lia. rewrite Z.mul_1_l.
    apply Z.lt_le_incl, Z.pow_gt_lin_r; lia. }
  eauto.
Qed.

Lemma areParametersValid_inv (this : Config.t) :
  areParametersValid this = true ->
  CONSTANTS.MIN_LINES <= Config.numberOfLines this /\
  Config.numberOfLines this <= CONSTANTS.MAX_LINES /\
  0 <= Config.minFrequency this /\
  Config.minFrequency this < Config.maxFrequency this /\
  0 < Config.bandRange this /\
  Config.bandRange this <= Config.maxFrequency this.
Proof.
  unfold areParametersValid. rewrite !andb_true_iff.
  rewrite !Qle_bool_iff, !Qltb_lt. tauto.
Qed.

(** ** The peak of a band is a maximum *)

(** The loop returns the largest of the initial value and the bins it
    visits. *)
Lemma peakLoop_spec (spectrum : list number) (count : nat) :
  forall (i : Z) (maxValue : number),
    let r := peakLoop spectrum count i maxValue in
    maxValue <= r /\
    (forall (j : Z) (x : number),
       (i <= j < i + Z.of_nat count)%Z -> arrayGet spectrum j = Some x -> x <= r) /\
    (r = maxValue \/
     exists j, (i <= j < i + Z.of_nat count)%Z /\ arrayGet spectrum j = Some r).
Proof.
  induction count as [|count IH]; intros i maxValue; cbn [peakLoop].
  - cbv zeta. split; [lra|]. split; [intros j x Hj; lia|left; reflexivity].
  - set (m' := match arrayGet spectrum i with
               | Some x => if Qltb maxValue x then x else maxValue
               | None => maxValue
               end).
    destruct (IH (i + 1)%Z m') as (Hge & Hall & Hfrom).
    assert (Hm' : maxValue <= m' /\
                  (forall x, arrayGet spectrum i = Some x -> x <= m') /\
                  (m' = maxValue \/ arrayGet spectrum i = Some m')).
    { unfold m'. destruct (arrayGet spectrum i) as [x|].
      - destruct (Qltb maxValue x) eqn:E.
        + apply Qltb_lt in E. repeat split; [lra| |right; reflexivity].
          intros y [= <-]. lra.
        + apply Qltb_ge in E. repeat split; [lra| |left; reflexivity].
          intros y [= <-]. exact E.
      - repeat split; [lra| |left; reflexivity]. intros y [=]. }
    destruct Hm' as (Hm1 & Hm2 & Hm3).
    cbv zeta. split; [lra|]. split.
    + intros j x Hj Hx. destruct (Z.eq_dec j i) as [->|Hne].
      * specialize (Hm2 x Hx). lra.
      * apply (Hall j x); [lia|exact Hx].
    + destruct Hfrom as [Heq|(j & Hj & Hx)].
      * rewrite Heq. destruct Hm3 as [->|Hm3]; [left; reflexivity|].
        right. exists i. split; [lia|exact Hm3].
      * right. exists j. split; [lia|exact Hx].
Qed.

(** The peak of a band before rounding: not below 0, not below any bin
    of the given array with index from [floor(start/resolution)] up to
    [ceil(end/resolution)], and either 0 or one of these bins. *)
Lemma calculateRealPeakInBand_spec (spectrum : list number)
    (startFreq endFreq res : number) :
  exists peak,
    calculateRealPeakInBand spectrum startFreq endFreq res = limitPrecision peak /\
    0 <= peak /\
    (forall (j : Z) (x : number),
       (Math_floor (startFreq / res)%Q <= j < Math_ceil (endFreq / res)%Q)%Z ->
       arrayGet spectrum j = Some x -> x <= peak) /\
    (peak = 0 \/
     exists j, (Math_floor (startFreq / res)%Q <= j < Math_ceil (endFreq / res)%Q)%Z /\
               arrayGet spectrum j = Some peak).
Proof.
  unfold calculateRealPeakInBand.
  set (startIndex := Math_floor (startFreq / res)).
  set (endIndex := Math_ceil (endFreq / res)).
  set (stop := Z.min endIndex (Z.of_nat (length spectrum))).
  destruct (peakLoop_spec spectrum (Z.to_nat (stop - startIndex)) startIndex 0)
    as (Hge & Hall & Hfrom).
  eexists. split; [reflexivity|]. split; [exact Hge|]. split.
  - intros j x Hj Hx. apply (Hall j x); [|exact Hx].
    assert (j < Z.of_nat (length spectrum))%Z.
    { unfold arrayGet in Hx. destruct (Z.ltb_spec j 0); [discriminate|].
      apply lookup_lt_Some in Hx. lia. }
    lia.
  - destruct Hfrom as [Heq|(j & Hj & Hx)]; [left; exact Heq|].
    right. exists j. split; [lia|exact Hx].
Qed.

(** ** calculateSpectrum *)

Section CalculateSpectrum.

Variable Math_cos : number -> number.
Variable Math_sqrt : number -> number.
Variable FFT_accepts : Z -> bool.
Variable FFT_realTransform : list number -> list number.

Local Abbreviation calculate :=
  (calculateSpectrum Math_cos Math_sqrt FFT_accepts FFT_realTransform).

(** What a valid result tells about the call that returned it. *)
Lemma calculateSpectrum_valid_inv (this : Config.t) (waveform : TimeWaveform.t)
    (startTime now : Z) (r : SpectrumResult) :
  calculate this waveform startTime now = Returns r ->
  isValid r = true ->
  areParametersValid this = true /\
  isFilterValid this = true /\
  Config.maxFrequency this * (256 # 100) <= TimeWaveform.sampleRate waveform /\
  TimeWaveform.sampleRate waveform <= CONSTANTS.MAX_SAMPLE_RATE /\
  (now - startTime <= CONSTANTS.MAX_SPECTRUM_CALC_TIME)%Z /\
  maxFrequency r = Config.maxFrequency this /\
  resolution r = resolutionOf Math_cos this waveform /\
  quantity r = TimeWaveform.quantity waveform /\
  errorMessage r = None /\
  rawSpectrum r = Some (spectrumOf Math_cos Math_sqrt FFT_realTransform this waveform) /\
  bandLoop this (spectrumOf Math_cos Math_sqrt FFT_realTransform this waveform) (resolutionOf Math_cos this waveform)
    (bandFuel this) (Config.minFrequency this) = Some (bandPeaks r).
Proof.
  unfold calculateSpectrum, spectrumOf, resolutionOf, paddedInput.
  destruct (areParametersValid this); cbn [negb];
    [|intros [= <-]; discriminate].
  destruct (isFilterValid this); cbn [negb];
    [|intros [= <-]; discriminate].
  destruct (Qltb (TimeWaveform.sampleRate waveform) _) eqn:Erate;
    [intros [= <-]; discriminate|].
  destruct (Qltb CONSTANTS.MAX_SAMPLE_RATE _) eqn:Emax;
    [intros [= <-]; discriminate|].
  destruct (Qltb _ (lengthQ (TimeWaveform.data waveform)));
    [intros [= <-]; discriminate|].
  destruct (getNextPowerOfTwo _) as [p|]; [|discriminate].
  destruct (FFT_accepts _); cbn [negb]; [|discriminate].
  destruct (Z.odd _); [discriminate|].
  destruct (bandLoop _ _ _ _ _) as [bands|]; [|discriminate].
  destruct (Z.ltb_spec CONSTANTS.MAX_SPECTRUM_CALC_TIME (now - startTime));
    [intros [= <-]; discriminate|].
  intros [= <-] _. cbn.
  apply Qltb_ge in Erate, Emax. repeat split; auto.
Qed.

(** X12.  With a whole minimum frequency and a whole band range, for
    which the sums of the band loop are exact in double arithmetic, no
    call exhausts the bound given to a loop of the model: the call
    returns or throws, and so the loops of the source terminate.
    [band_loop_stalls_in_doubles] has a band range below the spacing of
    the doubles around the minimum frequency, for which the band loop
    of the source never ends. *)
Lemma calculateSpectrum_fuel_suffices (this : Config.t) (waveform : TimeWaveform.t)
    (startTime now : Z) :
  wholeNumber (Config.minFrequency this) = true ->
  wholeNumber (Config.bandRange this) = true ->
  (exists r, calculate this waveform startTime now = Returns r) \/
  calculate this waveform startTime now = Throws.
Proof.
  intros _ _. unfold calculateSpectrum.
  destruct (areParametersValid this) eqn:Evalid; cbn [negb]; [|eauto].
  destruct (isFilterValid this); cbn [negb]; [|eauto].
  destruct (Qltb (TimeWaveform.sampleRate waveform) _); [eauto|].
  destruct (Qltb CONSTANTS.MAX_SAMPLE_RATE _); [eauto|].
  destruct (Qltb _ (lengthQ (TimeWaveform.data waveform))); [eauto|].
  destruct (getNextPowerOfTwo_total
              (Z.of_nat (length (applyWindow Math_cos this (TimeWaveform.data waveform)))))
    as [p ->]; [lia|].
  destruct (FFT_accepts _); cbn [negb]; [|eauto].
  destruct (Z.odd _); [eauto|].
  apply areParametersValid_inv in Evalid as (_ & _ & _ & _ & Hband & _).
  match goal with
  | |- context [bandLoop this ?sp ?res _ _] =>
      destruct (bandLoop_enough this sp res (bandFuel this)
                  (Config.minFrequency this) Hband (bandFuel_enough this Hband))
        as [bands ->]
  end.
  destruct (_ <? _)%Z; eauto.
Qed.


(** *** Zero in, zero out *)

Lemma nth_all_zero (l : list number) (i : nat) :
  Forall (fun x => x == 0) l -> nth i l 0 == 0.
Proof.
  intros Hl. rewrite nth_lookup.
  destruct (l !! i) as [x|] eqn:E; cbn; [|reflexivity].
  exact (Forall_lookup_1 _ _ _ _ Hl E).
Qed.

Lemma applyWindow_all_zero (this : Config.t) (samples : list number) :
  Forall (fun x => x == 0) samples ->
  Forall (fun x => x == 0) (applyWindow Math_cos this samples).
Proof.
  intros Hz. unfold applyWindow. destruct (Config.windowType this); [|exact Hz].
  apply Forall_lookup_2. intros i y Hy.
  apply list_lookup_imap_Some in Hy as (x & Hx & ->).
  rewrite (Forall_lookup_1 _ _ _ _ Hz Hx). ring.
Qed.

Lemma applyWindow_length (this : Config.t) (samples : list number) :
  length (applyWindow Math_cos this samples) = length samples.
Proof.
  unfold applyWindow. destruct (Config.windowType this); [|reflexivity].
  apply length_imap.
Qed.

Lemma zeroPad_all_zero (l : list number) (p : Z) :
  Forall (fun x => x == 0) l -> Forall (fun x => x == 0) (zeroPad l p).
Proof.
  intros Hl. unfold zeroPad. destruct (_ <? _)%Z; [|exact Hl].
  apply Forall_app. split; [exact Hl|].
  apply List.Forall_forall. intros x Hx. apply repeat_spec in Hx. subst. reflexivity.
Qed.

Lemma zeroPad_length (l : list number) (p : Z) :
  (Z.of_nat (length l) <= p)%Z -> Z.of_nat (length (zeroPad l p)) = p.
Proof.
  intros Hp. unfold zeroPad. destruct (Z.ltb_spec (Z.of_nat (length l)) p).
  - rewrite length_app, repeat_length. lia.
  - lia.
Qed.

Lemma magnitudeSpectrum_all_zero (out : list number) (paddedLength : Z) :
  (forall x, x == 0 -> Math_sqrt x == 0) ->
  Forall (fun x => x == 0) out ->
  Forall (fun x => x == 0) (magnitudeSpectrum Math_sqrt out paddedLength).
Proof.
  intros Hsqrt Hout. unfold magnitudeSpectrum.
  apply List.Forall_forall. intros m Hm. apply in_map_iff in Hm as (i & <- & _).
  unfold magnitudeAt. apply limitPrecision_zero.
  rewrite Hsqrt.
  - unfold Qdiv. ring.
  - rewrite !(nth_all_zero out) by exact Hout. ring.
Qed.

Lemma peakLoop_all_zero (spectrum : list number) (count : nat) (i : Z)
    (maxValue : number) :
  Forall (fun x => x == 0) spectrum -> maxValue == 0 ->
  peakLoop spectrum count i maxValue == 0.
Proof.
  intros Hsp. revert i maxValue.
  induction count as [|count IH]; intros i maxValue Hmax; cbn [peakLoop].
  - exact Hmax.
  - apply IH. unfold arrayGet. destruct (i <? 0)%Z; [exact Hmax|].
    destruct (spectrum !! Z.to_nat i) as [x|] eqn:E; [|exact Hmax].
    destruct (Qltb maxValue x); [|exact Hmax].
    exact (Forall_lookup_1 _ _ _ _ Hsp E).
Qed.

Lemma calculateRealPeakInBand_all_zero (spectrum : list number)
    (startFreq endFreq res : number) :
  Forall (fun x => x == 0) spectrum ->
  calculateRealPeakInBand spectrum startFreq endFreq res == 0.
Proof.
  intros Hsp. unfold calculateRealPeakInBand.
  apply limitPrecision_zero, peakLoop_all_zero; [exact Hsp|reflexivity].
Qed.

(** *** A computation that passes every gate returns a valid result *)

Lemma calculateSpectrum_returns_valid (this : Config.t) (waveform : TimeWaveform.t)
    (startTime now : Z) :
  (forall size, (1 < size)%Z -> Z.land size (size - 1) = 0%Z ->
                FFT_accepts size = true) ->
  areParametersValid this = true ->
  isFilterValid this = true ->
  Config.maxFrequency this * (256 # 100) <= TimeWaveform.sampleRate waveform ->
  TimeWaveform.sampleRate waveform <= CONSTANTS.MAX_SAMPLE_RATE ->
  (2 <= length (TimeWaveform.data waveform))%nat ->
  lengthQ (TimeWaveform.data waveform)
    <= CONSTANTS.MAX_SAMPLE_RATE * CONSTANTS.MAX_WAVEFORM_LENGTH ->
  (now - startTime <= CONSTANTS.MAX_SPECTRUM_CALC_TIME)%Z ->
  exists r, calculate this waveform startTime now = Returns r /\ isValid r = true.
Proof.
  intros Hacc Hvalid Hfilter Hlow Hhigh Hlen Hmaxlen Htime.
  unfold calculateSpectrum.
  rewrite Hvalid, Hfilter. cbn [negb].
  rewrite (proj2 (Qltb_ge _ _) Hlow), (proj2 (Qltb_ge _ _) Hhigh),
          (proj2 (Qltb_ge _ _) Hmaxlen).
  rewrite applyWindow_length.
  destruct (getNextPowerOfTwo_spec (Z.of_nat (length (TimeWaveform.data waveform))))
    as (p & -> & Hp & Hland & Hodd); [lia|].
  rewrite zeroPad_length by (rewrite applyWindow_length; exact Hp).
  rewrite Hacc by (lia || exact Hland). cbn [negb]. rewrite Hodd.
  apply areParametersValid_inv in Hvalid as (_ & _ & _ & _ & Hband & _).
  match goal with
  | |- context [bandLoop this ?sp ?res _ _] =>
      destruct (bandLoop_enough this sp res (bandFuel this)
                  (Config.minFrequency this) Hband (bandFuel_enough this Hband))
        as [bands ->]
  end.
  destruct (Z.ltb_spec CONSTANTS.MAX_SPECTRUM_CALC_TIME (now - startTime)); [lia|].
  eexists. split; reflexivity.
Qed.

(** *** Band peaks are read off the unfiltered spectrum *)

Lemma band_peaks_read_raw_spectrum (this : Config.t) (waveform : TimeWaveform.t)
    (startTime now : Z) (r : SpectrumResult) :
  calculate this waveform startTime now = Returns r ->
  isValid r = true ->
  exists spectrum,
    rawSpectrum r = Some spectrum /\
    Forall (fun e => snd e =
              calculateRealPeakInBand spectrum (fst (fst e)) (snd (fst e))
                (resolution r))
           (bandPeaks r).
Proof.
  intros Hcall Hvalid.
  destruct (calculateSpectrum_valid_inv _ _ _ _ _ Hcall Hvalid)
    as (_ & _ & _ & _ & _ & _ & Hres & _ & _ & Hraw & Hloop).
  eexists. split; [exact Hraw|]. rewrite Hres.
  eapply bandLoop_peaks, Hloop.
Qed.

(** *** The sample-rate ceiling *)

(** C4 (as the code has it).  A waveform sampled above 131072 Hz always
    gets an invalid result with no bands, and the call neither throws
    nor reaches the transform.  The reason is that of the first failing
    check: the joint parameter check, then the filter ordering, then
    the 2.56 ratio against the maximum frequency, and only then the
    sample-rate ceiling.  The engine compares the sample rate with the
    rounded product [maxFrequency * 2.56]: the ceiling reason is stated
    for a rate at or above the exact product, which is then at or above
    the rounded one too, and the ratio reason for a whole sample rate
    below the exact product of a whole maximum frequency, which is then
    below the rounded one too. *)
Theorem sample_rate_above_ceiling_rejected (this : Config.t)
    (waveform : TimeWaveform.t) (startTime now : Z) :
  CONSTANTS.MAX_SAMPLE_RATE < TimeWaveform.sampleRate waveform ->
  exists r,
    calculate this waveform startTime now = Returns r /\
    isValid r = false /\
    bandPeaks r = [] /\
    (areParametersValid this = false ->
       errorMessage r = Some "Invalid spectrum parameters"%string) /\
    (areParametersValid this = true -> isFilterValid this = false ->
       errorMessage r =
         Some "High pass frequency must be smaller than low pass frequency"%string) /\
    (areParametersValid this = true -> isFilterValid this = true ->
     wholeNumber (TimeWaveform.sampleRate waveform) = true ->
     wholeNumber (Config.maxFrequency this) = true ->
     TimeWaveform.sampleRate waveform < Config.maxFrequency this * (256 # 100) ->
       errorMessage r =
         Some "Sample rate must be at least 2.56 times higher than maximum frequency"%string) /\
    (areParametersValid this = true -> isFilterValid this = true ->
     Config.maxFrequency this * (256 # 100) <= TimeWaveform.sampleRate waveform ->
       errorMessage r = Some "Sample rate cannot exceed 131072 Hz"%string).
Proof.
  intros Hrate. unfold calculateSpectrum.
  destruct (areParametersValid this); cbn [negb].
  2: { eexists. split; [reflexivity|]. cbn. repeat split; auto; discriminate. }
  destruct (isFilterValid this); cbn [negb].
  2: { eexists. split; [reflexivity|]. cbn. repeat split; auto; discriminate. }
  destruct (Qltb (TimeWaveform.sampleRate waveform) _) eqn:Elow.
  { apply Qltb_lt in Elow. eexists. split; [reflexivity|]. cbn.
    repeat split; auto; try discriminate. intros _ _ H. lra. }
  apply Qltb_ge in Elow.
  rewrite (proj2 (Qltb_lt _ _) Hrate).
  eexists. split; [reflexivity|]. cbn.
  repeat split; auto; try discriminate. intros _ _ _ _ H. lra.
Qed.

(** *** The band grid of a valid result *)

(** C5 (as the code has it).  With a whole minimum frequency and a
    whole band range, for which the sums [startFreq + bandRange] of the
    loop are exact in double arithmetic: in a valid result the band
    keys, in insertion order, start at the minimum frequency, are
    strictly ascending and contiguous (each end is the next start), lie
    within the configured range, and are at most [bandRange] wide,
    exactly so for every band that has a successor; the last band ends
    at the maximum frequency. *)
Theorem band_keys_tile_the_range (this : Config.t) (waveform : TimeWaveform.t)
    (startTime now : Z) (r : SpectrumResult) :
  calculate this waveform startTime now = Returns r ->
  isValid r = true ->
  wholeNumber (Config.minFrequency this) = true ->
  wholeNumber (Config.bandRange this) = true ->
  let keys := map fst (bandPeaks r) in
  (exists k rest, keys = k :: rest /\ fst k = Config.minFrequency this) /\
  (forall (i : nat) (k k' : band),
     keys !! i = Some k -> keys !! S i = Some k' ->
     snd k == fst k' /\ fst k < fst k') /\
  (forall k, In k keys ->
     Config.minFrequency this <= fst k /\ fst k < Config.maxFrequency this /\
     fst k < snd k /\ snd k <= Config.maxFrequency this) /\
  (forall (i : nat) (k : band),
     keys !! i = Some k ->
     snd k - fst k <= Config.bandRange this /\
     ((S i < length keys)%nat -> snd k - fst k == Config.bandRange this)) /\
  (forall k, last keys = Some k -> snd k == Config.maxFrequency this).
Proof.
  intros Hcall Hvalid _ _ keys.
  destruct (calculateSpectrum_valid_inv _ _ _ _ _ Hcall Hvalid)
    as (Hparams & _ & _ & _ & _ & _ & _ & _ & _ & _ & Hloop).
  apply areParametersValid_inv in Hparams as (_ & _ & _ & Hrange & Hband & _).
  pose proof (bandLoop_chain _ _ _ _ _ _ Hloop) as Hchain.
  fold keys in Hchain.
  repeat split.
  - inversion Hchain as [s Hge|s rest Hlt Hrest]; subst; [lra|].
    eexists _, _. split; reflexivity.
  - eapply (bandChain_adjacent this _ keys Hband Hchain i k k'); eassumption.
  - eapply (bandChain_adjacent this _ keys Hband Hchain i k k'); eassumption.
  - apply (bandChain_each this _ keys Hband Hchain k H).
  - apply (bandChain_each this _ keys Hband Hchain k H).
  - apply (bandChain_each this _ keys Hband Hchain k H).
  - apply (bandChain_each this _ keys Hband Hchain k H).
  - apply (bandChain_each this _ keys Hband Hchain k).
    apply list_elem_of_In. eapply list_elem_of_lookup_2. eassumption.
  - intros Hlen. destruct (lookup_lt_is_Some_2 keys (S i) Hlen) as [k' Hk'].
    eapply (bandChain_adjacent this _ keys Hband Hchain i k k'); eassumption.
  - intros k Hk. exact (bandChain_last this _ keys k Hband Hchain Hk).
Qed.

(** *** An all-zero waveform *)

(** C6 (as the code has it).  With a valid configuration, an all-zero
    waveform of at least two samples that passes the sample-rate and
    length gates, a transform that accepts powers of two and maps zero
    to zero, and a computation within the time budget, the result is
    valid and every band peak is 0. *)
Theorem zero_waveform_zero_peaks (this : Config.t) (waveform : TimeWaveform.t)
    (startTime now : Z) :
  (forall x, x == 0 -> Math_sqrt x == 0) ->
  (forall input, Forall (fun x => x == 0) input ->
                 Forall (fun x => x == 0) (FFT_realTransform input)) ->
  (forall size, (1 < size)%Z -> Z.land size (size - 1) = 0%Z ->
                FFT_accepts size = true) ->
  areParametersValid this = true ->
  isFilterValid this = true ->
  Config.maxFrequency this * (256 # 100) <= TimeWaveform.sampleRate waveform ->
  TimeWaveform.sampleRate waveform <= CONSTANTS.MAX_SAMPLE_RATE ->
  (2 <= length (TimeWaveform.data waveform))%nat ->
  lengthQ (TimeWaveform.data waveform)
    <= CONSTANTS.MAX_SAMPLE_RATE * CONSTANTS.MAX_WAVEFORM_LENGTH ->
  (now - startTime <= CONSTANTS.MAX_SPECTRUM_CALC_TIME)%Z ->
  Forall (fun x => x == 0) (TimeWaveform.data waveform) ->
  exists r,
    calculate this waveform startTime now = Returns r /\
    isValid r = true /\
    Forall (fun e => snd e == 0) (bandPeaks r).
Proof.
  intros Hsqrt Hfft Hacc Hparams Hfilter Hlow Hhigh Hlen Hmaxlen Htime Hzero.
  destruct (calculateSpectrum_returns_valid this waveform startTime now
              Hacc Hparams Hfilter Hlow Hhigh Hlen Hmaxlen Htime)
    as (r & Hcall & Hvalid).
  exists r. split; [exact Hcall|]. split; [exact Hvalid|].
  destruct (band_peaks_read_raw_spectrum _ _ _ _ _ Hcall Hvalid)
    as (spectrum & Hraw & Hpeaks).
  destruct (calculateSpectrum_valid_inv _ _ _ _ _ Hcall Hvalid)
    as (_ & _ & _ & _ & _ & _ & _ & _ & _ & Hraw' & _).
  rewrite Hraw in Hraw'. injection Hraw' as ->.
  eapply Forall_impl; [exact Hpeaks|].
  intros [[s e] v] He. cbn [fst snd] in *. subst v.
  apply calculateRealPeakInBand_all_zero.
  unfold spectrumOf. apply magnitudeSpectrum_all_zero; [exact Hsqrt|].
  apply Hfft. unfold paddedInput.
  destruct (getNextPowerOfTwo _).
  - apply zeroPad_all_zero, applyWindow_all_zero, Hzero.
  - apply applyWindow_all_zero, Hzero.
Qed.

(** *** The line count *)

Lemma bandLoop_withNumberOfLines (this : Config.t) (lines : number)
    (spectrum : list number) (res : number) (fuel : nat) (startFreq : number) :
  bandLoop (withNumberOfLines this lines) spectrum res fuel startFreq
  = bandLoop this spectrum res fuel startFreq.
Proof.
  revert startFreq. induction fuel as [|fuel IH]; intros startFreq.
  - reflexivity.
  - cbn [bandLoop]. rewrite IH. reflexivity.
Qed.

(** C10.  Two line counts within [100, 102400], all other fields
    equal: the two calls have the same outcome, down to the retained
    magnitude array. *)
Theorem numberOfLines_has_no_effect (this : Config.t) (lines1 lines2 : number)
    (waveform : TimeWaveform.t) (startTime now : Z) :
  CONSTANTS.MIN_LINES <= lines1 -> lines1 <= CONSTANTS.MAX_LINES ->
  CONSTANTS.MIN_LINES <= lines2 -> lines2 <= CONSTANTS.MAX_LINES ->
  calculate (withNumberOfLines this lines1) waveform startTime now
  = calculate (withNumberOfLines this lines2) waveform startTime now.
Proof.
  intros Hlo1 Hhi1 Hlo2 Hhi2. unfold calculateSpectrum.
  assert (Hvalid : areParametersValid (withNumberOfLines this lines1)
                   = areParametersValid (withNumberOfLines this lines2)).
  { unfold areParametersValid. cbn.
    rewrite (proj2 (Qle_bool_iff _ _) Hlo1), (proj2 (Qle_bool_iff _ _) Hhi1),
            (proj2 (Qle_bool_iff _ _) Hlo2), (proj2 (Qle_bool_iff _ _) Hhi2).
    reflexivity. }
  rewrite Hvalid. clear Hvalid.
  destruct (areParametersValid _); cbn [negb]; [|reflexivity].
  change (isFilterValid (withNumberOfLines this lines1))
    with (isFilterValid (withNumberOfLines this lines2)).
  destruct (isFilterValid _); cbn [negb]; [|reflexivity].
  change (Config.maxFrequency (withNumberOfLines this lines1))
    with (Config.maxFrequency (withNumberOfLines this lines2)).
  destruct (Qltb (TimeWaveform.sampleRate waveform) _); [reflexivity|].
  destruct (Qltb CONSTANTS.MAX_SAMPLE_RATE _); [reflexivity|].
  destruct (Qltb _ (lengthQ (TimeWaveform.data waveform))); [reflexivity|].
  change (applyWindow Math_cos (withNumberOfLines this lines1))
    with (applyWindow Math_cos (withNumberOfLines this lines2)).
  destruct (getNextPowerOfTwo _) as [p|]; [|reflexivity].
  destruct (FFT_accepts _); cbn [negb]; [|reflexivity].
  destruct (Z.odd _); [reflexivity|].
  rewrite !bandLoop_withNumberOfLines. reflexivity.
Qed.
End CalculateSpectrum.

(** ** integrateSpectrum *)

Lemma isIntegrationAllowed_true (this : Config.t) :
  0 < Config.highPassFrequency this -> isIntegrationAllowed this = true.
Proof. intros H. apply Qltb_lt, H. Qed.




(** C3 (as the code has it).  From acceleration, with a high-pass
    frequency above 0, two integrations reach displacement and the
    third is invalid with the reason "Cannot integrate displacement to
    prevent double integration", which contains "Cannot integrate
    displacement" with that capital. *)
Theorem third_integration_rejected (this : Config.t) (spectrum : SpectrumResult) :
  0 < Config.highPassFrequency this ->
  isValid spectrum = true ->
  quantity spectrum = Acceleration ->
  let twice := integrateSpectrum this (integrateSpectrum this spectrum) in
  let thrice := integrateSpectrum this twice in
  isValid twice = true /\
  quantity twice = Displacement /\
  isValid thrice = false /\
  quantity thrice = Displacement /\
  errorMessage thrice =
    Some "Cannot integrate displacement to prevent double integration"%string /\
  exists reason, errorMessage thrice = Some reason /\
                 includes reason "Cannot integrate displacement" = true.
Proof.
  intros Hhp _ Hq twice thrice. subst twice thrice. unfold integrateSpectrum.
  rewrite (isIntegrationAllowed_true this Hhp), Hq. cbn.
  repeat split. eexists. split; reflexivity.
Qed.

(** C9.  The validity flag of the input is not read: with a high-pass
    frequency above 0 and a quantity other than displacement, an
    invalid input yields a valid result, the one the same input marked
    valid yields. *)
Theorem integrateSpectrum_ignores_input_validity (this : Config.t)
    (spectrum : SpectrumResult) :
  isValid spectrum = false ->
  0 < Config.highPassFrequency this ->
  quantity spectrum = Acceleration \/ quantity spectrum = Velocity ->
  isValid (integrateSpectrum this spectrum) = true /\
  integrateSpectrum this spectrum
  = integrateSpectrum this
      {| maxFrequency := maxFrequency spectrum;
         resolution := resolution spectrum;
         quantity := quantity spectrum;
         bandPeaks := bandPeaks spectrum;
         isValid := true;
         errorMessage := errorMessage spectrum;
         rawSpectrum := rawSpectrum spectrum |}.
Proof.
  intros _ Hhp Hq. unfold integrateSpectrum.
  rewrite (isIntegrationAllowed_true this Hhp). cbn [negb].
  destruct Hq as [Hq | Hq]; rewrite Hq; cbn; split; reflexivity.
Qed.

(** ** calculatePeakInBand *)

Lemma findBand_first_match (before after : list (band * number)) (b : band)
    (value startFreq endFreq : number) :
  Forall (otherBand startFreq endFreq) before ->
  fst b == startFreq -> snd b == endFreq ->
  findBand (before ++ (b, value) :: after) startFreq endFreq = Some value.
Proof.
  intros Hbefore Hs He. induction Hbefore as [|[b0 v0] rest Hother _ IH]; cbn.
  - rewrite (proj2 (Qeq_bool_iff _ _) Hs), (proj2 (Qeq_bool_iff _ _) He).
    reflexivity.
  - destruct (Qeq_bool (fst b0) startFreq) eqn:E1;
      destruct (Qeq_bool (snd b0) endFreq) eqn:E2; cbn; try exact IH.
    exfalso. apply Hother. cbn. split; apply Qeq_bool_iff; assumption.
Qed.

Lemma findBand_no_match (entries : list (band * number)) (startFreq endFreq : number) :
  Forall (otherBand startFreq endFreq) entries ->
  findBand entries startFreq endFreq = None.
Proof.
  induction 1 as [|[b0 v0] rest Hother _ IH]; cbn; [reflexivity|].
  destruct (Qeq_bool (fst b0) startFreq) eqn:E1;
    destruct (Qeq_bool (snd b0) endFreq) eqn:E2; cbn; try exact IH.
  exfalso. apply Hother. cbn. split; apply Qeq_bool_iff; assumption.
Qed.

(** C7 (as the code has it).  On an invalid result the query answers
    -1 whatever the bands hold.  On a valid result it answers the value
    stored with the first key whose two frequencies equal the pair
    asked for, and -1 when there is none; the answer depends on the
    validity flag and the band mapping alone, never on the retained
    spectrum or the resolution. *)
Theorem calculatePeakInBand_looks_up_stored_peak (spectrum : SpectrumResult)
    (startFreq endFreq : number) :
  (isValid spectrum = false ->
     calculatePeakInBand spectrum startFreq endFreq = -1) /\
  (isValid spectrum = true ->
     forall before b value after,
       bandPeaks spectrum = before ++ (b, value) :: after ->
       Forall (otherBand startFreq endFreq) before ->
       fst b == startFreq -> snd b == endFreq ->
       calculatePeakInBand spectrum startFreq endFreq = value) /\
  (isValid spectrum = true ->
     Forall (otherBand startFreq endFreq) (bandPeaks spectrum) ->
     calculatePeakInBand spectrum startFreq endFreq = -1) /\
  (forall other,
     isValid other = isValid spectrum ->
     bandPeaks other = bandPeaks spectrum ->
     calculatePeakInBand other startFreq endFreq
     = calculatePeakInBand spectrum startFreq endFreq).
Proof.
  unfold calculatePeakInBand. repeat split.
  - intros ->. reflexivity.
  - intros -> before b value after -> Hbefore Hs He. cbn [negb].
    rewrite (findBand_first_match before after b value _ _ Hbefore Hs He).
    reflexivity.
  - intros -> Hnone. cbn [negb]. rewrite (findBand_no_match _ _ _ Hnone).
    reflexivity.
  - intros other -> ->. reflexivity.
Qed.

(** ** The reference primitives *)

Lemma Reference_sqrt_zero (x : number) : x == 0 -> Reference.sqrt x == 0.
Proof.
  intros Hx. unfold Reference.sqrt.
  rewrite (Qred_complete x 0 Hx). reflexivity.
Qed.

Lemma Reference_FFT_zero (input : list number) :
  Forall (fun x => x == 0) input ->
  Forall (fun x => x == 0) (Reference.FFT_realTransform input).
Proof.
  intros Hz. unfold Reference.FFT_realTransform.
  assert (Hrep : forall n, Forall (fun x : number => x == 0) (repeat 0 n)).
  { intros n. apply List.Forall_forall. intros y Hy.
    apply repeat_spec in Hy. subst. reflexivity. }
  destruct input as [|x0 [|x1 [|x2 [|x3 [|x4 rest]]]]]; try apply Hrep.
  - inversion Hz as [|? ? H0 Hz1]; subst. inversion Hz1 as [|? ? H1 _]; subst.
    repeat constructor; try reflexivity; rewrite H0, H1; reflexivity.
  - inversion Hz as [|? ? H0 Hz1]; subst. inversion Hz1 as [|? ? H1 Hz2]; subst.
    inversion Hz2 as [|? ? H2 Hz3]; subst. inversion Hz3 as [|? ? H3 _]; subst.
    repeat constructor; try reflexivity; rewrite ?H0, ?H1, ?H2, ?H3; reflexivity.
Qed.

Lemma Reference_FFT_accepts_powers (size : Z) :
  (1 < size)%Z -> Z.land size (size - 1) = 0%Z ->
  Reference.FFT_accepts size = true.
Proof.
  intros Hsize Hland. unfold Reference.FFT_accepts.
  rewrite Hland. destruct (Z.ltb_spec 1 size); [reflexivity|lia].
Qed.

(** The examples are states the setters reach. *)
Lemma highPassConfig_reachable :
  andThen (setWindowType Config.initial Rectangular)
    (fun this => setHighPassFrequency this 1000)
  = inr Examples.highPassConfig.
Proof. reflexivity. Qed.

Lemma swappedRangeConfig_reachable :
  setMinFrequency Config.initial 2000 = inr Examples.swappedRangeConfig.
Proof. reflexivity. Qed.

(** ** The engine on concrete inputs *)

(** C1 (the code departs from it).  High-pass at 1000 Hz, rectangular
    window, four constant samples at 4000 Hz: the spectrum has magnitude
    1 in bin 0 and the filter zeroes every bin, yet the band [0, 25)
    gets peak 1, the maximum over the unfiltered bins; over the filtered
    spectrum the same band has peak 0. *)
Theorem band_peak_ignores_filter :
  exists r spectrum peak,
    Reference.calculateSpectrum Examples.highPassConfig
      Examples.constantWaveform 0 0 = Returns r /\
    isValid r = true /\
    rawSpectrum r = Some spectrum /\
    head (bandPeaks r) = Some ((0, 25), peak) /\
    peak == 1 /\
    Forall (fun x => x == 0)
      (applyFrequencyDomainFiltering Examples.highPassConfig spectrum
         (resolution r)) /\
    calculateRealPeakInBand
      (applyFrequencyDomainFiltering Examples.highPassConfig spectrum
         (resolution r))
      0 25 (resolution r) == 0.
Proof.
  eexists _, _, _.
  split; [vm_compute; reflexivity|].
  split; [reflexivity|].
  split; [reflexivity|].
  split; [reflexivity|].
  split; [reflexivity|].
  split; [|reflexivity].
  repeat constructor.
Qed.

(** C3: the reason of the third integration does not contain the
    lower-case text "cannot integrate displacement". *)
Lemma third_integration_reason_is_capitalised :
  let thrice :=
    integrateSpectrum Examples.highPassConfig
      (integrateSpectrum Examples.highPassConfig
         (integrateSpectrum Examples.highPassConfig Examples.storedResult)) in
  0 < Config.highPassFrequency Examples.highPassConfig /\
  isValid Examples.storedResult = true /\
  quantity Examples.storedResult = Acceleration /\
  isValid thrice = false /\
  ~ (exists reason, errorMessage thrice = Some reason /\
                    includes reason "cannot integrate displacement" = true).
Proof.
  cbv zeta. repeat split.
  intros (reason & Hreason & Hincl).
  vm_compute in Hreason. injection Hreason as <-.
  vm_compute in Hincl. discriminate.
Qed.

(** C4: with the minimum frequency set above the maximum, a waveform
    sampled at 150000 Hz is rejected for its parameters, not for its
    sample rate. *)
Lemma sample_rate_reason_depends_on_configuration :
  CONSTANTS.MAX_SAMPLE_RATE < TimeWaveform.sampleRate Examples.fastWaveform /\
  exists r,
    Reference.calculateSpectrum Examples.swappedRangeConfig
      Examples.fastWaveform 0 0 = Returns r /\
    isValid r = false /\
    errorMessage r = Some "Invalid spectrum parameters"%string /\
    errorMessage r <> Some "Sample rate cannot exceed 131072 Hz"%string.
Proof.
  split; [reflexivity|].
  eexists. split; [vm_compute; reflexivity|].
  repeat split. discriminate.
Qed.

(** C6: the default configuration is valid, yet an all-zero waveform
    sampled at 1000 Hz gets an invalid result. *)
Lemma zero_waveform_rejected_for_sample_rate :
  areParametersValid Config.initial = true /\
  isFilterValid Config.initial = true /\
  Forall (fun x => x == 0) (TimeWaveform.data Examples.slowZeroWaveform) /\
  exists r,
    Reference.calculateSpectrum Config.initial Examples.slowZeroWaveform 0 0
      = Returns r /\
    isValid r = false.
Proof.
  repeat split.
  - repeat constructor.
  - eexists. split; [vm_compute; reflexivity|reflexivity].
Qed.

(** C7: the engine computes a spectrum with the high-pass filter set;
    integrating it after the filter is switched off returns it marked
    invalid with its bands kept; the query then answers -1 for the key
    (0, 25), which is stored with peak 1. *)
Lemma invalid_result_hides_stored_peak :
  exists computed peak,
    Reference.calculateSpectrum Examples.highPassConfig
      Examples.constantWaveform 0 0 = Returns computed /\
    let rejected := integrateSpectrum Config.initial computed in
    isValid rejected = false /\
    head (bandPeaks rejected) = Some ((0, 25), peak) /\
    peak == 1 /\
    calculatePeakInBand rejected 0 25 = -1 /\
    ~ calculatePeakInBand rejected 0 25 == peak.
Proof.
  eexists _, _. split; [vm_compute; reflexivity|].
  cbv zeta. split; [reflexivity|]. split; [reflexivity|].
  split; [reflexivity|]. split; [reflexivity|]. discriminate.
Qed.
(** ** The engine's arithmetic in doubles, on concrete inputs *)

(** C5: after [setMaxFrequency(1)] and [setBandRange(0.1)] a waveform of
    four samples at 4 Hz passes every gate, and the band loop, adding
    0.1 in double arithmetic, emits eleven bands.  Taken exactly, the
    third band, (0.2, 0.30000000000000004), is wider than the band
    range, and the fourth, which is not the last, is narrower. *)
Lemma band_keys_drift_in_doubles :
  Binary64.gateFailure Binary64.tenthsConfig 4 4 = None /\
  Binary64.bandKeys Binary64.tenthsConfig 12
    (Binary64.Config.minFrequency Binary64.tenthsConfig)
  = Some [(0, 0.1); (0.1, 0.2); (0.2, 0.30000000000000004);
          (0.30000000000000004, 0.4); (0.4, 0.5); (0.5, 0.6);
          (0.6, 0.7); (0.7, 0.7999999999999999);
          (0.7999999999999999, 0.8999999999999999);
          (0.8999999999999999, 0.9999999999999999);
          (0.9999999999999999, 1)]%float /\
  exists bandRange third fourth,
    Binary64.toQ (Binary64.Config.bandRange Binary64.tenthsConfig)
    = Some bandRange /\
    Binary64.exactWidth (0.2, 0.30000000000000004)%float = Some third /\
    Binary64.exactWidth (0.30000000000000004, 0.4)%float = Some fourth /\
    bandRange < third /\ fourth < bandRange.
Proof.
  split; [reflexivity|]. split; [reflexivity|].
  eexists _, _, _. repeat split; reflexivity.
Qed.

(** After [setMaxFrequency(2000)], [setMinFrequency(1000)] and
    [setBandRange(1e-20)] a call passes every gate, and in the band loop
    [startFreq += bandRange] leaves [startFreq] at 1000: the loop does
    not end, whatever the number of iterations granted. *)
Lemma band_loop_stalls_in_doubles :
  Binary64.gateFailure Binary64.tinyRangeConfig 8192 4 = None /\
  (Binary64.Config.minFrequency Binary64.tinyRangeConfig
   + Binary64.Config.bandRange Binary64.tinyRangeConfig
   = Binary64.Config.minFrequency Binary64.tinyRangeConfig)%float /\
  forall fuel : nat,
    Binary64.bandKeys Binary64.tinyRangeConfig fuel
      (Binary64.Config.minFrequency Binary64.tinyRangeConfig) = None.
Proof.
  split; [reflexivity|]. split; [reflexivity|].
  change (Binary64.Config.minFrequency Binary64.tinyRangeConfig) with 1000%float.
  induction fuel as [|fuel IH]; [reflexivity|].
  cbn [Binary64.bandKeys].
  change (1000 <? Binary64.Config.maxFrequency Binary64.tinyRangeConfig)%float
    with true.
  change (1000 + Binary64.Config.bandRange Binary64.tinyRangeConfig)%float
    with 1000%float.
  cbv iota zeta. rewrite IH. reflexivity.
Qed.

(** The ratio gate compares with the rounded product: the double
    131074.56 lies below 51201 x 2.56 taken exactly, yet is not below
    the product as the engine computes it, and the call is rejected for
    the ceiling. *)
Lemma ratio_gate_compares_with_rounded_product :
  Binary64.gateFailure Binary64.nearCeilingConfig 131074.56 4
  = Some "Sample rate cannot exceed 131072 Hz"%string /\
  exists sampleRate maxFrequency,
    Binary64.toQ 131074.56 = Some sampleRate /\
    Binary64.toQ (Binary64.Config.maxFrequency Binary64.nearCeilingConfig)
    = Some maxFrequency /\
    sampleRate < maxFrequency * (256 # 100).
Proof.
  split; [reflexivity|]. eexists _, _. repeat split; reflexivity.
Qed.

(** The quotient of a frequency by a resolution can round to a whole
    number: 25 over the double 0.1 is below 250 taken exactly, and is
    250 as the engine computes it. *)
Lemma band_quotient_rounds_to_whole_number :
  Binary64.bandQuotients 25 50 0.1 = (250, 500)%float /\
  exists startFreq resolution,
    Binary64.toQ 25 = Some startFreq /\
    Binary64.toQ 0.1 = Some resolution /\
    Math_floor (startFreq / resolution) = 249%Z.
Proof.
  split; [reflexivity|]. eexists _, _. repeat split; reflexivity.
Qed.

(** Half of the smallest positive double is 0: the band (0, 5e-324) is
    skipped by the integration. *)
Lemma halved_min_value_is_zero :
  Binary64.centerFreq (0, 5e-324)%float = 0%float /\
  Binary64.bandIsSkipped (0, 5e-324)%float = true /\
  Binary64.toQ 5e-324 = Some Number_MIN_VALUE.
Proof. repeat split; reflexivity. Qed.

(** Below the smallest normal double the center frequency loses its
    digits: for the band (0, 1e-323) and the value 1e-322 the quotient
    is 20 / (2 pi), about 3.18, taken exactly, and 3.33 as the engine
    computes it. *)
Lemma subnormal_center_loses_digits :
  Binary64.integrationQuotient (0, 1e-323)%float 1e-322 = 3.3333333333333335%float /\
  exists startFreq endFreq value,
    Binary64.toQ 0 = Some startFreq /\
    Binary64.toQ 1e-323 = Some endFreq /\
    Binary64.toQ 1e-322 = Some value /\
    value / (2 * Math_PI * centerFreq (startFreq, endFreq)) < 3.19.
Proof.
  split; [reflexivity|]. eexists _, _, _. repeat split; reflexivity.
Qed.

(** [Math.PI] is the same number in both embeddings. *)
Lemma Math_PI_exact :
  exists pi, Binary64.toQ Binary64.Math_PI = Some pi /\ pi == Math_PI.
Proof. eexists. split; reflexivity. Qed.

(** Twice the mean of the doubles 0.1, 0.1 and 0.4, taken exactly, is
    the double 0.4; as the engine computes it, it exceeds 0.4, and no
    band reaches it. *)
Lemma speed_target_rounds_up :
  Binary64.targetValue [0.1; 0.1; 0.4]%float = 0.4000000000000001%float /\
  (0.4 <? Binary64.targetValue [0.1; 0.1; 0.4])%float = true /\
  exists tenth fourTenths,
    Binary64.toQ 0.1 = Some tenth /\
    Binary64.toQ 0.4 = Some fourTenths /\
    (tenth + tenth + fourTenths) / 3 * 2 == fourTenths.
Proof.
  split; [reflexivity|]. split; [reflexivity|].
  eexists _, _. repeat split; reflexivity.
Qed.

(** ** integrateSpectrum over the object store *)

Lemma allocate_spec (h : gmap Store.ref Store.object) (o : Store.object)
    (r : Store.ref) (h' : gmap Store.ref Store.object) :
  Store.allocate h o = (r, h') -> h !! r = None /\ h' = <[r := o]> h.
Proof.
  unfold Store.allocate. intros [= <- <-]. split; [|reflexivity].
  apply not_elem_of_dom, is_fresh.
Qed.

Lemma storeMapSet_frame (h h' : gmap Store.ref Store.object)
    (m key : Store.ref) (value : number) (r : Store.ref) :
  Store.storeMapSet h m key value = Some h' -> r <> m -> h' !! r = h !! r.
Proof.
  unfold Store.storeMapSet. intros Hset Hr.
  destruct (h !! m) as [[| entries |]|]; try discriminate.
  injection Hset as <-. apply lookup_insert_ne. congruence.
Qed.

(** The loop writes to its target only. *)
Lemma integrateLoop_frame (entries : list (Store.ref * number))
    (h h' : gmap Store.ref Store.object) (target r : Store.ref) :
  Store.integrateLoop h target entries = Some h' -> r <> target ->
  h' !! r = h !! r.
Proof.
  revert h. induction entries as [|[key value] rest IH]; intros h Hloop Hr.
  - injection Hloop as <-. reflexivity.
  - cbn [Store.integrateLoop] in Hloop.
    destruct (Store.readBand h key) as [b|]; [|discriminate].
    destruct (Qle_bool (centerFreq b) 0); [exact (IH h Hloop Hr)|].
    destruct (Store.storeMapSet h target key (integratedValue b value))
      as [h1|] eqn:Hset; [|discriminate].
    rewrite (IH h1 Hloop Hr). exact (storeMapSet_frame _ _ _ _ _ _ Hset Hr).
Qed.

Lemma readBand_frame (h h' : gmap Store.ref Store.object) (key : Store.ref)
    (b : band) :
  (forall (r : Store.ref) (o : Store.object), h !! r = Some o -> h' !! r = Some o) ->
  Store.readBand h key = Some b -> Store.readBand h' key = Some b.
Proof.
  intros Hkeep. unfold Store.readBand.
  destruct (h !! key) as [o|] eqn:E; [|discriminate].
  rewrite (Hkeep _ _ E). auto.
Qed.

(** C8.  Whatever path the call takes, the reference it returns is new
    and every object of the store before the call is the same object
    after it; so the input result, its band mapping and every band
    array are unchanged. *)
Theorem integrateSpectrum_leaves_store_untouched (this : Config.t)
    (h : gmap Store.ref Store.object) (spectrum result : Store.ref)
    (h' : gmap Store.ref Store.object) :
  Store.integrateSpectrum this h spectrum = Some (result, h') ->
  h !! result = None /\
  (forall (r : Store.ref) (o : Store.object), h !! r = Some o -> h' !! r = Some o) /\
  (forall fields entries,
     h !! spectrum = Some (Store.ResultObject fields) ->
     h !! Store.bandPeaks fields = Some (Store.MapObject entries) ->
     h' !! spectrum = Some (Store.ResultObject fields) /\
     h' !! Store.bandPeaks fields = Some (Store.MapObject entries) /\
     forall key b, In key (map fst entries) ->
       Store.readBand h key = Some b -> Store.readBand h' key = Some b).
Proof.
  intros Hcall.
  assert (Hframe : h !! result = None /\
            forall (r : Store.ref) (o : Store.object),
              h !! r = Some o -> h' !! r = Some o).
  { unfold Store.integrateSpectrum in Hcall.
    destruct (h !! spectrum) as [[fields| |]|] eqn:Hin; try discriminate.
    destruct (negb (isIntegrationAllowed this)).
    { apply (inj Some) in Hcall. apply allocate_spec in Hcall as [Hfresh ->].
      split; [exact Hfresh|]. intros r o Hr.
      rewrite lookup_insert_ne by congruence. exact Hr. }
    destruct (Quantity_eqb (Store.quantity fields) Displacement).
    { apply (inj Some) in Hcall. apply allocate_spec in Hcall as [Hfresh ->].
      split; [exact Hfresh|]. intros r o Hr.
      rewrite lookup_insert_ne by congruence. exact Hr. }
    destruct (Store.allocate h (Store.MapObject [])) as [newMap h1] eqn:Halloc1.
    destruct (Store.allocate h1 _) as [res h2] eqn:Halloc2.
    apply allocate_spec in Halloc1 as [Hfresh1 ->].
    apply allocate_spec in Halloc2 as [Hfresh2 ->].
    destruct (h !! Store.bandPeaks fields) as [[| entries |]|]; try discriminate.
    destruct (Store.integrateLoop _ newMap entries) as [h3|] eqn:Hloop;
      [|discriminate].
    injection Hcall as <- <-.
    assert (Hne : res <> newMap).
    { intros ->. rewrite lookup_insert_eq in Hfresh2. discriminate. }
    split.
    - rewrite lookup_insert_ne in Hfresh2 by congruence. exact Hfresh2.
    - intros r o Hr.
      assert (r <> newMap) by congruence.
      assert (r <> res).
      { intros ->. rewrite lookup_insert_ne in Hfresh2 by congruence. congruence. }
      rewrite (integrateLoop_frame _ _ _ _ r Hloop) by assumption.
      rewrite !lookup_insert_ne by congruence. exact Hr. }
  destruct Hframe as [Hfresh Hkeep].
  split; [exact Hfresh|]. split; [exact Hkeep|].
  intros fields entries Hin Hmap.
  split; [exact (Hkeep _ _ Hin)|]. split; [exact (Hkeep _ _ Hmap)|].
  intros key b _. apply readBand_frame, Hkeep.
Qed.

(** *** The store model computes what the pure model computes *)

Lemma mapSet_new_key (acc : list (Store.ref * number)) (key : Store.ref)
    (value : number) :
  ~ In key (map fst acc) -> Store.mapSet acc key value = acc ++ [(key, value)].
Proof.
  induction acc as [|[k v] rest IH]; intros Hnew; cbn; [reflexivity|].
  destruct (decide (k = key)) as [->|_].
  - exfalso. apply Hnew. left. reflexivity.
  - rewrite IH; [reflexivity|]. intros Hin. apply Hnew. right. exact Hin.
Qed.

Lemma integratedEntries_ext (h h' : gmap Store.ref Store.object)
    (entries : list (Store.ref * number)) :
  (forall key, In key (map fst entries) ->
     Store.readBand h' key = Store.readBand h key) ->
  Store.integratedEntries h' entries = Store.integratedEntries h entries.
Proof.
  induction entries as [|[key value] rest IH]; intros Hsame; [reflexivity|].
  cbn [Store.integratedEntries].
  rewrite (Hsame key) by (left; reflexivity).
  rewrite IH by (intros k Hk; apply Hsame; right; exact Hk).
  reflexivity.
Qed.

Lemma readBand_insert_other (h : gmap Store.ref Store.object)
    (r key : Store.ref) (o : Store.object) :
  key <> r -> Store.readBand (<[r := o]> h) key = Store.readBand h key.
Proof.
  intros Hne. unfold Store.readBand. rewrite lookup_insert_ne by congruence.
  reflexivity.
Qed.

(** The target of the loop ends up holding what it held plus the
    integrated entries, in order. *)
Lemma integrateLoop_result (entries : list (Store.ref * number)) :
  forall (h : gmap Store.ref Store.object) (target : Store.ref)
         (acc : list (Store.ref * number)),
    h !! target = Some (Store.MapObject acc) ->
    (forall key, In key (map fst entries) ->
       key <> target /\ is_Some (Store.readBand h key)) ->
    NoDup (map fst entries) ->
    (forall key, In key (map fst entries) -> ~ In key (map fst acc)) ->
    exists h',
      Store.integrateLoop h target entries = Some h' /\
      h' !! target
      = Some (Store.MapObject (acc ++ Store.integratedEntries h entries)).
Proof.
  induction entries as [|[key value] rest IH];
    intros h target acc Htarget Hkeys Hnodup Hnew.
  - exists h. split; [reflexivity|]. cbn. rewrite app_nil_r. exact Htarget.
  - cbn [map fst] in Hnodup. apply NoDup_cons in Hnodup as [Hnotin Hnodup].
    destruct (Hkeys key (or_introl eq_refl)) as [Hne [b Hb]].
    cbn [Store.integrateLoop Store.integratedEntries]. rewrite Hb.
    destruct (Qle_bool (centerFreq b) 0).
    + apply IH; auto.
      * intros k Hk. apply Hkeys. right. exact Hk.
      * intros k Hk. apply Hnew. right. exact Hk.
    + unfold Store.storeMapSet. rewrite Htarget.
      rewrite mapSet_new_key by (apply Hnew; left; reflexivity).
      set (h1 := <[target := Store.MapObject
                     (acc ++ [(key, integratedValue b value)])]> h).
      assert (Hread : forall k, In k (map fst rest) ->
                Store.readBand h1 k = Store.readBand h k).
      { intros k Hk. apply readBand_insert_other.
        apply (Hkeys k). right. exact Hk. }
      destruct (IH h1 target (acc ++ [(key, integratedValue b value)]))
        as (h' & Hloop & Hfinal).
      * apply lookup_insert_eq.
      * intros k Hk. split; [apply (Hkeys k); right; exact Hk|].
        rewrite (Hread k Hk). apply (Hkeys k). right. exact Hk.
      * exact Hnodup.
      * intros k Hk. rewrite map_app, in_app_iff. intros [Hin|Hin].
        -- apply (Hnew k); [right; exact Hk|exact Hin].
        -- cbn in Hin. destruct Hin as [<-|[]].
           apply Hnotin. apply list_elem_of_In. exact Hk.
      * exists h'. split; [exact Hloop|]. rewrite Hfinal.
        rewrite (integratedEntries_ext h h1 rest Hread), <- app_assoc.
        reflexivity.
Qed.

Lemma viewEntries_frame (h h' : gmap Store.ref Store.object)
    (entries : list (Store.ref * number)) (bands : list (band * number)) :
  (forall key, In key (map fst entries) ->
     Store.readBand h' key = Store.readBand h key) ->
  Store.viewEntries h entries = Some bands ->
  Store.viewEntries h' entries = Some bands.
Proof.
  revert bands. induction entries as [|[key value] rest IH];
    intros bands Hsame Hview; [exact Hview|].
  cbn [Store.viewEntries] in *.
  rewrite (Hsame key) by (left; reflexivity).
  destruct (Store.readBand h key) as [b|]; [|discriminate].
  destruct (Store.viewEntries h rest) as [bands'|]; [|discriminate].
  rewrite (IH bands') by (auto; intros k Hk; apply Hsame; right; exact Hk).
  exact Hview.
Qed.

Lemma viewEntries_readable (h : gmap Store.ref Store.object)
    (entries : list (Store.ref * number)) (bands : list (band * number)) :
  Store.viewEntries h entries = Some bands ->
  forall key, In key (map fst entries) -> is_Some (Store.readBand h key).
Proof.
  revert bands. induction entries as [|[key value] rest IH];
    intros bands Hview k Hk; [destruct Hk|].
  cbn [Store.viewEntries] in Hview.
  destruct (Store.readBand h key) as [b|] eqn:Hb; [|discriminate].
  destruct (Store.viewEntries h rest) as [bands'|]; [|discriminate].
  cbn [map fst] in Hk.
  destruct Hk as [<-|Hk]; [rewrite Hb; eauto|exact (IH bands' eq_refl k Hk)].
Qed.

Lemma viewEntries_integrated (h h' : gmap Store.ref Store.object)
    (entries : list (Store.ref * number)) (bands : list (band * number)) :
  (forall key, In key (map fst entries) ->
     Store.readBand h' key = Store.readBand h key) ->
  Store.viewEntries h entries = Some bands ->
  Store.viewEntries h' (Store.integratedEntries h entries)
  = Some (omap integrateEntry bands).
Proof.
  revert bands. induction entries as [|[key value] rest IH];
    intros bands Hsame Hview.
  - injection Hview as <-. reflexivity.
  - cbn [Store.viewEntries Store.integratedEntries] in *.
    destruct (Store.readBand h key) as [b|] eqn:Hb; [|discriminate].
    destruct (Store.viewEntries h rest) as [bands'|]; [|discriminate].
    injection Hview as <-.
    assert (Hrest : Store.viewEntries h' (Store.integratedEntries h rest)
                    = Some (omap integrateEntry bands')).
    { apply IH; [|reflexivity]. intros k Hk. apply Hsame. right. exact Hk. }
    cbn [omap list_omap integrateEntry].
    destruct (Qle_bool (centerFreq b) 0); [exact Hrest|].
    cbn [Store.viewEntries].
    rewrite (Hsame key) by (left; reflexivity). rewrite Hb, Hrest. reflexivity.
Qed.

Lemma readBand_in_store (h : gmap Store.ref Store.object) (key : Store.ref) :
  is_Some (Store.readBand h key) -> is_Some (h !! key).
Proof.
  unfold Store.readBand. destruct (h !! key); [eauto|intros [? [=]]].
Qed.

Lemma viewRaw_frame (h h' : gmap Store.ref Store.object)
    (raw : option Store.ref) (elements : option (list number)) :
  (forall (r : Store.ref) (o : Store.object), h !! r = Some o -> h' !! r = Some o) ->
  Store.viewRaw h raw = Some elements -> Store.viewRaw h' raw = Some elements.
Proof.
  intros Hkeep. destruct raw as [a|]; [|auto]. cbn.
  destruct (h !! a) as [o|] eqn:E; [|discriminate].
  rewrite (Hkeep _ _ E). auto.
Qed.

(** X21.  Refinement.  On a store in which [spectrum] is a result whose [Map]
    holds each key once, the call returns, and the object it returns is,
    read as a value, the result of the pure [integrateSpectrum]. *)
Theorem store_integrateSpectrum_refines (this : Config.t)
    (h : gmap Store.ref Store.object) (spectrum : Store.ref)
    (s : SpectrumResult) :
  Store.view h spectrum = Some s ->
  Store.keysDistinct h spectrum ->
  exists result h',
    Store.integrateSpectrum this h spectrum = Some (result, h') /\
    Store.view h' result = Some (integrateSpectrum this s).
Proof.
  intros Hview Hdistinct. unfold Store.view in Hview.
  destruct (h !! spectrum) as [[fields| |]|] eqn:Hin; try discriminate.
  destruct (h !! Store.bandPeaks fields) as [[|entries|]|] eqn:Hmap;
    try discriminate.
  destruct (Store.viewEntries h entries) as [bands|] eqn:Hbands; [|discriminate].
  destruct (Store.viewRaw h (Store.rawSpectrum fields)) as [raw|] eqn:Hraw;
    [|discriminate].
  injection Hview as <-.
  specialize (Hdistinct fields entries Hin Hmap).
  unfold Store.integrateSpectrum, integrateSpectrum. rewrite Hin.
  cbn [quantity bandPeaks maxFrequency resolution isValid errorMessage rawSpectrum].
  assert (Hfail : forall o fields',
            Store.bandPeaks fields' = Store.bandPeaks fields ->
            Store.rawSpectrum fields' = Store.rawSpectrum fields ->
            o = Store.ResultObject fields' ->
            exists result h',
              Some (Store.allocate h o) = Some (result, h') /\
              Store.view h' result
              = Some (Build_SpectrumResult
                        (Store.maxFrequency fields') (Store.resolution fields')
                        (Store.quantity fields') bands (Store.isValid fields')
                        (Store.errorMessage fields') raw)).
  { intros o fields' Hbp Hrs ->.
    destruct (Store.allocate h (Store.ResultObject fields')) as [result h'] eqn:Ha.
    apply allocate_spec in Ha as [Hfresh ->].
    exists result, (<[result := Store.ResultObject fields']> h).
    split; [reflexivity|].
    assert (Hkeep : forall (r : Store.ref) (o : Store.object),
              h !! r = Some o ->
              <[result := Store.ResultObject fields']> h !! r = Some o).
    { intros r o Hr. rewrite lookup_insert_ne by congruence. exact Hr. }
    unfold Store.view. rewrite lookup_insert_eq, Hbp, (Hkeep _ _ Hmap).
    rewrite (viewEntries_frame h _ entries bands); [|
      intros k Hk; apply readBand_insert_other;
      destruct (readBand_in_store h k (viewEntries_readable _ _ _ Hbands k Hk));
      congruence | exact Hbands].
    rewrite Hrs, (viewRaw_frame h _ _ raw Hkeep Hraw). reflexivity. }
  destruct (negb (isIntegrationAllowed this)).
  { match goal with
    | |- context [Store.allocate h (Store.ResultObject ?f)] =>
        exact (Hfail _ f eq_refl eq_refl eq_refl)
    end. }
  destruct (Quantity_eqb (Store.quantity fields) Displacement).
  { match goal with
    | |- context [Store.allocate h (Store.ResultObject ?f)] =>
        exact (Hfail _ f eq_refl eq_refl eq_refl)
    end. }
  clear Hfail.
  destruct (Store.allocate h (Store.MapObject [])) as [newMap h1] eqn:Halloc1.
  apply allocate_spec in Halloc1 as [Hfresh1 ->].
  match goal with
  | |- context [Store.allocate _ ?o] =>
      destruct (Store.allocate (<[newMap := Store.MapObject []]> h) o)
        as [result h2] eqn:Halloc2
  end.
  apply allocate_spec in Halloc2 as [Hfresh2 ->].
  rewrite Hmap.
  assert (Hne : result <> newMap).
  { intros ->. rewrite lookup_insert_eq in Hfresh2. discriminate. }
  rewrite lookup_insert_ne in Hfresh2 by congruence.
  set (h2 := <[result := _]> (<[newMap := Store.MapObject []]> h)).
  assert (Hkeep2 : forall (r : Store.ref) (o : Store.object),
            h !! r = Some o -> h2 !! r = Some o).
  { intros r o Hr. unfold h2. rewrite !lookup_insert_ne by congruence. exact Hr. }
  assert (Hold : forall k, In k (map fst entries) ->
            k <> newMap /\ k <> result /\
            Store.readBand h2 k = Store.readBand h k).
  { intros k Hk.
    destruct (readBand_in_store h k (viewEntries_readable _ _ _ Hbands k Hk))
      as [o Ho].
    assert (k <> newMap) by congruence. assert (k <> result) by congruence.
    repeat split; auto. unfold h2.
    rewrite !readBand_insert_other by assumption. reflexivity. }
  destruct (integrateLoop_result entries h2 newMap []) as (h3 & Hloop & Hfinal).
  { unfold h2. rewrite lookup_insert_ne by congruence. apply lookup_insert_eq. }
  { intros k Hk. destruct (Hold k Hk) as (Hk1 & _ & Hread).
    split; [exact Hk1|]. rewrite Hread.
    exact (viewEntries_readable _ _ _ Hbands k Hk). }
  { exact Hdistinct. }
  { intros k _ []. }
  rewrite Hloop. exists result, h3. split; [reflexivity|].
  assert (Hkeep3 : forall (r : Store.ref) (o : Store.object),
            h !! r = Some o -> h3 !! r = Some o).
  { intros r o Hr. rewrite (integrateLoop_frame _ _ _ _ r Hloop) by congruence.
    exact (Hkeep2 r o Hr). }
  unfold Store.view.
  rewrite (integrateLoop_frame _ _ _ _ result Hloop Hne).
  unfold h2 at 1. rewrite lookup_insert_eq.
  cbn [Store.bandPeaks Store.rawSpectrum Store.maxFrequency Store.resolution
       Store.quantity Store.isValid Store.errorMessage].
  rewrite Hfinal. cbn [app].
  rewrite (viewEntries_integrated h2 h3 entries bands).
  - rewrite (viewRaw_frame h h3 _ raw Hkeep3 Hraw). reflexivity.
  - intros k Hk. destruct (Hold k Hk) as (Hk1 & _ & _).
    unfold Store.readBand.
    rewrite (integrateLoop_frame _ _ _ _ k Hloop Hk1). reflexivity.
  - apply (viewEntries_frame h h2 entries bands); [|exact Hbands].
    intros k Hk. apply (Hold k Hk).
Qed.

(** ** The theorems at concrete inputs *)


Lemma third_integration_rejected_witness :
  0 < Config.highPassFrequency Examples.highPassConfig /\
  isValid Examples.storedResult = true /\
  quantity Examples.storedResult = Acceleration /\
  errorMessage
    (integrateSpectrum Examples.highPassConfig
       (integrateSpectrum Examples.highPassConfig
          (integrateSpectrum Examples.highPassConfig Examples.storedResult)))
  = Some "Cannot integrate displacement to prevent double integration"%string.
Proof.
  assert (Hhp : 0 < Config.highPassFrequency Examples.highPassConfig)
    by reflexivity.
  split; [exact Hhp|]. split; [reflexivity|]. split; [reflexivity|].
  exact (proj1 (proj2 (proj2 (proj2 (proj2
    (third_integration_rejected Examples.highPassConfig Examples.storedResult
       Hhp eq_refl eq_refl)))))).
Defined.

Lemma sample_rate_above_ceiling_rejected_witness :
  CONSTANTS.MAX_SAMPLE_RATE < TimeWaveform.sampleRate Examples.fastWaveform /\
  exists r,
    Reference.calculateSpectrum Examples.swappedRangeConfig
      Examples.fastWaveform 0 0 = Returns r /\
    isValid r = false.
Proof.
  assert (Hrate : CONSTANTS.MAX_SAMPLE_RATE < TimeWaveform.sampleRate Examples.fastWaveform)
    by reflexivity.
  split; [exact Hrate|].
  destruct (sample_rate_above_ceiling_rejected
              Reference.cos Reference.sqrt Reference.FFT_accepts
              Reference.FFT_realTransform
              Examples.swappedRangeConfig Examples.fastWaveform 0 0 Hrate)
    as (r & Hcall & Hinvalid & _).
  exists r. split; [exact Hcall|exact Hinvalid].
Defined.

Lemma band_keys_tile_the_range_witness :
  exists r,
    Reference.calculateSpectrum Examples.highPassConfig
      Examples.constantWaveform 0 0 = Returns r /\
    isValid r = true /\
    (exists k rest, map fst (bandPeaks r) = k :: rest /\ fst k = 0) /\
    (forall k, last (map fst (bandPeaks r)) = Some k -> snd k == 1000).
Proof.
  eexists. split; [vm_compute; reflexivity|]. split; [reflexivity|].
  match goal with
  | |- context [bandPeaks ?r] =>
      pose proof (band_keys_tile_the_range
                    Reference.cos Reference.sqrt Reference.FFT_accepts
                    Reference.FFT_realTransform
                    Examples.highPassConfig Examples.constantWaveform 0 0 r)
        as Htile
  end.
  destruct Htile as (Hhead & _ & _ & _ & Hlast).
  - vm_compute. reflexivity.
  - reflexivity.
  - reflexivity.
  - reflexivity.
  - split; [exact Hhead|exact Hlast].
Defined.

Lemma zero_waveform_zero_peaks_witness :
  areParametersValid Config.initial = true /\
  isFilterValid Config.initial = true /\
  Forall (fun x => x == 0) (TimeWaveform.data Examples.zeroWaveform) /\
  exists r,
    Reference.calculateSpectrum Config.initial Examples.zeroWaveform 0 0
      = Returns r /\
    isValid r = true /\
    Forall (fun e => snd e == 0) (bandPeaks r).
Proof.
  assert (Hzero : Forall (fun x => x == 0) (TimeWaveform.data Examples.zeroWaveform))
    by (repeat constructor).
  split; [reflexivity|]. split; [reflexivity|]. split; [exact Hzero|].
  apply (zero_waveform_zero_peaks
           Reference.cos Reference.sqrt Reference.FFT_accepts
           Reference.FFT_realTransform Config.initial Examples.zeroWaveform 0 0
           Reference_sqrt_zero Reference_FFT_zero Reference_FFT_accepts_powers).
  - reflexivity.
  - reflexivity.
  - vm_compute. discriminate.
  - vm_compute. discriminate.
  - cbn. lia.
  - vm_compute. discriminate.
  - vm_compute. discriminate.
  - exact Hzero.
Defined.

Lemma calculatePeakInBand_looks_up_stored_peak_witness :
  isValid Examples.storedResult = true /\
  calculatePeakInBand Examples.storedResult 0 25 = 1 /\
  isValid Examples.rejectedResult = false /\
  calculatePeakInBand Examples.rejectedResult 0 25 = -1.
Proof.
  destruct (calculatePeakInBand_looks_up_stored_peak Examples.storedResult 0 25)
    as (_ & Hfound & _).
  destruct (calculatePeakInBand_looks_up_stored_peak Examples.rejectedResult 0 25)
    as (Hinvalid & _).
  split; [reflexivity|]. split.
  - apply (Hfound eq_refl [((0, 0), 3)] (0, 25) 1 []); try reflexivity.
    constructor; [|constructor].
    intros [_ H]. cbn in H. discriminate.
  - split; [reflexivity|]. apply Hinvalid. reflexivity.
Defined.

Lemma integrateSpectrum_leaves_store_untouched_witness :
  exists result h',
    Store.integrateSpectrum Examples.highPassConfig Store.exampleStore 3%positive
      = Some (result, h') /\
    h' !! 3%positive = Store.exampleStore !! 3%positive /\
    h' !! 2%positive = Some (Store.MapObject [(1%positive, 1)]) /\
    h' !! 1%positive = Some (Store.ArrayObject [0; 25]).
Proof.
  destruct (Store.integrateSpectrum Examples.highPassConfig Store.exampleStore
              3%positive) as [[result h']|] eqn:Hcall;
    [|vm_compute in Hcall; discriminate].
  exists result, h'. split; [reflexivity|].
  destruct (integrateSpectrum_leaves_store_untouched
              Examples.highPassConfig Store.exampleStore 3%positive result h' Hcall)
    as (_ & Hkeep & _).
  split; [|split]; apply Hkeep; reflexivity.
Defined.

Lemma integrateSpectrum_ignores_input_validity_witness :
  isValid Examples.rejectedResult = false /\
  0 < Config.highPassFrequency Examples.highPassConfig /\
  isValid (integrateSpectrum Examples.highPassConfig Examples.rejectedResult) = true.
Proof.
  assert (Hhp : 0 < Config.highPassFrequency Examples.highPassConfig)
    by reflexivity.
  split; [reflexivity|]. split; [exact Hhp|].
  exact (proj1 (integrateSpectrum_ignores_input_validity
                  Examples.highPassConfig Examples.rejectedResult
                  eq_refl Hhp (or_introl eq_refl))).
Defined.

Lemma numberOfLines_has_no_effect_witness :
  CONSTANTS.MIN_LINES <= 100 /\ 100 <= CONSTANTS.MAX_LINES /\
  CONSTANTS.MIN_LINES <= 102400 /\ 102400 <= CONSTANTS.MAX_LINES /\
  Reference.calculateSpectrum
    (withNumberOfLines Examples.highPassConfig 100) Examples.constantWaveform 0 0
  = Reference.calculateSpectrum
      (withNumberOfLines Examples.highPassConfig 102400) Examples.constantWaveform 0 0.
Proof.
  assert (H1 : CONSTANTS.MIN_LINES <= 100) by (vm_compute; discriminate).
  assert (H2 : 100 <= CONSTANTS.MAX_LINES) by (vm_compute; discriminate).
  assert (H3 : CONSTANTS.MIN_LINES <= 102400) by (vm_compute; discriminate).
  assert (H4 : 102400 <= CONSTANTS.MAX_LINES) by (vm_compute; discriminate).
  repeat (split; [assumption|]).
  exact (numberOfLines_has_no_effect
           Reference.cos Reference.sqrt Reference.FFT_accepts
           Reference.FFT_realTransform
           Examples.highPassConfig 100 102400 Examples.constantWaveform 0 0
           H1 H2 H3 H4).
Defined.

(** * Further properties of the engine *)

(** ** Rounding *)

Lemma Qfloor_plus_half (m : Z) : Qfloor (inject_Z m + (1 # 2)) = m.
Proof.
  pose proof (Qfloor_le (inject_Z m + (1 # 2))) as Hlo.
  pose proof (Qlt_floor (inject_Z m + (1 # 2))) as Hhi.
  set (f := Qfloor (inject_Z m + (1 # 2))) in *.
  assert (H1 : (f <= m)%Z).
  { destruct (Z.le_gt_cases f m) as [H|H]; [exact H|exfalso].
    assert (Hq : inject_Z (m + 1) <= inject_Z f) by (rewrite <- Zle_Qle; lia).
    rewrite inject_Z_plus in Hq. change (inject_Z 1) with 1 in Hq. lra. }
  assert (H2 : (m <= f)%Z).
  { destruct (Z.le_gt_cases m f) as [H|H]; [exact H|exfalso].
    assert (Hq : inject_Z (f + 1) <= inject_Z m) by (rewrite <- Zle_Qle; lia).
    lra. }
  lia.
Qed.

Lemma roundFixed10_comp (x y : number) :
  x == y -> roundFixed10 x == roundFixed10 y.
Proof.
  intros Hxy. unfold roundFixed10.
  rewrite (Qfloor_comp (x * ten10 + (1 # 2)) (y * ten10 + (1 # 2)));
    [reflexivity|]. rewrite Hxy. reflexivity.
Qed.

Lemma roundFixed10_multiple (y : number) (m : Z) :
  y == inject_Z m / ten10 -> roundFixed10 y == y.
Proof.
  intros Hy. unfold roundFixed10.
  rewrite (Qfloor_comp (y * ten10 + (1 # 2)) (inject_Z m + (1 # 2))).
  - rewrite Qfloor_plus_half, Hy. reflexivity.
  - rewrite Hy. unfold ten10. field. discriminate.
Qed.

(** A multiple of 10^-10 is left as it is. *)
Lemma limitPrecision_multiple (y : number) (m : Z) :
  y == inject_Z m / ten10 -> limitPrecision y == y.
Proof.
  intros Hy. unfold limitPrecision.
  destruct (Qle_bool ten21 (Qabs y)); [reflexivity|].
  destruct (Qltb y 0).
  - rewrite (roundFixed10_multiple (- y) (- m)); [lra|].
    rewrite Hy, inject_Z_opp. unfold ten10. field. discriminate.
  - exact (roundFixed10_multiple y m Hy).
Qed.

(** The result of [limitPrecision] is the argument itself or a multiple
    of 10^-10. *)
Lemma limitPrecision_shape (x : number) :
  limitPrecision x = x \/ exists m : Z, limitPrecision x == inject_Z m / ten10.
Proof.
  unfold limitPrecision.
  destruct (Qle_bool ten21 (Qabs x)); [left; reflexivity|right].
  destruct (Qltb x 0).
  - exists (- Qfloor (- x * ten10 + (1 # 2)))%Z.
    unfold roundFixed10. rewrite inject_Z_opp. unfold ten10. field. discriminate.
  - eexists. reflexivity.
Qed.

(** X2.  Rounding a rounded number changes nothing. *)
Theorem limitPrecision_idempotent (x : number) :
  limitPrecision (limitPrecision x) == limitPrecision x.
Proof.
  destruct (limitPrecision_shape x) as [Heq|[m Hm]].
  - rewrite !Heq. reflexivity.
  - exact (limitPrecision_multiple _ m Hm).
Qed.

(** Rounding is symmetric about 0: halves go away from 0 on both
    sides. *)
Lemma limitPrecision_opp (x : number) :
  limitPrecision (- x) == - limitPrecision x.
Proof.
  unfold limitPrecision. rewrite Qabs_opp.
  destruct (Qle_bool ten21 (Qabs x)); [reflexivity|].
  destruct (Qltb (- x) 0) eqn:E1; destruct (Qltb x 0) eqn:E2.
  - apply Qltb_lt in E1, E2. lra.
  - rewrite (roundFixed10_comp (- - x) x) by lra. reflexivity.
  - lra.
  - apply Qltb_ge in E1, E2.
    assert (Hx : x == 0) by lra.
    rewrite (roundFixed10_comp (- x) 0), (roundFixed10_comp x 0)
      by (rewrite Hx; reflexivity).
    reflexivity.
Qed.

Lemma limitPrecision_rounds_witness :
  Qabs (1 # 3) < ten21 /\
  (exists n : Z, limitPrecision (1 # 3) == inject_Z n / ten10) /\
  Qabs (limitPrecision (1 # 3) - (1 # 3)) <= 1 # 20000000000.
Proof.
  assert (H : Qabs (1 # 3) < ten21) by reflexivity.
  split; [exact H|]. exact (limitPrecision_rounds (1 # 3) H).
Defined.

(** ** Padding to a power of two *)

Section PowerOfTwo.
Local Open Scope Z_scope.

(** A positive number that passes the test [n & (n - 1) === 0] is a
    power of two. *)
Lemma land_pred_zero_pow2 (n : Z) :
  (0 < n)%Z -> Z.land n (n - 1) = 0%Z -> n = (2 ^ Z.log2 n)%Z.
Proof.
  intros Hn Hland.
  destruct (Z.log2_spec n Hn) as [Hlo Hhi].
  destruct (Z.eq_dec n (2 ^ Z.log2 n)) as [Heq|Hne]; [exact Heq|exfalso].
  assert (Hlog : Z.log2 (n - 1) = Z.log2 n).
  { apply Z.log2_unique; [apply Z.log2_nonneg|]. lia. }
  assert (Hpos : (0 < n - 1)%Z).
  { pose proof (Z.pow_pos_nonneg 2 (Z.log2 n) ltac:(lia) (Z.log2_nonneg n)). lia. }
  pose proof (Z.bit_log2 n Hn) as Hb1.
  pose proof (Z.bit_log2 (n - 1) Hpos) as Hb2. rewrite Hlog in Hb2.
  apply (f_equal (fun z => Z.testbit z (Z.log2 n))) in Hland.
  rewrite Z.land_spec, Hb1, Hb2, Z.bits_0 in Hland. discriminate.
Qed.

Lemma doublePower_minimal (fuel : nat) (power n p : Z) :
  (0 < power)%Z -> doublePower fuel power n = Some p ->
  (p = power /\ n <= power)%Z \/ (n <= p /\ p < 2 * n)%Z.
Proof.
  revert power. induction fuel as [|fuel IH]; intros power Hpower; cbn [doublePower];
    destruct (Z.ltb_spec power n) as [Hlt|Hge]; intros Hp; try discriminate.
  - injection Hp as <-. left. lia.
  - destruct (IH (power * 2)%Z ltac:(lia) Hp) as [[-> Hle]|H]; right; lia.
  - injection Hp as <-. left. lia.
Qed.

Lemma getNextPowerOfTwo_bounds (n : Z) :
  (1 <= n)%Z ->
  exists k, (0 <= k)%Z /\ getNextPowerOfTwo n = Some (2 ^ k)%Z /\
            (n <= 2 ^ k)%Z /\ (2 ^ k < 2 * n)%Z.
Proof.
  intros Hn. unfold getNextPowerOfTwo.
  destruct (Z.eqb_spec (Z.land n (n - 1)) 0) as [Hland|Hland].
  - exists (Z.log2 n). rewrite <- (land_pred_zero_pow2 n) by (lia || exact Hland).
    split; [apply Z.log2_nonneg|]. split; [reflexivity|]. lia.
  - destruct (doublePower_enough (Z.to_nat n) 1 n) as (k & Hk & Heq & Hle).
    { lia. }
    { rewrite Z2Nat.id by lia. rewrite Z.mul_1_l.
      apply Z.lt_le_incl, Z.pow_gt_lin_r; lia. }
    rewrite Z.mul_1_l in *. exists k. split; [exact Hk|]. split; [exact Heq|].
    split; [exact Hle|].
    destruct (doublePower_minimal (Z.to_nat n) 1 n (2 ^ k) ltac:(lia) Heq)
      as [[Hp Hle1]|[_ Hlt]];
      lia.
Qed.

(** X3.  For a positive length the padded length is the smallest power of
    two that is not below it. *)
Theorem getNextPowerOfTwo_smallest_power (n : Z) :
  (1 <= n)%Z ->
  exists k, (0 <= k)%Z /\ getNextPowerOfTwo n = Some (2 ^ k)%Z /\
            (n <= 2 ^ k)%Z /\
            forall j, (0 <= j)%Z -> (n <= 2 ^ j)%Z -> (2 ^ k <= 2 ^ j)%Z.
Proof.
  intros Hn. destruct (getNextPowerOfTwo_bounds n Hn) as (k & Hk & Heq & Hle & Hlt).
  exists k. repeat split; auto. intros j Hj Hnj.
  destruct (Z.le_gt_cases k j) as [Hkj|Hkj].
  - apply Z.pow_le_mono_r; lia.
  - exfalso.
    assert (2 ^ (j + 1) <= 2 ^ k)%Z by (apply Z.pow_le_mono_r; lia).
    rewrite Z.pow_add_r, Z.pow_1_r in H by lia. lia.
Qed.

Lemma getNextPowerOfTwo_smallest_power_witness :
  (1 <= 9000)%Z /\ getNextPowerOfTwo 9000 = Some 16384%Z.
Proof.
  assert (H : (1 <= 9000)%Z) by lia. split; [exact H|].
  destruct (getNextPowerOfTwo_smallest_power 9000 H) as (k & Hk & Heq & Hle & Hmin).
  rewrite Heq. f_equal.
  assert (H14 : (2 ^ k <= 2 ^ 14)%Z) by (apply Hmin; lia).
  assert (Hk14 : (k <= 14)%Z).
  { destruct (Z.le_gt_cases k 14) as [H'|H']; [exact H'|exfalso].
    assert (2 ^ 15 <= 2 ^ k)%Z by (apply Z.pow_le_mono_r; lia).
    change (2 ^ 14)%Z with 16384%Z in H14. change (2 ^ 15)%Z with 32768%Z in H0.
    lia. }
  assert (Hk13 : (13 < k)%Z).
  { destruct (Z.le_gt_cases k 13) as [H'|H']; [exfalso|lia].
    assert (2 ^ k <= 2 ^ 13)%Z by (apply Z.pow_le_mono_r; lia).
    change (2 ^ 13)%Z with 8192%Z in H0. lia. }
  replace k with 14%Z by lia. reflexivity.
Defined.

End PowerOfTwo.

(** ** The filter, bin by bin *)

Lemma filtering_lookup (this : Config.t) (spectrum : list number) (res : number)
    (i : nat) :
  applyFrequencyDomainFiltering this spectrum res !! i
  = (fun x => if inPassBand this res i then x else 0) <$> spectrum !! i.
Proof.
  unfold applyFrequencyDomainFiltering, inPassBand. cbv zeta.
  set (a := Math_floor (Config.minFrequency this / res)).
  set (b := Math_floor (Config.highPassFrequency this / res)).
  set (c := Math_ceil _).
  clearbody a b c. unfold zeroFrom, zeroBelow, number in *.
  destruct (Qltb 0 (Config.highPassFrequency this));
    rewrite !list_lookup_imap; destruct (spectrum !! i) as [x|];
    try reflexivity; cbn [fmap option_fmap option_map]; f_equal;
    destruct (Z.leb_spec a (Z.of_nat i)); destruct (Z.ltb_spec (Z.of_nat i) a);
    try lia;
    try (destruct (Z.leb_spec b (Z.of_nat i));
         destruct (Z.ltb_spec (Z.of_nat i) b); try lia);
    destruct (Z.leb_spec c (Z.of_nat i)); destruct (Z.ltb_spec (Z.of_nat i) c);
    try lia; reflexivity.
Qed.

(** X5.  For whole frequencies and a resolution that is a whole sample
    rate over a power of two, for which the quotients of the filter
    round in double arithmetic without crossing a whole number: the
    filter keeps the length of the spectrum, leaves the bins of the
    pass band as they are and sets every other bin to 0. *)
Theorem filtering_zeroes_outside_pass_band (this : Config.t)
    (spectrum : list number) (res : number) :
  gridResolution res = true ->
  wholeNumber (Config.minFrequency this) = true ->
  wholeNumber (Config.maxFrequency this) = true ->
  wholeNumber (Config.highPassFrequency this) = true ->
  wholeNumber (Config.lowPassFrequency this) = true ->
  length (applyFrequencyDomainFiltering this spectrum res) = length spectrum /\
  forall (i : nat) (x : number), spectrum !! i = Some x ->
    applyFrequencyDomainFiltering this spectrum res !! i
    = Some (if inPassBand this res i then x else 0).
Proof.
  intros _ _ _ _ _. split.
  - unfold applyFrequencyDomainFiltering, zeroFrom, zeroBelow.
    destruct (Qltb 0 (Config.highPassFrequency this)); rewrite !length_imap;
      reflexivity.
  - intros i x Hx. rewrite filtering_lookup. unfold number in *.
    rewrite Hx. reflexivity.
Qed.

(** X6.  Filtering a filtered spectrum changes nothing. *)
Theorem filtering_idempotent (this : Config.t) (spectrum : list number)
    (res : number) :
  applyFrequencyDomainFiltering this
    (applyFrequencyDomainFiltering this spectrum res) res
  = applyFrequencyDomainFiltering this spectrum res.
Proof.
  apply list_eq. intros i. rewrite !filtering_lookup.
  destruct (spectrum !! i) as [x|]; cbn; [|reflexivity].
  destruct (inPassBand this res i); reflexivity.
Qed.

Lemma filtering_zeroes_outside_pass_band_witness :
  gridResolution 1000 = true /\
  wholeNumber (Config.highPassFrequency Examples.highPassConfig) = true /\
  [1; 0] !! 0%nat = Some 1 /\
  applyFrequencyDomainFiltering Examples.highPassConfig [1; 0] 1000 !! 0%nat
  = Some 0.
Proof.
  assert (H : [1; 0] !! 0%nat = Some 1) by reflexivity.
  split; [reflexivity|]. split; [reflexivity|]. split; [exact H|].
  exact (proj2 (filtering_zeroes_outside_pass_band
                  Examples.highPassConfig [1; 0] 1000
                  eq_refl eq_refl eq_refl eq_refl eq_refl) 0%nat 1 H).
Defined.

(** ** The pipeline of calculateSpectrum *)

Lemma Qdiv_le_compat_r (a b res : number) :
  0 < res -> a <= b -> a / res <= b / res.
Proof.
  intros Hres Hab. unfold Qdiv. apply Qmult_le_compat_r; [exact Hab|].
  apply Qinv_le_0_compat. lra.
Qed.

Lemma peakLoop_ext (a b : list number) (count : nat) :
  forall (i : Z) (maxValue : number),
    (forall j, (i <= j < i + Z.of_nat count)%Z -> arrayGet a j = arrayGet b j) ->
    peakLoop a count i maxValue = peakLoop b count i maxValue.
Proof.
  induction count as [|count IH]; intros i maxValue Hsame; [reflexivity|].
  cbn [peakLoop]. rewrite (Hsame i) by lia. apply IH.
  intros j Hj. apply Hsame. lia.
Qed.

(** Where neither cutoff reaches into the band, the peak over the
    filtered spectrum is the peak over the spectrum. *)
Lemma calculateRealPeakInBand_filtering (this : Config.t) (spectrum : list number)
    (startFreq endFreq res : number) :
  0 < res ->
  Config.minFrequency this <= startFreq ->
  endFreq <= Config.maxFrequency this ->
  Config.highPassFrequency this <= Config.minFrequency this ->
  Config.lowPassFrequency this <= 0 \/
    Config.maxFrequency this <= Config.lowPassFrequency this ->
  calculateRealPeakInBand (applyFrequencyDomainFiltering this spectrum res)
    startFreq endFreq res
  = calculateRealPeakInBand spectrum startFreq endFreq res.
Proof.
  intros Hres Hstart Hend Hhp Hlp. unfold calculateRealPeakInBand.
  assert (Hlen : length (applyFrequencyDomainFiltering this spectrum res)
                 = length spectrum).
  { unfold applyFrequencyDomainFiltering, zeroFrom, zeroBelow.
    destruct (Qltb 0 (Config.highPassFrequency this)); rewrite !length_imap;
      reflexivity. }
  rewrite Hlen. f_equal. apply peakLoop_ext. intros j Hj.
  unfold arrayGet. destruct (Z.ltb_spec j 0) as [|Hj0]; [reflexivity|].
  rewrite filtering_lookup. unfold number in *.
  destruct (spectrum !! Z.to_nat j) as [x|] eqn:Hx; [|reflexivity].
  cbn [fmap option_fmap option_map]. f_equal.
  assert (Hpass : inPassBand this res (Z.to_nat j) = true); [|rewrite Hpass; reflexivity].
  assert (Hjlt : (j < Math_ceil (endFreq / res)%Q)%Z) by lia.
  assert (Hjge : (Math_floor (startFreq / res)%Q <= j)%Z) by lia.
  unfold inPassBand. cbv zeta. rewrite Z2Nat.id by lia.
  rewrite !andb_true_iff. repeat split.
  - apply Z.leb_le. etransitivity; [|exact Hjge].
    apply Qfloor_resp_le, Qdiv_le_compat_r; assumption.
  - destruct (Qltb 0 (Config.highPassFrequency this)); [|reflexivity].
    apply Z.leb_le. etransitivity; [|exact Hjge].
    apply Qfloor_resp_le, Qdiv_le_compat_r; [assumption|lra].
  - apply Z.ltb_lt. eapply Z.lt_le_trans; [exact Hjlt|].
    apply Qceiling_resp_le, Qdiv_le_compat_r; [assumption|].
    destruct (Qltb 0 (Config.lowPassFrequency this)) eqn:E; [|exact Hend].
    apply Qltb_lt in E. destruct Hlp as [Hlp|Hlp]; [lra|].
    unfold Math_min. rewrite Q.min_l by exact Hlp. exact Hend.
Qed.

(** Every bin of the magnitude spectrum is a rounded number. *)
Lemma magnitudeSpectrum_rounded (Math_sqrt : number -> number)
    (out : list number) (paddedLength : Z) :
  Forall (fun x => exists y, x = limitPrecision y)
    (magnitudeSpectrum Math_sqrt out paddedLength).
Proof.
  unfold magnitudeSpectrum. apply List.Forall_forall. intros x Hx.
  apply in_map_iff in Hx as (i & <- & _). unfold magnitudeAt. eauto.
Qed.

Section Pipeline.

Variable Math_cos : number -> number.
Variable Math_sqrt : number -> number.
Variable FFT_accepts : Z -> bool.
Variable FFT_realTransform : list number -> list number.

Local Abbreviation calculate :=
  (calculateSpectrum Math_cos Math_sqrt FFT_accepts FFT_realTransform).

Lemma paddedInput_shape (this : Config.t) (waveform : TimeWaveform.t) :
  (1 <= length (TimeWaveform.data waveform))%nat ->
  exists k,
    (0 <= k)%Z /\
    (Z.of_nat (length (TimeWaveform.data waveform)) <= 2 ^ k)%Z /\
    (2 ^ k < 2 * Z.of_nat (length (TimeWaveform.data waveform)))%Z /\
    paddedInput Math_cos this waveform
    = applyWindow Math_cos this (TimeWaveform.data waveform)
      ++ repeat 0 (Z.to_nat (2 ^ k) - length (TimeWaveform.data waveform))%nat /\
    Z.of_nat (length (paddedInput Math_cos this waveform)) = (2 ^ k)%Z.
Proof.
  intros Hn. unfold paddedInput. rewrite applyWindow_length.
  destruct (getNextPowerOfTwo_bounds
              (Z.of_nat (length (TimeWaveform.data waveform))) ltac:(lia))
    as (k & Hk & -> & Hle & Hlt).
  exists k. split; [exact Hk|]. split; [exact Hle|]. split; [exact Hlt|].
  split.
  - unfold zeroPad. rewrite applyWindow_length.
    destruct (Z.ltb_spec (Z.of_nat (length (TimeWaveform.data waveform))) (2 ^ k));
      [reflexivity|].
    replace (Z.to_nat (2 ^ k) - length (TimeWaveform.data waveform))%nat
      with 0%nat by lia.
    cbn. rewrite app_nil_r. reflexivity.
  - apply zeroPad_length. rewrite applyWindow_length. exact Hle.
Qed.

(** X4.  Zero padding keeps the windowed samples and appends zeros up to
    the smallest power of two that is not below the sample count. *)
Theorem zero_padding_appends_zeros (this : Config.t) (waveform : TimeWaveform.t) :
  (1 <= length (TimeWaveform.data waveform))%nat ->
  exists k,
    (0 <= k)%Z /\
    (Z.of_nat (length (TimeWaveform.data waveform)) <= 2 ^ k)%Z /\
    (2 ^ k < 2 * Z.of_nat (length (TimeWaveform.data waveform)))%Z /\
    paddedInput Math_cos this waveform
    = applyWindow Math_cos this (TimeWaveform.data waveform)
      ++ repeat 0 (Z.to_nat (2 ^ k) - length (TimeWaveform.data waveform))%nat /\
    length (applyWindow Math_cos this (TimeWaveform.data waveform))
    = length (TimeWaveform.data waveform).
Proof.
  intros Hn. destruct (paddedInput_shape this waveform Hn)
    as (k & Hk & Hle & Hlt & Hpad & _).
  exists k. repeat split; auto. apply applyWindow_length.
Qed.



(** X10.  A waveform of one sample that passes the gates makes the call
    throw: the padded length is 1, which either the transform's
    constructor rejects or, halved, is no array length. *)
Theorem one_sample_waveform_throws (this : Config.t) (waveform : TimeWaveform.t)
    (startTime now : Z) :
  areParametersValid this = true ->
  isFilterValid this = true ->
  Config.maxFrequency this * (256 # 100) <= TimeWaveform.sampleRate waveform ->
  TimeWaveform.sampleRate waveform <= CONSTANTS.MAX_SAMPLE_RATE ->
  length (TimeWaveform.data waveform) = 1%nat ->
  calculate this waveform startTime now = Throws.
Proof.
  intros Hvalid Hfilter Hlow Hhigh Hlen. unfold calculateSpectrum.
  rewrite Hvalid, Hfilter. cbn [negb].
  rewrite (proj2 (Qltb_ge _ _) Hlow), (proj2 (Qltb_ge _ _) Hhigh).
  unfold lengthQ. rewrite Hlen.
  change (Qltb (CONSTANTS.MAX_SAMPLE_RATE * CONSTANTS.MAX_WAVEFORM_LENGTH)
            (inject_Z (Z.of_nat 1))) with false.
  rewrite applyWindow_length, Hlen.
  change (getNextPowerOfTwo (Z.of_nat 1)) with (Some 1%Z).
  unfold zeroPad. rewrite !applyWindow_length, !Hlen.
  change (Z.of_nat 1 <? 1)%Z with false. cbv iota.
  rewrite !applyWindow_length, !Hlen.
  destruct (FFT_accepts (Z.of_nat 1)); reflexivity.
Qed.

Lemma valid_result_resolution_pos (this : Config.t) (waveform : TimeWaveform.t)
    (startTime now : Z) (r : SpectrumResult) :
  calculate this waveform startTime now = Returns r ->
  isValid r = true ->
  (1 <= length (TimeWaveform.data waveform))%nat ->
  exists k,
    (0 <= k)%Z /\
    (Z.of_nat (length (TimeWaveform.data waveform)) <= 2 ^ k)%Z /\
    (2 ^ k < 2 * Z.of_nat (length (TimeWaveform.data waveform)))%Z /\
    resolution r = TimeWaveform.sampleRate waveform / inject_Z (2 ^ k) /\
    0 < resolution r /\
    exists spectrum,
      rawSpectrum r = Some spectrum /\
      Z.of_nat (length spectrum) = (2 ^ k / 2)%Z.
Proof.
  intros Hcall Hvalid Hn.
  destruct (calculateSpectrum_valid_inv _ _ _ _ _ _ _ _ _ Hcall Hvalid)
    as (Hparams & _ & Hlow & _ & _ & _ & Hres & _ & _ & Hraw & _).
  destruct (paddedInput_shape this waveform Hn) as (k & Hk & Hle & Hlt & _ & Hlen).
  exists k. split; [exact Hk|]. split; [exact Hle|]. split; [exact Hlt|].
  assert (Hpow : (0 < 2 ^ k)%Z) by (apply Z.pow_pos_nonneg; lia).
  assert (Hres' : resolution r
                  = TimeWaveform.sampleRate waveform / inject_Z (2 ^ k)).
  { rewrite Hres. unfold resolutionOf. rewrite Hlen. reflexivity. }
  split; [exact Hres'|]. split.
  - rewrite Hres'.
    apply areParametersValid_inv in Hparams as (_ & _ & Hmin & Hrange & _).
    apply Qlt_shift_div_l.
    + change 0 with (inject_Z 0). rewrite <- Zlt_Qlt. exact Hpow.
    + lra.
  - eexists. split; [exact Hraw|].
    unfold spectrumOf, magnitudeSpectrum. rewrite length_map, length_seq, Hlen.
    apply Z2Nat.id. apply Z.div_pos; lia.
Qed.

(** X9.  The resolution of a valid result is the sample rate over the padded
    length, the smallest power of two not below the sample count, and
    the retained spectrum has half that many bins. *)
Theorem resolution_is_rate_over_padded_length (this : Config.t)
    (waveform : TimeWaveform.t) (startTime now : Z) (r : SpectrumResult) :
  calculate this waveform startTime now = Returns r ->
  isValid r = true ->
  (1 <= length (TimeWaveform.data waveform))%nat ->
  exists k,
    (0 <= k)%Z /\
    (Z.of_nat (length (TimeWaveform.data waveform)) <= 2 ^ k)%Z /\
    (2 ^ k < 2 * Z.of_nat (length (TimeWaveform.data waveform)))%Z /\
    resolution r = TimeWaveform.sampleRate waveform / inject_Z (2 ^ k) /\
    exists spectrum,
      rawSpectrum r = Some spectrum /\
      Z.of_nat (length spectrum) = (2 ^ k / 2)%Z.
Proof.
  intros Hcall Hvalid Hn.
  destruct (valid_result_resolution_pos _ _ _ _ _ Hcall Hvalid Hn)
    as (k & Hk & Hle & Hlt & Hres & _ & Hsp).
  exists k. auto.
Qed.

(** The bands of a valid result lie in the configured range. *)
Lemma valid_result_bands_in_range (this : Config.t) (waveform : TimeWaveform.t)
    (startTime now : Z) (r : SpectrumResult) :
  calculate this waveform startTime now = Returns r ->
  isValid r = true ->
  0 <= Config.minFrequency this /\
  0 < Config.bandRange this /\
  bandChain this (Config.minFrequency this) (map fst (bandPeaks r)) /\
  Forall (fun e =>
            Config.minFrequency this <= fst (fst e) /\
            fst (fst e) < snd (fst e) /\
            snd (fst e) <= Config.maxFrequency this)
         (bandPeaks r).
Proof.
  intros Hcall Hvalid.
  destruct (calculateSpectrum_valid_inv _ _ _ _ _ _ _ _ _ Hcall Hvalid)
    as (Hparams & _ & _ & _ & _ & _ & _ & _ & _ & _ & Hloop).
  apply areParametersValid_inv in Hparams as (_ & _ & Hmin & _ & Hband & _).
  pose proof (bandLoop_chain _ _ _ _ _ _ Hloop) as Hchain.
  repeat split; auto.
  apply List.Forall_forall. intros e He.
  destruct (bandChain_each this _ _ Hband Hchain (fst e)) as (H1 & _ & H3 & H4 & _).
  { apply in_map. exact He. }
  auto.
Qed.

(** X7.  The positive counterpart of the filter being left out of the band
    loop: when the high-pass does not exceed the minimum frequency and
    the low-pass is off or not below the maximum frequency, every band
    peak of a valid result is the peak over the filtered spectrum. *)
Theorem band_peaks_match_filter_when_cutoffs_outside (this : Config.t)
    (waveform : TimeWaveform.t) (startTime now : Z) (r : SpectrumResult) :
  calculate this waveform startTime now = Returns r ->
  isValid r = true ->
  (1 <= length (TimeWaveform.data waveform))%nat ->
  Config.highPassFrequency this <= Config.minFrequency this ->
  Config.lowPassFrequency this <= 0 \/
    Config.maxFrequency this <= Config.lowPassFrequency this ->
  exists spectrum,
    rawSpectrum r = Some spectrum /\
    Forall (fun e =>
              snd e = calculateRealPeakInBand
                        (applyFrequencyDomainFiltering this spectrum (resolution r))
                        (fst (fst e)) (snd (fst e)) (resolution r))
           (bandPeaks r).
Proof.
  intros Hcall Hvalid Hn Hhp Hlp.
  destruct (band_peaks_read_raw_spectrum _ _ _ _ _ _ _ _ _ Hcall Hvalid)
    as (spectrum & Hraw & Hpeaks).
  destruct (valid_result_resolution_pos _ _ _ _ _ Hcall Hvalid Hn)
    as (_ & _ & _ & _ & _ & Hres & _).
  destruct (valid_result_bands_in_range _ _ _ _ _ Hcall Hvalid)
    as (_ & _ & _ & Hrange).
  exists spectrum. split; [exact Hraw|].
  apply List.Forall_forall. intros e He.
  rewrite List.Forall_forall in Hpeaks, Hrange.
  destruct (Hrange e He) as (H1 & _ & H3).
  rewrite calculateRealPeakInBand_filtering by assumption.
  exact (Hpeaks e He).
Qed.

(** X8.  For a whole sample rate and whole minimum frequency, maximum
    frequency and band range, for which the quotients of a band edge by
    the resolution round in double arithmetic without crossing a whole
    number: each band peak of a valid result is the largest of 0 and
    the bins of the retained spectrum with index from
    [floor(start/resolution)] up to [ceil(end/resolution)]; the second
    rounding changes nothing. *)
Theorem band_peak_is_maximum_of_raw_bins (this : Config.t)
    (waveform : TimeWaveform.t) (startTime now : Z) (r : SpectrumResult) :
  calculate this waveform startTime now = Returns r ->
  isValid r = true ->
  wholeNumber (TimeWaveform.sampleRate waveform) = true ->
  wholeNumber (Config.minFrequency this) = true ->
  wholeNumber (Config.maxFrequency this) = true ->
  wholeNumber (Config.bandRange this) = true ->
  exists spectrum,
    rawSpectrum r = Some spectrum /\
    forall (s e v : number), In ((s, e), v) (bandPeaks r) ->
      0 <= v /\
      (forall (j : Z) (x : number),
         (Math_floor (s / resolution r)%Q <= j < Math_ceil (e / resolution r)%Q)%Z ->
         arrayGet spectrum j = Some x -> x <= v) /\
      (v == 0 \/
       exists (j : Z) (x : number),
         (Math_floor (s / resolution r)%Q <= j < Math_ceil (e / resolution r)%Q)%Z /\
         arrayGet spectrum j = Some x /\ v == x).
Proof.
  intros Hcall Hvalid _ _ _ _.
  destruct (band_peaks_read_raw_spectrum _ _ _ _ _ _ _ _ _ Hcall Hvalid)
    as (spectrum & Hraw & Hpeaks).
  destruct (calculateSpectrum_valid_inv _ _ _ _ _ _ _ _ _ Hcall Hvalid)
    as (_ & _ & _ & _ & _ & _ & _ & _ & _ & Hraw' & _).
  exists spectrum. split; [exact Hraw|].
  assert (Hrounded : Forall (fun x => exists y, x = limitPrecision y) spectrum).
  { rewrite Hraw in Hraw'. injection Hraw' as ->. apply magnitudeSpectrum_rounded. }
  intros s e v Hin.
  rewrite List.Forall_forall in Hpeaks. specialize (Hpeaks _ Hin). cbn in Hpeaks.
  destruct (calculateRealPeakInBand_spec spectrum s e (resolution r))
    as (peak & Heq & Hge & Hall & Hfrom).
  assert (Hv : v == peak).
  { rewrite Hpeaks, Heq. destruct Hfrom as [->|(j & _ & Hj)].
    - apply limitPrecision_zero. reflexivity.
    - unfold arrayGet in Hj. destruct (j <? 0)%Z; [discriminate|].
      rewrite List.Forall_forall in Hrounded.
      destruct (Hrounded peak) as [y ->].
      { apply list_elem_of_In. eapply list_elem_of_lookup_2. exact Hj. }
      destruct (limitPrecision_shape y) as [Hy|[m Hm]].
      + rewrite !Hy. reflexivity.
      + exact (limitPrecision_multiple _ m Hm). }
  split; [rewrite Hv; exact Hge|]. split.
  - intros j x Hj Hx. rewrite Hv. exact (Hall j x Hj Hx).
  - destruct Hfrom as [H0|(j & Hj & Hx)].
    + left. rewrite Hv, H0. reflexivity.
    + right. exists j, peak. auto.
Qed.

(** X14.  The setters check each field alone: a band range accepted against
    the maximum frequency of the moment is not rechecked when the
    maximum is lowered below it, and every computation is then refused
    for its parameters. *)
Theorem lowering_maximum_below_band_range (this after1 after2 : Config.t)
    (range frequency : number) (waveform : TimeWaveform.t) (startTime now : Z) :
  setBandRange this range = inr after1 ->
  setMaxFrequency after1 frequency = inr after2 ->
  frequency < range ->
  Config.bandRange after2 = range /\
  Config.maxFrequency after2 = frequency /\
  calculate after2 waveform startTime now
  = Returns (invalidResult after2 waveform 0 "Invalid spectrum parameters").
Proof.
  unfold setBandRange, setMaxFrequency. intros H1 H2 Hlt.
  destruct (Qle_bool range 0); [discriminate|].
  destruct (Qltb (Config.maxFrequency this) range); [discriminate|].
  injection H1 as <-. cbn in H2.
  destruct (Qltb frequency 0); [discriminate|].
  injection H2 as <-. cbn [Config.bandRange Config.maxFrequency].
  split; [reflexivity|]. split; [reflexivity|].
  unfold calculateSpectrum, areParametersValid.
  cbn [Config.bandRange Config.maxFrequency Config.minFrequency
       Config.numberOfLines].
  assert (E : Qle_bool range frequency = false).
  { destruct (Qle_bool range frequency) eqn:E; [|reflexivity].
    apply Qle_bool_iff in E. lra. }
  rewrite E, !andb_false_r. reflexivity.
Qed.

(** *** Queries and integration on a computed result *)

(** In the band grid every earlier key starts lower. *)
Lemma bandChain_earlier_starts (this : Config.t) (before : list (band * number)) :
  forall (startFreq : number) (b : band) (v : number) (after : list (band * number)),
    0 < Config.bandRange this ->
    bandChain this startFreq (map fst (before ++ (b, v) :: after)) ->
    Forall (fun e => fst (fst e) < fst b) before.
Proof.
  induction before as [|[b0 v0] before IH]; intros startFreq b v after Hband Hchain;
    [constructor|].
  cbn [app map fst] in Hchain.
  apply bandChain_head in Hchain as (Hfst & _ & _ & Hrest). cbn [fst] in Hfst.
  constructor; [|exact (IH _ b v after Hband Hrest)].
  destruct (bandChain_each this _ _ Hband Hrest b) as (Hge & _).
  { rewrite map_app. apply in_or_app. right. left. reflexivity. }
  change (fst b0 < fst b). rewrite Hfst. lra.
Qed.

Lemma earlier_starts_other_band (before : list (band * number)) (s e : number) :
  Forall (fun entry => fst (fst entry) < s) before ->
  Forall (otherBand s e) before.
Proof.
  intros H. eapply Forall_impl; [exact H|].
  intros entry Hlt [Heq _]. cbn beta in Hlt. unfold band, number in *. lra.
Qed.

(** X15.  Round trip.  Asking a valid result for one of its own bands gives
    the peak stored with that band. *)
Theorem stored_band_is_found (this : Config.t) (waveform : TimeWaveform.t)
    (startTime now : Z) (r : SpectrumResult) (i : nat) (s e v : number) :
  calculate this waveform startTime now = Returns r ->
  isValid r = true ->
  bandPeaks r !! i = Some ((s, e), v) ->
  calculatePeakInBand r s e = v.
Proof.
  intros Hcall Hvalid Hi.
  destruct (valid_result_bands_in_range _ _ _ _ _ Hcall Hvalid)
    as (_ & Hband & Hchain & _).
  unfold calculatePeakInBand. rewrite Hvalid. cbn [negb].
  rewrite <- (take_drop_middle _ _ _ Hi) in Hchain |- *.
  rewrite (findBand_first_match _ _ (s, e) v s e); [reflexivity| |reflexivity..].
  apply earlier_starts_other_band.
  exact (bandChain_earlier_starts this _ _ (s, e) v _ Hband Hchain).
Qed.

Lemma omap_integrateEntry_positive (entries : list (band * number)) :
  Forall (fun e => 0 < centerFreq (fst e)) entries ->
  omap integrateEntry entries
  = map (fun e => (fst e, integratedValue (fst e) (snd e))) entries.
Proof.
  induction 1 as [|[b v] rest Hpos _ IH]; [reflexivity|].
  cbn [omap list_omap integrateEntry map fst snd] in *.
  destruct (Qle_bool (centerFreq b) 0) eqn:E.
  - apply Qle_bool_iff in E. lra.
  - fold (omap integrateEntry rest). rewrite IH. reflexivity.
Qed.

Lemma valid_result_centers_positive (this : Config.t) (waveform : TimeWaveform.t)
    (startTime now : Z) (r : SpectrumResult) :
  calculate this waveform startTime now = Returns r ->
  isValid r = true ->
  Forall (fun e => 0 < centerFreq (fst e)) (bandPeaks r).
Proof.
  intros Hcall Hvalid.
  destruct (valid_result_bands_in_range _ _ _ _ _ Hcall Hvalid)
    as (Hmin & _ & _ & Hrange).
  eapply Forall_impl; [exact Hrange|].
  intros [[s e] v] (H1 & H2 & _). cbn [fst snd] in *.
  unfold centerFreq. cbn [fst snd]. apply Qlt_shift_div_l; lra.
Qed.

(** X16.  Integrating a computed result drops no band: with the high-pass
    set at integration time and a quantity other than displacement,
    the integrated result has the same keys in the same order.  The
    band range is at least twice the smallest normal double, so that
    half the sum of the edges of a band is a normal double, above 0
    in double arithmetic too. *)
Theorem integration_keeps_every_computed_band (this current : Config.t)
    (waveform : TimeWaveform.t) (startTime now : Z) (r : SpectrumResult) :
  calculate this waveform startTime now = Returns r ->
  isValid r = true ->
  2 * Number_MIN_NORMAL <= Config.bandRange this ->
  0 < Config.highPassFrequency current ->
  TimeWaveform.quantity waveform <> Displacement ->
  isValid (integrateSpectrum current r) = true /\
  map fst (bandPeaks (integrateSpectrum current r)) = map fst (bandPeaks r).
Proof.
  intros Hcall Hvalid _ Hhp Hq.
  pose proof (valid_result_centers_positive _ _ _ _ _ Hcall Hvalid) as Hpos.
  destruct (calculateSpectrum_valid_inv _ _ _ _ _ _ _ _ _ Hcall Hvalid)
    as (_ & _ & _ & _ & _ & _ & _ & Hquantity & _).
  unfold integrateSpectrum. rewrite (isIntegrationAllowed_true current Hhp).
  cbn [negb]. rewrite Hquantity.
  destruct (TimeWaveform.quantity waveform); try contradiction; cbn;
    (split; [reflexivity|]);
    rewrite (omap_integrateEntry_positive _ Hpos), map_map; reflexivity.
Qed.


End Pipeline.
Section Binary64Order.

Local Open Scope float_scope.

Lemma SFcompare_antisym (a b : spec_float) :
  SFcompare b a = option_map CompOpp (SFcompare a b).
Proof.
  destruct a as [sa|sa| |sa ma ea], b as [sb|sb| |sb mb eb]; cbn;
    try reflexivity;
    try (destruct sa; reflexivity); try (destruct sb; reflexivity);
    try (destruct sa, sb; reflexivity).
  change IntDef.Z.compare with Z.compare.
  change PosDef.Pos.compare_cont with Pos.compare_cont.
  rewrite (Z.compare_antisym ea eb).
  assert (Hp : Pos.compare_cont Eq mb ma = CompOpp (Pos.compare_cont Eq ma mb))
    by (rewrite Pos.compare_cont_antisym; reflexivity).
  rewrite Hp.
  destruct sa, sb; cbn; try reflexivity;
    destruct (ea ?= eb)%Z; cbn; try reflexivity;
    rewrite ?CompOpp_involutive; reflexivity.
Qed.

Lemma is_nan_SFcompare (x y : float) :
  PrimFloat.is_nan x = false -> PrimFloat.is_nan y = false ->
  exists c, SFcompare (Prim2SF x) (Prim2SF y) = Some c.
Proof.
  unfold PrimFloat.is_nan. rewrite !FloatAxioms.eqb_spec. unfold SFeqb.
  destruct (Prim2SF x), (Prim2SF y); cbn; try discriminate; eauto.
Qed.

(** On numbers other than NaN, [x < y] failing means [y <= x]. *)
Lemma not_ltb_leb (x y : float) :
  PrimFloat.is_nan x = false -> PrimFloat.is_nan y = false ->
  (x <? y) = false -> (y <=? x) = true.
Proof.
  intros Hx Hy. rewrite FloatAxioms.ltb_spec, FloatAxioms.leb_spec. unfold SFltb, SFleb.
  rewrite (SFcompare_antisym (Prim2SF x) (Prim2SF y)).
  destruct (is_nan_SFcompare x y Hx Hy) as [c ->].
  destruct c; cbn; congruence.
Qed.

Lemma not_leb_ltb (x y : float) :
  PrimFloat.is_nan x = false -> PrimFloat.is_nan y = false ->
  (x <=? y) = false -> (y <? x) = true.
Proof.
  intros Hx Hy. rewrite FloatAxioms.ltb_spec, FloatAxioms.leb_spec. unfold SFltb, SFleb.
  rewrite (SFcompare_antisym (Prim2SF x) (Prim2SF y)).
  destruct (is_nan_SFcompare x y Hx Hy) as [c ->].
  destruct c; cbn; congruence.
Qed.

(** Every comparison with NaN is false. *)
Lemma nan_comparisons (x y : float) :
  PrimFloat.is_nan x = true ->
  (x <? y) = false /\ (y <? x) = false /\ (x <=? y) = false /\ (y <=? x) = false.
Proof.
  unfold PrimFloat.is_nan. rewrite !FloatAxioms.ltb_spec, !FloatAxioms.leb_spec, FloatAxioms.eqb_spec.
  unfold SFltb, SFleb, SFeqb.
  destruct (Prim2SF x) as [s|s| |s m e]; cbn.
  - discriminate.
  - destruct s; discriminate.
  - destruct (Prim2SF y); auto.
  - change IntDef.Z.compare with Z.compare.
    change PosDef.Pos.compare_cont with Pos.compare_cont.
    destruct s; rewrite Z.compare_refl, Pos.compare_cont_refl; discriminate.
Qed.

End Binary64Order.

Section Binary64Setters.

Local Open Scope float_scope.

Lemma afterCall_fieldRangesHold (this : Binary64.Config.t)
    (call : Binary64.setterCall) :
  Binary64.argumentIsNaN call = false ->
  Binary64.fieldRangesHold this ->
  Binary64.fieldRangesHold (Binary64.afterCall this call).
Proof.
  unfold Binary64.fieldRangesHold, Binary64.afterCall.
  intros Hnan (H1 & H2 & H3 & H4 & H5 & H6 & H7).
  destruct call as [lines|type|f|f|f|f|range];
    cbn [Binary64.applySetter Binary64.argumentIsNaN] in *.
  - unfold Binary64.setNumberOfLines.
    destruct (lines <? Binary64.CONSTANTS.MIN_LINES) eqn:E1; [tauto|].
    destruct (Binary64.CONSTANTS.MAX_LINES <? lines) eqn:E2; [tauto|].
    apply not_ltb_leb in E1, E2; try reflexivity; try exact Hnan.
    cbn. tauto.
  - cbn. tauto.
  - unfold Binary64.setMinFrequency. destruct (f <? 0) eqn:E; [tauto|].
    apply not_ltb_leb in E; try reflexivity; try exact Hnan. cbn. tauto.
  - unfold Binary64.setMaxFrequency. destruct (f <? 0) eqn:E; [tauto|].
    apply not_ltb_leb in E; try reflexivity; try exact Hnan. cbn. tauto.
  - unfold Binary64.setHighPassFrequency. destruct (f <? 0) eqn:E; [tauto|].
    apply not_ltb_leb in E; try reflexivity; try exact Hnan. cbn. tauto.
  - unfold Binary64.setLowPassFrequency. destruct (f <? 0) eqn:E; [tauto|].
    apply not_ltb_leb in E; try reflexivity; try exact Hnan. cbn. tauto.
  - unfold Binary64.setBandRange. destruct (range <=? 0) eqn:E; [tauto|].
    destruct (Binary64.Config.maxFrequency this <? range); [tauto|].
    apply not_leb_ltb in E; try reflexivity; try exact Hnan. cbn. tauto.
Qed.

(** X13.  Whatever setters are called on a new engine, with whatever
    arguments other than NaN (the infinities included) and whether they
    throw or not, the line count stays within [100, 102400], no
    frequency is negative and the band range is positive; so the joint
    check of calculateSpectrum can fail only because the minimum
    frequency is not below the maximum or the band range exceeds the
    maximum. *)
Theorem setters_keep_field_ranges (calls : list Binary64.setterCall) :
  Forall (fun call => Binary64.argumentIsNaN call = false) calls ->
  let this := Binary64.afterCalls Binary64.Config.initial calls in
  Binary64.fieldRangesHold this /\
  (Binary64.areParametersValid this = true <->
   (Binary64.Config.minFrequency this <? Binary64.Config.maxFrequency this) = true /\
   (Binary64.Config.bandRange this <=? Binary64.Config.maxFrequency this) = true).
Proof.
  intros Hcalls.
  assert (Hinv : forall this0, Binary64.fieldRangesHold this0 ->
            Binary64.fieldRangesHold (Binary64.afterCalls this0 calls)).
  { induction Hcalls as [|call calls Hcall _ IH]; intros this0 H0; [exact H0|].
    cbn. apply IH, afterCall_fieldRangesHold; assumption. }
  assert (Hinit : Binary64.fieldRangesHold Binary64.Config.initial).
  { unfold Binary64.fieldRangesHold. cbn. repeat split; reflexivity. }
  cbv zeta. specialize (Hinv _ Hinit). split; [exact Hinv|].
  destruct Hinv as (H1 & H2 & H3 & H4 & H5 & H6 & H7).
  unfold Binary64.areParametersValid. rewrite H1, H2, H3, H7. cbn [andb].
  rewrite andb_true_r, andb_true_iff. tauto.
Qed.

(** A NaN argument passes the guards of every setter, is stored, and
    breaks the range of its field. *)
Lemma nan_argument_is_stored (this : Binary64.Config.t)
    (call : Binary64.setterCall) :
  Binary64.argumentIsNaN call = true ->
  exists this',
    Binary64.applySetter this call = inr this' /\
    ~ Binary64.fieldRangesHold this'.
Proof.
  unfold Binary64.fieldRangesHold.
  destruct call as [lines|type|f|f|f|f|range];
    cbn [Binary64.applySetter Binary64.argumentIsNaN]; intros Hnan;
    try discriminate.
  - unfold Binary64.setNumberOfLines.
    destruct (nan_comparisons lines Binary64.CONSTANTS.MIN_LINES Hnan)
      as (-> & _ & _ & Hge).
    destruct (nan_comparisons lines Binary64.CONSTANTS.MAX_LINES Hnan)
      as (_ & -> & _ & _).
    eexists. split; [reflexivity|]. cbn [Binary64.Config.numberOfLines].
    intros (H & _). congruence.
  - unfold Binary64.setMinFrequency.
    destruct (nan_comparisons f 0 Hnan) as (-> & _ & _ & Hge).
    eexists. split; [reflexivity|]. cbn. intros (_ & _ & H & _). congruence.
  - unfold Binary64.setMaxFrequency.
    destruct (nan_comparisons f 0 Hnan) as (-> & _ & _ & Hge).
    eexists. split; [reflexivity|]. cbn. intros (_ & _ & _ & H & _). congruence.
  - unfold Binary64.setHighPassFrequency.
    destruct (nan_comparisons f 0 Hnan) as (-> & _ & _ & Hge).
    eexists. split; [reflexivity|]. cbn.
    intros (_ & _ & _ & _ & H & _). congruence.
  - unfold Binary64.setLowPassFrequency.
    destruct (nan_comparisons f 0 Hnan) as (-> & _ & _ & Hge).
    eexists. split; [reflexivity|]. cbn.
    intros (_ & _ & _ & _ & _ & H & _). congruence.
  - unfold Binary64.setBandRange.
    destruct (nan_comparisons range 0 Hnan) as (_ & Hgt & -> & _).
    destruct (nan_comparisons range (Binary64.Config.maxFrequency this) Hnan)
      as (_ & -> & _ & _).
    eexists. split; [reflexivity|]. cbn.
    intros (_ & _ & _ & _ & _ & _ & H). congruence.
Qed.

End Binary64Setters.

(** ** Refused integrations *)

(** X18.  Without a high-pass frequency above 0 the integration is refused
    whatever the input: the result is the input marked invalid, with a
    reason that contains "not allowed" and "high pass"; this check comes
    before the one on displacement. *)
Theorem integration_refused_without_high_pass (this : Config.t)
    (spectrum : SpectrumResult) :
  Config.highPassFrequency this <= 0 ->
  let r := integrateSpectrum this spectrum in
  isValid r = false /\
  errorMessage r
  = Some "Integration is not allowed when high pass filter is not used"%string /\
  (exists reason, errorMessage r = Some reason /\
     includes reason "not allowed" = true /\ includes reason "high pass" = true) /\
  quantity r = quantity spectrum /\
  bandPeaks r = bandPeaks spectrum /\
  maxFrequency r = maxFrequency spectrum /\
  resolution r = resolution spectrum /\
  rawSpectrum r = rawSpectrum spectrum.
Proof.
  intros Hhp r. subst r. unfold integrateSpectrum, isIntegrationAllowed.
  rewrite (proj2 (Qltb_ge _ _) Hhp). cbn.
  repeat split. eexists. repeat split; reflexivity.
Qed.

Lemma integration_refused_without_high_pass_witness :
  Config.highPassFrequency Config.initial <= 0 /\
  isValid (integrateSpectrum Config.initial Examples.storedResult) = false /\
  bandPeaks (integrateSpectrum Config.initial Examples.storedResult)
  = bandPeaks Examples.storedResult.
Proof.
  assert (H : Config.highPassFrequency Config.initial <= 0)
    by (vm_compute; discriminate).
  split; [exact H|].
  destruct (integration_refused_without_high_pass Config.initial
              Examples.storedResult H) as (Hv & _ & _ & _ & Hb & _).
  split; [exact Hv|exact Hb].
Defined.

(** X19.  A refused integration is final: integrating the refused result
    again, in the same state of the engine, returns the same result. *)
Theorem refused_integration_is_final (this : Config.t) (spectrum : SpectrumResult) :
  isValid (integrateSpectrum this spectrum) = false ->
  integrateSpectrum this (integrateSpectrum this spectrum)
  = integrateSpectrum this spectrum.
Proof.
  unfold integrateSpectrum.
  destruct (negb (isIntegrationAllowed this)) eqn:E1; cbn; [reflexivity|].
  destruct (Quantity_eqb (quantity spectrum) Displacement) eqn:E2; cbn.
  - rewrite ?E2. reflexivity.
  - discriminate.
Qed.

Lemma refused_integration_is_final_witness :
  isValid (integrateSpectrum Config.initial Examples.storedResult) = false /\
  integrateSpectrum Config.initial
    (integrateSpectrum Config.initial Examples.storedResult)
  = integrateSpectrum Config.initial Examples.storedResult.
Proof.
  assert (H : isValid (integrateSpectrum Config.initial Examples.storedResult)
              = false) by reflexivity.
  split; [exact H|].
  exact (refused_integration_is_final Config.initial Examples.storedResult H).
Defined.

(** ** The speed estimate *)

Lemma sumAndCount_spec (peakValues : list number) :
  forall (sum : number) (count : Z),
    exists total,
      sumAndCount peakValues sum count
      = (total, (count + Z.of_nat (length peakValues))%Z) /\
      total == sum + sumOf peakValues.
Proof.
  induction peakValues as [|peak rest IH]; intros sum count.
  - exists sum. split; [cbn; f_equal; lia|]. cbn [sumOf fold_right length]. lra.
  - destruct (IH (sum + peak) (count + 1)%Z) as (total & Heq & Htotal).
    exists total. cbn [sumAndCount]. rewrite Heq. split.
    + f_equal. cbn [length]. lia.
    + rewrite Htotal. cbn [sumOf fold_right]. fold (sumOf rest). lra.
Qed.

(** On a valid result with at least one band the estimate is read off
    the first band at or above a target that equals twice the mean
    peak. *)
Lemma calculateMachineSpeed_target (date : string) (spectralData : SpectrumResult) :
  isValid spectralData = true ->
  bandPeaks spectralData <> [] ->
  exists targetValue,
    targetValue == twiceMeanPeak spectralData /\
    calculateMachineSpeed date spectralData
    = if Qeq_bool (findPeakFrequency (bandPeaks spectralData) targetValue) (-1)
      then -1
      else findPeakFrequency (bandPeaks spectralData) targetValue * 60.
Proof.
  intros Hvalid Hne. unfold calculateMachineSpeed, twiceMeanPeak.
  rewrite Hvalid. cbn [negb].
  destruct (sumAndCount_spec (map snd (bandPeaks spectralData)) 0 0%Z)
    as (total & -> & Htotal).
  rewrite length_map, Z.add_0_l.
  destruct (Z.eqb_spec (Z.of_nat (length (bandPeaks spectralData))) 0) as [H0|_].
  { destruct (bandPeaks spectralData); [contradiction|discriminate]. }
  eexists. split; [|reflexivity]. rewrite Htotal. unfold number. field.
  destruct (bandPeaks spectralData); [contradiction|].
  unfold Qeq. cbn. lia.
Qed.

Lemma findPeakFrequency_comp (entries : list (band * number)) (t1 t2 : number) :
  t1 == t2 -> findPeakFrequency entries t1 = findPeakFrequency entries t2.
Proof.
  intros Ht. induction entries as [|[b v] rest IH]; [reflexivity|].
  cbn [findPeakFrequency]. rewrite IH.
  rewrite (Qleb_comp t1 t2 Ht v v (Qeq_refl v)). reflexivity.
Qed.

Lemma findPeakFrequency_first (before after : list (band * number)) (b : band)
    (v targetValue : number) :
  Forall (fun e => snd e < targetValue) before ->
  targetValue <= v ->
  findPeakFrequency (before ++ (b, v) :: after) targetValue = (fst b + snd b) / 2.
Proof.
  intros Hbefore Hv. induction Hbefore as [|[b0 v0] rest Hlt _ IH]; cbn.
  - rewrite (proj2 (Qle_bool_iff _ _) Hv). reflexivity.
  - destruct (Qle_bool targetValue v0) eqn:E; [|exact IH].
    apply Qle_bool_iff in E. cbn in Hlt. lra.
Qed.


Lemma findPeakFrequency_stored (entries : list (band * number)) (targetValue : number) :
  findPeakFrequency entries targetValue = -1 \/
  exists b v, In (b, v) entries /\ targetValue <= v /\
              findPeakFrequency entries targetValue = (fst b + snd b) / 2.
Proof.
  induction entries as [|[b0 v0] rest IH]; [left; reflexivity|].
  cbn [findPeakFrequency]. destruct (Qle_bool targetValue v0) eqn:E.
  - right. exists b0, v0. split; [left; reflexivity|].
    split; [apply Qle_bool_iff, E|reflexivity].
  - destruct IH as [->|(b & v & Hin & Hle & ->)]; [left; reflexivity|].
    right. exists b, v. split; [right; exact Hin|]. auto.
Qed.

(** X22.  For whole peaks that add up to at most 2^52, for which the sum
    is exact in double arithmetic and twice the mean rounds without
    crossing a whole number, and a band with whole edges: the estimate
    is 60 times the center frequency of the first band whose peak
    reaches twice the mean peak, not of the largest one. *)
Theorem speed_is_first_band_at_twice_the_mean (date : string)
    (spectralData : SpectrumResult) (before after : list (band * number))
    (b : band) (v : number) :
  isValid spectralData = true ->
  bandPeaks spectralData = before ++ (b, v) :: after ->
  Forall (fun e => wholeNumber (snd e) = true) (bandPeaks spectralData) ->
  sumOf (map snd (bandPeaks spectralData)) <= inject_Z (2 ^ 52) ->
  wholeNumber (fst b) = true ->
  wholeNumber (snd b) = true ->
  Forall (fun e => snd e < twiceMeanPeak spectralData) before ->
  twiceMeanPeak spectralData <= v ->
  calculateMachineSpeed date spectralData = (fst b + snd b) / 2 * 60.
Proof.
  intros Hvalid Hbands _ _ Hstart Hend Hbefore Hv.
  assert (Hcenter : ~ (fst b + snd b) / 2 == -1).
  { unfold wholeNumber in Hstart, Hend.
    apply andb_true_iff in Hstart as [Hstart _].
    apply andb_true_iff in Hstart as [_ Hstart].
    apply andb_true_iff in Hend as [Hend _].
    apply andb_true_iff in Hend as [_ Hend].
    apply Qle_bool_iff in Hstart, Hend.
    intros Heq. clear - Hstart Hend Heq. destruct b as [s e]. cbn [fst snd] in *.
    unfold number in *.
    assert (Hhalf : (s + e) / 2 == (s + e) * (1 # 2)) by (field; discriminate).
    rewrite Hhalf in Heq. lra. }
  destruct (calculateMachineSpeed_target date spectralData Hvalid)
    as (targetValue & Htarget & ->).
  { rewrite Hbands. destruct before; discriminate. }
  rewrite (findPeakFrequency_comp _ _ _ Htarget), Hbands.
  rewrite (findPeakFrequency_first before after b v _ Hbefore Hv).
  destruct (Qeq_bool ((fst b + snd b) / 2) (-1)) eqn:E; [|reflexivity].
  apply Qeq_bool_iff in E. contradiction.
Qed.


Lemma sumOf_all_zero (entries : list (band * number)) :
  Forall (fun e => snd e == 0) entries -> sumOf (map snd entries) == 0.
Proof.
  induction 1 as [|e l He _ IH]; [reflexivity|].
  cbn [map sumOf fold_right]. fold (sumOf (map snd l)). rewrite IH, He.
  reflexivity.
Qed.

(** X24.  When every band peak is 0 the first band reaches the target 0: the
    estimate is 60 times the center frequency of the first band. *)
Theorem zero_peaks_give_first_band_speed (date : string)
    (spectralData : SpectrumResult) (b : band) (v : number)
    (rest : list (band * number)) :
  isValid spectralData = true ->
  bandPeaks spectralData = (b, v) :: rest ->
  Forall (fun e => snd e == 0) (bandPeaks spectralData) ->
  ~ (fst b + snd b) / 2 == -1 ->
  calculateMachineSpeed date spectralData = (fst b + snd b) / 2 * 60.
Proof.
  intros Hvalid Hbands Hall Hcenter.
  destruct (calculateMachineSpeed_target date spectralData Hvalid)
    as (targetValue & Htarget & ->).
  { rewrite Hbands. discriminate. }
  pose proof (sumOf_all_zero _ Hall) as Hsum.
  assert (Ht : targetValue == 0).
  { rewrite Htarget. unfold twiceMeanPeak. rewrite Hsum. unfold Qdiv, number. ring. }
  rewrite Hbands in Hall |- *. inversion Hall as [|? ? Hv _]; subst.
  cbn [findPeakFrequency]. cbn beta in Hv. cbn [snd] in Hv.
  assert (E : Qle_bool targetValue v = true).
  { apply Qle_bool_iff. rewrite Ht, Hv. lra. }
  rewrite E.
  destruct (Qeq_bool ((fst b + snd b) / 2) (-1)) eqn:E'; [|reflexivity].
  apply Qeq_bool_iff in E'. contradiction.
Qed.

(** X25.  The estimate is -1 or 60 times the center frequency of a band
    stored in a valid result, and it is the same for every date: the
    date plays no part. *)
Theorem speed_is_a_stored_band_or_none (date : string)
    (spectralData : SpectrumResult) :
  (calculateMachineSpeed date spectralData = -1 \/
   exists b v,
     isValid spectralData = true /\
     In (b, v) (bandPeaks spectralData) /\
     calculateMachineSpeed date spectralData = (fst b + snd b) / 2 * 60) /\
  forall otherDate : string,
    calculateMachineSpeed otherDate spectralData
    = calculateMachineSpeed date spectralData.
Proof.
  split; [|reflexivity].
  destruct (isValid spectralData) eqn:Hvalid.
  2: { left. unfold calculateMachineSpeed. rewrite Hvalid. reflexivity. }
  destruct (bandPeaks spectralData) as [|e l] eqn:Hbands.
  { left. unfold calculateMachineSpeed. rewrite Hvalid, Hbands. reflexivity. }
  destruct (calculateMachineSpeed_target date spectralData Hvalid)
    as (targetValue & Htarget & ->).
  { rewrite Hbands. discriminate. }
  rewrite Hbands.
  destruct (findPeakFrequency_stored (e :: l) targetValue)
    as [->|(b & v & Hin & Hle & ->)]; [left; reflexivity|].
  destruct (Qeq_bool ((fst b + snd b) / 2) (-1)); [left; reflexivity|].
  right. exists b, v. repeat split; auto.
Qed.

(** ** The history store *)

Lemma stringMapGet_set {V : Type} (entries : list (string * V)) (key key' : string)
    (value : V) :
  stringMapGet (stringMapSet entries key value) key'
  = if String.eqb key key' then Some value else stringMapGet entries key'.
Proof.
  induction entries as [|[k v] rest IH]; cbn.
  - reflexivity.
  - destruct (String.eqb_spec k key) as [->|Hne]; cbn.
    + destruct (String.eqb key key'); reflexivity.
    + rewrite IH. destruct (String.eqb_spec k key') as [->|Hne'];
        [|reflexivity].
      destruct (String.eqb_spec key key') as [->|_]; [contradiction|reflexivity].
Qed.

Lemma stringMapSet_keys_present {V : Type} (entries : list (string * V))
    (key : string) (value : V) :
  In key (map fst entries) ->
  map fst (stringMapSet entries key value) = map fst entries.
Proof.
  induction entries as [|[k v] rest IH]; intros Hin; [destruct Hin|].
  cbn. destruct (String.eqb_spec k key) as [->|Hne]; [reflexivity|].
  cbn. rewrite IH; [reflexivity|]. destruct Hin as [Hk|Hin]; [|exact Hin].
  cbn in Hk. contradiction.
Qed.

Lemma stringMapSet_new_key {V : Type} (entries : list (string * V)) (key : string)
    (value : V) :
  ~ In key (map fst entries) ->
  stringMapSet entries key value = entries ++ [(key, value)].
Proof.
  induction entries as [|[k v] rest IH]; intros Hnew; cbn; [reflexivity|].
  destruct (String.eqb_spec k key) as [->|_].
  - exfalso. apply Hnew. left. reflexivity.
  - rewrite IH; [reflexivity|]. intros Hin. apply Hnew. right. exact Hin.
Qed.

Lemma stringMapSet_NoDup {V : Type} (entries : list (string * V)) (key : string)
    (value : V) :
  NoDup (map fst entries) -> NoDup (map fst (stringMapSet entries key value)).
Proof.
  intros Hnd. destruct (in_dec string_dec key (map fst entries)) as [Hin|Hnew].
  - rewrite stringMapSet_keys_present by exact Hin. exact Hnd.
  - rewrite stringMapSet_new_key by exact Hnew. rewrite map_app.
    apply NoDup_app. split; [exact Hnd|]. split.
    + intros x Hx Hin. apply list_elem_of_singleton in Hin. subst.
      apply Hnew, list_elem_of_In, Hx.
    + apply NoDup_singleton.
Qed.

Lemma storedBy_from (calls : list (string * SpectrumResult)) :
  forall (db : list (string * SpectrumResult)) (timestamp : string),
    stringMapGet
      (fold_left (fun db call => storeSpectrumResult db (fst call) (snd call))
         calls db) timestamp
    = match lastStored calls timestamp with
      | Some r => Some r
      | None => stringMapGet db timestamp
      end.
Proof.
  induction calls as [|[t r] rest IH]; intros db timestamp; [reflexivity|].
  cbn [fold_left lastStored fst snd]. rewrite IH.
  destruct (lastStored rest timestamp); [reflexivity|].
  unfold storeSpectrumResult. rewrite stringMapGet_set.
  destruct (String.eqb t timestamp); reflexivity.
Qed.

Lemma retrieve_gives_last_stored_aux (calls : list (string * SpectrumResult))
    (timestamp : string) :
  stringMapGet (storedBy calls) timestamp = lastStored calls timestamp.
Proof.
  unfold storedBy. rewrite storedBy_from.
  destruct (lastStored calls timestamp); reflexivity.
Qed.

(** X26.  Round trip: after any series of store calls on a new engine,
    retrieving a timestamp gives the result of the last call that
    stored under it, and nothing for a timestamp never stored. *)
Theorem retrieve_gives_last_stored (calls : list (string * SpectrumResult))
    (timestamp : string) :
  retrieveSpectrumResult (storedBy calls) timestamp = lastStored calls timestamp.
Proof.
  exact (retrieve_gives_last_stored_aux calls timestamp).
Qed.

Lemma storedBy_NoDup_from (calls : list (string * SpectrumResult)) :
  forall db : list (string * SpectrumResult),
    NoDup (map fst db) ->
    NoDup (map fst
             (fold_left (fun db call => storeSpectrumResult db (fst call) (snd call))
                calls db)).
Proof.
  induction calls as [|[t r] rest IH]; intros db Hdb; [exact Hdb|].
  cbn [fold_left]. apply IH. apply stringMapSet_NoDup, Hdb.
Qed.

(** X27.  Storing under a timestamp that is present replaces the result where
    it stands; storing under a new one appends.  So the store never
    holds a timestamp twice, and a store call leaves every other
    timestamp's result as it was. *)
Theorem store_replaces_or_appends (spectrumDatabase : list (string * SpectrumResult))
    (timestamp : string) (result : SpectrumResult) :
  let after := storeSpectrumResult spectrumDatabase timestamp result in
  retrieveSpectrumResult after timestamp = Some result /\
  (forall other, other <> timestamp ->
     retrieveSpectrumResult after other
     = retrieveSpectrumResult spectrumDatabase other) /\
  (In timestamp (map fst spectrumDatabase) ->
     map fst after = map fst spectrumDatabase) /\
  (~ In timestamp (map fst spectrumDatabase) ->
     after = spectrumDatabase ++ [(timestamp, result)]) /\
  (NoDup (map fst spectrumDatabase) -> NoDup (map fst after)).
Proof.
  cbv zeta. unfold storeSpectrumResult, retrieveSpectrumResult. repeat split.
  - rewrite stringMapGet_set, String.eqb_refl. reflexivity.
  - intros other Hother. rewrite stringMapGet_set.
    destruct (String.eqb_spec timestamp other) as [->|_];
      [contradiction|reflexivity].
  - apply stringMapSet_keys_present.
  - apply stringMapSet_new_key.
  - apply stringMapSet_NoDup.
Qed.

(** ** The trend *)

Lemma highestPeak_from (values : list number) :
  forall start : number,
    let r := fold_left
               (fun maxPeak value => if Qltb maxPeak value then value else maxPeak)
               values start in
    start <= r /\ (forall v, In v values -> v <= r) /\ (r = start \/ In r values).
Proof.
  induction values as [|value rest IH]; intros start; cbn [fold_left].
  - cbv zeta. split; [lra|]. split; [intros v []|left; reflexivity].
  - destruct (IH (if Qltb start value then value else start)) as (H1 & H2 & H3).
    cbv zeta in *.
    destruct (Qltb start value) eqn:E.
    + apply Qltb_lt in E. split; [lra|]. split.
      * intros v [<-|Hv]; [exact H1|exact (H2 v Hv)].
      * destruct H3 as [->|H3]; right; [left; reflexivity|right; exact H3].
    + apply Qltb_ge in E. split; [exact H1|]. split.
      * intros v [<-|Hv]; [lra|exact (H2 v Hv)].
      * destruct H3 as [->|H3]; [left; reflexivity|right; right; exact H3].
Qed.

(** X28.  The value a result contributes to the trend is the largest of 0 and
    its band peaks: never negative, 0 for a result without bands. *)
Theorem highestPeak_is_maximum_with_zero (values : list number) :
  0 <= highestPeak values /\
  (forall v, In v values -> v <= highestPeak values) /\
  (highestPeak values = 0 \/ In (highestPeak values) values).
Proof.
  exact (highestPeak_from values 0).
Qed.

Lemma trend_from (entries : list (string * SpectrumResult))
    (startDate endDate : string) :
  forall trend : list (string * number),
    NoDup (map fst entries) ->
    (forall t, In t (map fst entries) -> ~ In t (map fst trend)) ->
    fold_left
      (fun trend entry =>
         let (timestamp, result) := entry : string * SpectrumResult in
         if isValid result && String.leb startDate timestamp
            && String.leb timestamp endDate
         then stringMapSet trend timestamp
                (highestPeak (map snd (bandPeaks result)))
         else trend)
      entries trend
    = trend
      ++ map (fun entry =>
                (fst entry, highestPeak (map snd (bandPeaks (snd entry)))))
           (List.filter (inTrend startDate endDate) entries).
Proof.
  induction entries as [|[t r] rest IH]; intros trend Hnd Hnew.
  - cbn. rewrite app_nil_r. reflexivity.
  - cbn [map fst] in Hnd. apply NoDup_cons in Hnd as [Hnotin Hnd].
    cbn [fold_left List.filter].
    change (inTrend startDate endDate (t, r))
      with (isValid r && String.leb startDate t && String.leb t endDate).
    destruct (isValid r && String.leb startDate t && String.leb t endDate).
    + rewrite stringMapSet_new_key by (apply Hnew; left; reflexivity).
      rewrite IH; [|exact Hnd|].
      * cbn [map fst snd]. rewrite <- app_assoc. reflexivity.
      * intros t' Ht'. rewrite map_app, in_app_iff. intros [Hin|[<-|[]]].
        -- apply (Hnew t'); [right; exact Ht'|exact Hin].
        -- apply Hnotin, list_elem_of_In, Ht'.
    + apply IH; [exact Hnd|]. intros t' Ht'. apply Hnew. right. exact Ht'.
Qed.

(** X29.  The trend lists, in the order of the store, the timestamps of the
    valid results between the two dates (compared as strings), each
    with the largest of 0 and the result's band peaks; invalid results
    and results outside the dates are left out. *)
Theorem trend_lists_valid_results_in_range
    (spectrumDatabase : list (string * SpectrumResult)) (startDate endDate : string) :
  NoDup (map fst spectrumDatabase) ->
  getPeakInBandTrend spectrumDatabase startDate endDate
  = map (fun entry => (fst entry, highestPeak (map snd (bandPeaks (snd entry)))))
      (List.filter (inTrend startDate endDate) spectrumDatabase).
Proof.
  intros Hnd. unfold getPeakInBandTrend.
  rewrite (trend_from _ _ _ [] Hnd); [reflexivity|]. intros t _ [].
Qed.

(** X30.  After any series of store calls on a new engine, a timestamp
    is in the trend with a value exactly when the last result stored
    under it is valid, the timestamp lies between the two dates, and the
    value is the largest of 0 and that result's band peaks. *)
Theorem trend_of_stored_results (calls : list (string * SpectrumResult))
    (startDate endDate : string) (timestamp : string) (value : number) :
  In (timestamp, value) (getPeakInBandTrend (storedBy calls) startDate endDate)
  <-> exists r,
        lastStored calls timestamp = Some r /\
        isValid r = true /\
        String.leb startDate timestamp = true /\
        String.leb timestamp endDate = true /\
        value = highestPeak (map snd (bandPeaks r)).
Proof.
  assert (Hnd : NoDup (map fst (storedBy calls))).
  { apply storedBy_NoDup_from. constructor. }
  unfold getPeakInBandTrend. rewrite (trend_from _ _ _ [] Hnd) by (intros t _ []).
  cbn [app]. rewrite in_map_iff.
  assert (Hget : forall t r, In (t, r) (storedBy calls) <->
                             lastStored calls t = Some r).
  { intros t r. rewrite <- retrieve_gives_last_stored_aux.
    unfold retrieveSpectrumResult. revert Hnd.
    generalize (storedBy calls). intros db Hdb.
    induction db as [|[k v] rest IH]; cbn.
    - split; [intros []|discriminate].
    - cbn [map fst] in Hdb. apply NoDup_cons in Hdb as [Hnotin Hdb].
      destruct (String.eqb_spec k t) as [->|Hne].
      + split.
        * intros [[= <-]|Hin]; [reflexivity|].
          exfalso. apply Hnotin, list_elem_of_In.
          apply (in_map fst) in Hin. exact Hin.
        * intros [= <-]. left. reflexivity.
      + rewrite <- (IH Hdb). split.
        * intros [[= -> _]|Hin]; [contradiction|exact Hin].
        * intros Hin. right. exact Hin. }
  split.
  - intros ([t r] & [= <- <-] & Hin). apply filter_In in Hin as [Hin Hcond].
    unfold inTrend in Hcond. cbn [fst snd] in Hcond.
    apply andb_true_iff in Hcond as [Hcond H3].
    apply andb_true_iff in Hcond as [H1 H2].
    exists r. rewrite <- Hget. auto.
  - intros (r & Hlast & H1 & H2 & H3 & ->). exists (timestamp, r).
    split; [reflexivity|]. apply filter_In. split; [apply Hget, Hlast|].
    unfold inTrend. cbn [fst snd]. rewrite H1, H2, H3. reflexivity.
Qed.

(** ** What the returned object shares with the input *)

Lemma integrateLoop_keeps_target (entries : list (Store.ref * number)) :
  forall (h : gmap Store.ref Store.object) (target : Store.ref)
         (h' : gmap Store.ref Store.object),
    Store.integrateLoop h target entries = Some h' ->
    (exists acc, h !! target = Some (Store.MapObject acc)) ->
    exists acc', h' !! target = Some (Store.MapObject acc').
Proof.
  induction entries as [|[key value] rest IH]; intros h target h' Hloop Hacc.
  - injection Hloop as <-. exact Hacc.
  - cbn [Store.integrateLoop] in Hloop.
    destruct (Store.readBand h key) as [b|]; [|discriminate].
    destruct (Qle_bool (centerFreq b) 0); [exact (IH _ _ _ Hloop Hacc)|].
    destruct (Store.storeMapSet h target key (integratedValue b value))
      as [h1|] eqn:Hset; [|discriminate].
    apply (IH _ _ _ Hloop). unfold Store.storeMapSet in Hset.
    destruct (h !! target) as [[|acc|]|]; try discriminate.
    injection Hset as <-. rewrite lookup_insert_eq. eauto.
Qed.

(** X20.  The object returned by integrateSpectrum holds the input's
    reference to the retained spectrum on every path.  When the
    integration is refused it also holds the input's reference to the
    band [Map], so the two results share one [Map]; when it succeeds
    its band [Map] is an object that did not exist before the call. *)
Theorem integrateSpectrum_result_sharing (this : Config.t)
    (h : gmap Store.ref Store.object) (spectrum result : Store.ref)
    (h' : gmap Store.ref Store.object) (fields : Store.ResultFields) :
  Store.integrateSpectrum this h spectrum = Some (result, h') ->
  h !! spectrum = Some (Store.ResultObject fields) ->
  exists fields',
    h' !! result = Some (Store.ResultObject fields') /\
    Store.rawSpectrum fields' = Store.rawSpectrum fields /\
    (Store.isValid fields' = false ->
       Store.bandPeaks fields' = Store.bandPeaks fields) /\
    (Store.isValid fields' = true ->
       h !! Store.bandPeaks fields' = None /\
       is_Some (h' !! Store.bandPeaks fields')).
Proof.
  intros Hcall Hin. unfold Store.integrateSpectrum in Hcall. rewrite Hin in Hcall.
  destruct (negb (isIntegrationAllowed this)).
  { apply (inj Some) in Hcall. apply allocate_spec in Hcall as [_ ->].
    eexists. rewrite lookup_insert_eq. split; [reflexivity|].
    cbn. repeat split; auto; discriminate. }
  destruct (Quantity_eqb (Store.quantity fields) Displacement).
  { apply (inj Some) in Hcall. apply allocate_spec in Hcall as [_ ->].
    eexists. rewrite lookup_insert_eq. split; [reflexivity|].
    cbn. repeat split; auto; discriminate. }
  destruct (Store.allocate h (Store.MapObject [])) as [newMap h1] eqn:Halloc1.
  destruct (Store.allocate h1 _) as [res h2] eqn:Halloc2.
  apply allocate_spec in Halloc1 as [Hfresh1 ->].
  apply allocate_spec in Halloc2 as [Hfresh2 ->].
  destruct (h !! Store.bandPeaks fields) as [[| entries |]|]; try discriminate.
  destruct (Store.integrateLoop _ newMap entries) as [h3|] eqn:Hloop;
    [|discriminate].
  injection Hcall as <- <-.
  assert (Hne : res <> newMap).
  { intros ->. rewrite lookup_insert_eq in Hfresh2. discriminate. }
  eexists. rewrite (integrateLoop_frame _ _ _ _ res Hloop Hne), lookup_insert_eq.
  split; [reflexivity|]. cbn. split; [reflexivity|]. split; [discriminate|].
  intros _. split; [exact Hfresh1|].
  destruct (integrateLoop_keeps_target entries _ newMap h3 Hloop) as [acc ->];
    [|eauto].
  rewrite lookup_insert_ne by congruence. rewrite lookup_insert_eq. eauto.
Qed.

(** ** The further properties at concrete inputs *)

Lemma zero_padding_appends_zeros_witness :
  (1 <= length (TimeWaveform.data Examples.constantWaveform))%nat /\
  exists k,
    (4 <= 2 ^ k)%Z /\ (2 ^ k < 8)%Z /\
    paddedInput Reference.cos Examples.highPassConfig Examples.constantWaveform
    = applyWindow Reference.cos Examples.highPassConfig
        (TimeWaveform.data Examples.constantWaveform)
      ++ repeat 0 (Z.to_nat (2 ^ k) - 4)%nat.
Proof.
  assert (H : (1 <= length (TimeWaveform.data Examples.constantWaveform))%nat)
    by (cbn; lia).
  split; [exact H|].
  destruct (zero_padding_appends_zeros Reference.cos Examples.highPassConfig
              Examples.constantWaveform H) as (k & _ & Hle & Hlt & Hpad & _).
  exists k. split; [exact Hle|]. split; [exact Hlt|exact Hpad].
Defined.


Lemma one_sample_waveform_throws_witness :
  length (TimeWaveform.data MoreExamples.oneSampleWaveform) = 1%nat /\
  Reference.calculateSpectrum Config.initial MoreExamples.oneSampleWaveform 0 0
  = Throws.
Proof.
  split; [reflexivity|].
  apply (one_sample_waveform_throws
           Reference.cos Reference.sqrt Reference.FFT_accepts
           Reference.FFT_realTransform).
  - reflexivity.
  - reflexivity.
  - vm_compute. discriminate.
  - vm_compute. discriminate.
  - reflexivity.
Defined.

Lemma resolution_is_rate_over_padded_length_witness :
  exists r,
    Reference.calculateSpectrum Examples.highPassConfig
      Examples.constantWaveform 0 0 = Returns r /\
    isValid r = true /\
    exists k, (0 <= k)%Z /\ resolution r = 4000 / inject_Z (2 ^ k).
Proof.
  eexists. split; [vm_compute; reflexivity|]. split; [reflexivity|].
  match goal with
  | |- context [resolution ?r] =>
      destruct (resolution_is_rate_over_padded_length
                  Reference.cos Reference.sqrt Reference.FFT_accepts
                  Reference.FFT_realTransform
                  Examples.highPassConfig Examples.constantWaveform 0 0 r)
        as (k & Hk & _ & _ & Hres & _)
  end.
  - vm_compute. reflexivity.
  - reflexivity.
  - cbn. lia.
  - exists k. split; [exact Hk|exact Hres].
Defined.

Lemma band_peaks_match_filter_when_cutoffs_outside_witness :
  Config.highPassFrequency Config.initial <= Config.minFrequency Config.initial /\
  exists r spectrum,
    Reference.calculateSpectrum Config.initial Examples.constantWaveform 0 0
      = Returns r /\
    isValid r = true /\
    rawSpectrum r = Some spectrum /\
    Forall (fun e =>
              snd e = calculateRealPeakInBand
                        (applyFrequencyDomainFiltering Config.initial spectrum
                           (resolution r))
                        (fst (fst e)) (snd (fst e)) (resolution r))
           (bandPeaks r).
Proof.
  assert (Hhp : Config.highPassFrequency Config.initial
                <= Config.minFrequency Config.initial)
    by (vm_compute; discriminate).
  split; [exact Hhp|].
  destruct (Reference.calculateSpectrum Config.initial Examples.constantWaveform
              0 0) as [r| |] eqn:Hcall;
    [|vm_compute in Hcall; discriminate..].
  assert (Hvalid : isValid r = true).
  { vm_compute in Hcall. injection Hcall as <-. reflexivity. }
  destruct (band_peaks_match_filter_when_cutoffs_outside
              Reference.cos Reference.sqrt Reference.FFT_accepts
              Reference.FFT_realTransform
              Config.initial Examples.constantWaveform 0 0 r Hcall Hvalid)
    as (spectrum & Hraw & Hpeaks).
  - cbn. lia.
  - exact Hhp.
  - left. vm_compute. discriminate.
  - exists r, spectrum. auto.
Defined.

Lemma band_peak_is_maximum_of_raw_bins_witness :
  wholeNumber (TimeWaveform.sampleRate Examples.constantWaveform) = true /\
  wholeNumber (Config.bandRange Examples.highPassConfig) = true /\
  exists r spectrum,
    Reference.calculateSpectrum Examples.highPassConfig
      Examples.constantWaveform 0 0 = Returns r /\
    isValid r = true /\
    rawSpectrum r = Some spectrum /\
    forall s e v, In ((s, e), v) (bandPeaks r) -> 0 <= v.
Proof.
  destruct (Reference.calculateSpectrum Examples.highPassConfig
              Examples.constantWaveform 0 0) as [r| |] eqn:Hcall;
    [|vm_compute in Hcall; discriminate..].
  assert (Hvalid : isValid r = true).
  { vm_compute in Hcall. injection Hcall as <-. reflexivity. }
  destruct (band_peak_is_maximum_of_raw_bins
              Reference.cos Reference.sqrt Reference.FFT_accepts
              Reference.FFT_realTransform
              Examples.highPassConfig Examples.constantWaveform 0 0 r Hcall Hvalid
              eq_refl eq_refl eq_refl eq_refl)
    as (spectrum & Hraw & Hmax).
  split; [reflexivity|]. split; [reflexivity|].
  exists r, spectrum. repeat split; auto.
  intros s e v Hin. exact (proj1 (Hmax s e v Hin)).
Defined.

Lemma lowering_maximum_below_band_range_witness :
  exists after1 after2,
    setBandRange Config.initial 25 = inr after1 /\
    setMaxFrequency after1 10 = inr after2 /\
    10 < 25 /\
    Reference.calculateSpectrum after2 Examples.constantWaveform 0 0
    = Returns (invalidResult after2 Examples.constantWaveform 0
                 "Invalid spectrum parameters").
Proof.
  eexists _, _.
  assert (H1 : setBandRange Config.initial 25
               = inr (match setBandRange Config.initial 25 with
                      | inr c => c | inl _ => Config.initial end))
    by reflexivity.
  assert (H2 : setMaxFrequency
                 (match setBandRange Config.initial 25 with
                  | inr c => c | inl _ => Config.initial end) 10
               = inr (match setMaxFrequency
                              (match setBandRange Config.initial 25 with
                               | inr c => c | inl _ => Config.initial end) 10 with
                      | inr c => c | inl _ => Config.initial end))
    by reflexivity.
  assert (H3 : 10 < 25) by reflexivity.
  split; [exact H1|]. split; [exact H2|]. split; [exact H3|].
  exact (proj2 (proj2 (lowering_maximum_below_band_range
           Reference.cos Reference.sqrt Reference.FFT_accepts
           Reference.FFT_realTransform _ _ _ 25 10 Examples.constantWaveform 0 0
           H1 H2 H3))).
Defined.

Lemma stored_band_is_found_witness :
  exists r v,
    Reference.calculateSpectrum Examples.highPassConfig
      Examples.constantWaveform 0 0 = Returns r /\
    isValid r = true /\
    bandPeaks r !! 1%nat = Some ((25, 50), v) /\
    calculatePeakInBand r 25 50 = v.
Proof.
  destruct (Reference.calculateSpectrum Examples.highPassConfig
              Examples.constantWaveform 0 0) as [r| |] eqn:Hcall;
    [|vm_compute in Hcall; discriminate..].
  assert (Hr : isValid r = true /\
               exists v, bandPeaks r !! 1%nat = Some ((25, 50), v)).
  { vm_compute in Hcall. injection Hcall as <-. split; [reflexivity|].
    eexists. reflexivity. }
  destruct Hr as (Hvalid & v & Hv).
  exists r, v. repeat split; auto.
  exact (stored_band_is_found
           Reference.cos Reference.sqrt Reference.FFT_accepts
           Reference.FFT_realTransform
           Examples.highPassConfig Examples.constantWaveform 0 0 r 1 25 50 v
           Hcall Hvalid Hv).
Defined.

Lemma integration_keeps_every_computed_band_witness :
  2 * Number_MIN_NORMAL <= Config.bandRange Examples.highPassConfig /\
  0 < Config.highPassFrequency Examples.highPassConfig /\
  TimeWaveform.quantity Examples.constantWaveform <> Displacement /\
  exists r,
    Reference.calculateSpectrum Examples.highPassConfig
      Examples.constantWaveform 0 0 = Returns r /\
    isValid r = true /\
    map fst (bandPeaks (integrateSpectrum Examples.highPassConfig r))
    = map fst (bandPeaks r).
Proof.
  assert (Hhp : 0 < Config.highPassFrequency Examples.highPassConfig)
    by reflexivity.
  assert (Hq : TimeWaveform.quantity Examples.constantWaveform <> Displacement)
    by discriminate.
  assert (Hrange : 2 * Number_MIN_NORMAL <= Config.bandRange Examples.highPassConfig)
    by (vm_compute; discriminate).
  split; [exact Hrange|]. split; [exact Hhp|]. split; [exact Hq|].
  destruct (Reference.calculateSpectrum Examples.highPassConfig
              Examples.constantWaveform 0 0) as [r| |] eqn:Hcall;
    [|vm_compute in Hcall; discriminate..].
  assert (Hvalid : isValid r = true).
  { vm_compute in Hcall. injection Hcall as <-. reflexivity. }
  exists r. repeat split; auto.
  exact (proj2 (integration_keeps_every_computed_band
                  Reference.cos Reference.sqrt Reference.FFT_accepts
                  Reference.FFT_realTransform
                  Examples.highPassConfig Examples.highPassConfig
                  Examples.constantWaveform 0 0 r Hcall Hvalid Hrange Hhp Hq)).
Defined.


Lemma speed_is_first_band_at_twice_the_mean_witness :
  isValid MoreExamples.peakedResult = true /\
  Forall (fun e => wholeNumber (snd e) = true)
    (bandPeaks MoreExamples.peakedResult) /\
  twiceMeanPeak MoreExamples.peakedResult <= 6 /\
  calculateMachineSpeed "2023-01-01T00:00:00Z" MoreExamples.peakedResult
  = (50 + 75) / 2 * 60.
Proof.
  assert (Hle : twiceMeanPeak MoreExamples.peakedResult <= 6)
    by (vm_compute; discriminate).
  assert (Hwhole : Forall (fun e => wholeNumber (snd e) = true)
                     (bandPeaks MoreExamples.peakedResult))
    by (repeat constructor).
  split; [reflexivity|]. split; [exact Hwhole|]. split; [exact Hle|].
  apply (speed_is_first_band_at_twice_the_mean _ MoreExamples.peakedResult
           [((0, 25), 0); ((25, 50), 0)] [((75, 100), 0)] (50, 75) 6).
  - reflexivity.
  - reflexivity.
  - exact Hwhole.
  - vm_compute. discriminate.
  - reflexivity.
  - reflexivity.
  - repeat constructor.
  - exact Hle.
Defined.


Lemma zero_peaks_give_first_band_speed_witness :
  isValid MoreExamples.silentResult = true /\
  Forall (fun e => snd e == 0) (bandPeaks MoreExamples.silentResult) /\
  calculateMachineSpeed "2023-01-01T00:00:00Z" MoreExamples.silentResult
  = (0 + 25) / 2 * 60.
Proof.
  assert (Hzero : Forall (fun e => snd e == 0)
                    (bandPeaks MoreExamples.silentResult))
    by (repeat constructor).
  split; [reflexivity|]. split; [exact Hzero|].
  apply (zero_peaks_give_first_band_speed _ MoreExamples.silentResult
           (0, 25) 0 [((25, 50), 0)]).
  - reflexivity.
  - reflexivity.
  - exact Hzero.
  - vm_compute. discriminate.
Defined.

Lemma trend_lists_valid_results_in_range_witness :
  NoDup (map fst MoreExamples.history) /\
  getPeakInBandTrend MoreExamples.history
    "2023-01-01T00:00:00Z" "2023-01-01T02:00:00Z"
  = [("2023-01-01T00:00:00Z"%string, highestPeak [0; 0]);
     ("2023-01-01T01:00:00Z"%string, highestPeak [0; 0; 6; 0])].
Proof.
  assert (Hnd : NoDup (map fst MoreExamples.history)).
  { change (NoDup ["2023-01-01T00:00:00Z"%string; "2023-01-01T01:00:00Z"%string]).
    apply NoDup_cons. split; [|apply NoDup_singleton].
    intros Hin. apply list_elem_of_singleton in Hin. discriminate. }
  split; [exact Hnd|].
  rewrite (trend_lists_valid_results_in_range MoreExamples.history _ _ Hnd).
  reflexivity.
Defined.

Lemma integrateSpectrum_result_sharing_witness :
  exists result h' fields',
    Store.integrateSpectrum Config.initial Store.exampleStore 3%positive
      = Some (result, h') /\
    h' !! result = Some (Store.ResultObject fields') /\
    Store.isValid fields' = false /\
    Store.bandPeaks fields' = 2%positive.
Proof.
  destruct (Store.integrateSpectrum Config.initial Store.exampleStore 3%positive)
    as [[result h']|] eqn:Hcall; [|vm_compute in Hcall; discriminate].
  destruct (integrateSpectrum_result_sharing Config.initial Store.exampleStore
              3%positive result h' _ Hcall eq_refl)
    as (fields' & Hres & _ & Hshare & _).
  assert (Hinvalid : Store.isValid fields' = false).
  { vm_compute in Hcall. injection Hcall as <- <-.
    vm_compute in Hres. injection Hres as <-. reflexivity. }
  exists result, h', fields'. split; [reflexivity|]. split; [exact Hres|].
  split; [exact Hinvalid|]. exact (Hshare Hinvalid).
Defined.

Lemma store_integrateSpectrum_refines_witness :
  exists s result h',
    Store.view Store.exampleStore 3%positive = Some s /\
    Store.integrateSpectrum Examples.highPassConfig Store.exampleStore 3%positive
      = Some (result, h') /\
    Store.view h' result = Some (integrateSpectrum Examples.highPassConfig s).
Proof.
  destruct (Store.view Store.exampleStore 3%positive) as [s|] eqn:Hview;
    [|vm_compute in Hview; discriminate].
  destruct (store_integrateSpectrum_refines Examples.highPassConfig
              Store.exampleStore 3%positive s Hview)
    as (result & h' & Hcall & Hview').
  - intros fields entries Hin Hmap.
    vm_compute in Hin. injection Hin as <-.
    vm_compute in Hmap. injection Hmap as <-.
    cbn. apply NoDup_singleton.
  - exists s, result, h'. auto.
Defined.

Lemma calculateSpectrum_fuel_suffices_witness :
  wholeNumber (Config.minFrequency Examples.highPassConfig) = true /\
  wholeNumber (Config.bandRange Examples.highPassConfig) = true /\
  ((exists r,
      Reference.calculateSpectrum Examples.highPassConfig
        Examples.constantWaveform 0 0 = Returns r) \/
   Reference.calculateSpectrum Examples.highPassConfig
     Examples.constantWaveform 0 0 = Throws).
Proof.
  split; [reflexivity|]. split; [reflexivity|].
  exact (calculateSpectrum_fuel_suffices
           Reference.cos Reference.sqrt Reference.FFT_accepts
           Reference.FFT_realTransform
           Examples.highPassConfig Examples.constantWaveform 0 0
           eq_refl eq_refl).
Defined.

Lemma setters_keep_field_ranges_witness :
  Forall (fun call => Binary64.argumentIsNaN call = false)
    [Binary64.CallSetMaxFrequency 1; Binary64.CallSetBandRange 0.1;
     Binary64.CallSetNumberOfLines 5] /\
  Binary64.fieldRangesHold
    (Binary64.afterCalls Binary64.Config.initial
       [Binary64.CallSetMaxFrequency 1; Binary64.CallSetBandRange 0.1;
        Binary64.CallSetNumberOfLines 5]) /\
  Binary64.Config.numberOfLines
    (Binary64.afterCalls Binary64.Config.initial
       [Binary64.CallSetMaxFrequency 1; Binary64.CallSetBandRange 0.1;
        Binary64.CallSetNumberOfLines 5]) = 1024%float.
Proof.
  assert (Hcalls : Forall (fun call => Binary64.argumentIsNaN call = false)
            [Binary64.CallSetMaxFrequency 1; Binary64.CallSetBandRange 0.1;
             Binary64.CallSetNumberOfLines 5])
    by (repeat constructor).
  split; [exact Hcalls|]. split; [|reflexivity].
  exact (proj1 (setters_keep_field_ranges _ Hcalls)).
Defined.
